(** * termux-x11: touch input handling and the native X client glue

    A shallow embedding of
    - [app/src/main/java/com/termux/x11/input/TouchInputHandler.java]
      (module [TouchInputHandler]) and
    - [app/src/main/cpp/lorie/android.c], the JNI client half
      (module [Lorie]),
    followed by the properties established about them.

    Java [float] values are IEEE-754 binary32 numbers; they are modelled with
    the parametric specification of the Standard Library ([SpecFloat]) at
    precision 24 and maximal exponent 128, so every arithmetic operation
    rounds as the JVM does.  Java and C [int] values are integers in [Z]. *)

From Stdlib Require Import ZArith List Bool Lia Ascii String.
From Stdlib Require Import Floats.SpecFloat.
Import ListNotations.
Local Open Scope Z_scope.

(* ================================================================== *)
(** ** binary32 arithmetic                                             *)
(* ================================================================== *)

Definition float : Type := spec_float.

Module F32.

Definition prec : Z := 24.
Definition emax : Z := 128.

Definition zero : float := S754_zero false.

(** [(float) z] for an integer [z]: round to nearest, ties to even. *)
Definition of_int (z : Z) : float := binary_normalize prec emax z 0 false.

Definition add (a b : float) : float := SFadd prec emax a b.
Definition sub (a b : float) : float := SFsub prec emax a b.
Definition mul (a b : float) : float := SFmul prec emax a b.
Definition div (a b : float) : float := SFdiv prec emax a b.
Definition neg (a : float) : float := SFopp a.

(** Comparisons: each one is false as soon as an operand is NaN, except
    [neqb] (Java's [!=]) which is then true. *)
Definition ltb (a b : float) : bool :=
  match SFcompare a b with Some Lt => true | _ => false end.
Definition gtb (a b : float) : bool :=
  match SFcompare a b with Some Gt => true | _ => false end.
Definition eqb (a b : float) : bool :=
  match SFcompare a b with Some Eq => true | _ => false end.
Definition leb (a b : float) : bool :=
  match SFcompare a b with Some Lt | Some Eq => true | _ => false end.
Definition neqb (a b : float) : bool := negb (eqb a b).


Definition is_finite (a : float) : bool :=
  match a with S754_zero _ | S754_finite _ _ _ => true | _ => false end.


Definition INT_MIN : Z := -2147483648.
Definition INT_MAX : Z := 2147483647.

(** [(int) a]: truncation towards zero, NaN to 0, saturating. *)
Definition to_int (a : float) : Z :=
  match a with
  | S754_nan => 0
  | S754_zero _ => 0
  | S754_infinity s => if s then INT_MIN else INT_MAX
  | S754_finite s m e =>
      let mag := Z.shiftl (Zpos m) e in
      Z.max INT_MIN (Z.min INT_MAX (if s then - mag else mag))
  end.

End F32.

(** Two's complement wrap-around of 32-bit [int] arithmetic. *)
Definition wrap32 (z : Z) : Z := (z + 2147483648) mod 4294967296 - 2147483648.

(* ================================================================== *)
(** ** TouchInputHandler.java                                          *)
(* ================================================================== *)

Module TouchInputHandler.

(** *** Framework constants ([android.view.MotionEvent], [InputDevice]) *)

Definition ACTION_DOWN : Z := 0.
Definition ACTION_UP : Z := 1.
Definition ACTION_MOVE : Z := 2.
Definition ACTION_POINTER_DOWN : Z := 5.
Definition ACTION_HOVER_MOVE : Z := 7.
Definition ACTION_SCROLL : Z := 8.
Definition ACTION_BUTTON_PRESS : Z := 11.
Definition ACTION_BUTTON_RELEASE : Z := 12.
Definition ACTION_MASK : Z := 255.
Definition ACTION_POINTER_INDEX_MASK : Z := 65280.
Definition ACTION_POINTER_INDEX_SHIFT : Z := 8.

Definition TOOL_TYPE_UNKNOWN : Z := 0.
Definition TOOL_TYPE_FINGER : Z := 1.
Definition TOOL_TYPE_STYLUS : Z := 2.
Definition TOOL_TYPE_MOUSE : Z := 3.
Definition TOOL_TYPE_ERASER : Z := 4.

Definition BUTTON_PRIMARY : Z := 1.
Definition BUTTON_SECONDARY : Z := 2.
Definition BUTTON_TERTIARY : Z := 4.

Definition SOURCE_MOUSE : Z := 8194.         (* 0x00002002 *)
Definition SOURCE_TOUCHSCREEN : Z := 4098.   (* 0x00001002 *)
Definition SOURCE_TOUCHPAD : Z := 1048584.   (* 0x00100008 *)

(** Modelled from the spec: [InputStub] is not among the sources; section
    4.4 gives its button ids, 0 = undefined, 1 = left, 2 = middle,
    3 = right. *)
Definition BUTTON_UNDEFINED : Z := 0.
Definition BUTTON_LEFT : Z := 1.
Definition BUTTON_MIDDLE : Z := 2.
Definition BUTTON_RIGHT : Z := 3.

(** [private static final float EPSILON = 0.001f], the binary32 number
    nearest to 1/1000. *)
Definition EPSILON : float := S754_finite false 8589935 (-33).

(** *** Framework value classes *)

Record PointF := mkPointF { px : float; py : float }.

Record Rect := mkRect { left : Z; top : Z; right : Z; bottom : Z }.

(** [android.graphics.Rect.contains(int, int)]: an empty rectangle contains
    nothing; left and top edges are inside, right and bottom are not. *)
Definition Rect_contains (r : Rect) (x y : Z) : bool :=
  (left r <? right r) && (top r <? bottom r)
  && (left r <=? x) && (x <? right r) && (top r <=? y) && (y <? bottom r).

(** [android.graphics.Matrix].  The program builds matrices with
    [new Matrix()] and [setScale] only, so a matrix is a pair of scale
    factors (no skew, translation or perspective). *)
Record Matrix := mkMatrix { MSCALE_X : float; MSCALE_Y : float }.

Definition Matrix_identity : Matrix := mkMatrix (F32.of_int 1) (F32.of_int 1).

Definition Matrix_setScale (sx sy : float) : Matrix := mkMatrix sx sy.

(** [m.invert(inverse)]: fails, leaving [inverse] untouched, when a scale
    factor is zero. *)
Definition Matrix_invert (m : Matrix) : option Matrix :=
  if F32.eqb (MSCALE_X m) F32.zero || F32.eqb (MSCALE_Y m) F32.zero
  then None
  else Some (mkMatrix (F32.div (F32.of_int 1) (MSCALE_X m))
                      (F32.div (F32.of_int 1) (MSCALE_Y m))).

(** [mapPoints] and [mapVectors] on a two-element array coincide for a
    matrix without translation. *)
Definition Matrix_mapPoints (m : Matrix) (p : float * float) : float * float :=
  (F32.mul (fst p) (MSCALE_X m), F32.mul (snd p) (MSCALE_Y m)).

Definition Matrix_mapVectors (m : Matrix) (p : float * float) : float * float :=
  Matrix_mapPoints m p.

(** The part of [MotionEvent] the handler reads. *)
Record MotionEvent := mkMotionEvent {
  getAction : Z;
  toolTypes : list Z;          (* tool type of each pointer *)
  getSource : Z;
  getX : float;
  getY : float;
  getPointerCount : Z;
  getButtonState : Z;
  getActionButton : Z;
  getFlags : Z;
  AXIS_RELATIVE_X : float;
  AXIS_RELATIVE_Y : float;
  AXIS_VSCROLL : float;
  AXIS_HSCROLL : float
}.

Definition getActionMasked (e : MotionEvent) : Z := Z.land (getAction e) ACTION_MASK.

Definition getActionIndex (e : MotionEvent) : Z :=
  Z.shiftr (Z.land (getAction e) ACTION_POINTER_INDEX_MASK) ACTION_POINTER_INDEX_SHIFT.

(** The action index of a delivered event is a valid pointer index; the
    default is only there to make the lookup total. *)
Definition getToolType (e : MotionEvent) (i : Z) : Z :=
  nth (Z.to_nat i) (toolTypes e) TOOL_TYPE_UNKNOWN.

Record View := mkView { isFocused : bool; hasPointerCapture : bool }.

(** *** Collaborators of the repository that are not in the sources *)

(** Modelled from the spec: the [InputStrategyInterface] implementations
    are not among the sources.  Section 4.3 names three variants and says
    that only Trackpad is an indirect input mode; whether a tap or a hold
    is consumed is left to the implementation, see [StrategyBehaviour]. *)
Inductive InputStrategy :=
| TrackpadInputStrategy
| SimulatedTouchInputStrategy
| TouchInputStrategy.

Definition isIndirectInputMode (s : InputStrategy) : bool :=
  match s with TrackpadInputStrategy => true | _ => false end.

Class StrategyBehaviour := {
  onTap_consumed : InputStrategy -> Z -> bool;
  onPressAndHold_consumed : InputStrategy -> Z -> bool
}.

Inductive FeedbackType :=
| ShortPressFeedbackType (s : InputStrategy)
| LongPressFeedbackType (s : InputStrategy).

Inductive Detector := Scroller | Zoomer | TapDetector | SwipePinchDetector | DexScroller.

(** Calls made on the collaborators, in program order. *)
Inductive Effect :=
| LogD
| ViewRequestFocus
| ViewRequestPointerCapture
| DetectorOnTouchEvent (d : Detector)
| StrategyOnMotionEvent (s : InputStrategy) (e : MotionEvent)
| StrategyInjectCursorMoveEvent (s : InputStrategy) (x y : Z)
| StrategyOnScroll (s : InputStrategy) (dx dy : float)
| StrategyOnTap (s : InputStrategy) (button : Z)
| StrategyOnPressAndHold (s : InputStrategy) (button : Z)
| StubMoveCursor (p : PointF)
| StubSwipeDown
| StubSwipeUp
| StubShowInputFeedback (t : FeedbackType) (p : PointF)
| InjectorSendMouseEvent (p : PointF) (button : Z) (down relative : bool)
| InjectorSendCursorMove (x y : float)
| InjectorSendMouseDown (p : PointF) (button : Z)
| InjectorSendMouseUp (p : PointF) (button : Z)
| InjectorSendMouseWheelEvent (dx dy : float).

(** What the gesture detectors report back while they look at one event.
    The detectors are framework classes ([GestureDetector],
    [ScaleGestureDetector]) or absent repository classes
    ([TapGestureDetector], [SwipeDetector]); their decisions are inputs. *)
Inductive GestureCallback :=
| OnScroll (e1 e2 : MotionEvent) (distanceX distanceY : float) (isSwiping : bool)
| OnTap (pointerCount : Z) (x y : float)
| OnLongPress (pointerCount : Z) (x y : float)
| OnDown
| OnScale
| OnScaleBegin
| OnScaleEnd.

Inductive DexCallback :=
| DexOnScroll (distanceX distanceY : float)
| DexOnSingleTapConfirmed
| DexOnDoubleTapEvent.

Record DetectorOracle := mkOracle {
  scrollerCallbacks : list GestureCallback;
  zoomerCallbacks : list GestureCallback;
  tapCallbacks : list GestureCallback;
  dexCallbacks : list DexCallback
}.

(** *** State *)

(** Modelled from the spec: [RenderData] (RenderState in section 3) is not
    among the sources.  Section 3 lists its fields and its invariant:
    "cursorPosition is always clamped to [0, imageWidth] x [0, imageHeight]".
    Its two accessors are called by [moveCursor], [moveCursorByOffset] and
    the listeners: [getCursorPosition] hands out a copy of the stored point;
    [setCursorPosition] keeps the invariant by storing the point it is given
    clamped to that rectangle, and its result, which the callers name
    [cursorMoved], tells whether the stored point differs from the old
    one. *)
Record RenderData := mkRenderData {
  screenWidth : Z;
  screenHeight : Z;
  imageWidth : Z;
  imageHeight : Z;
  transform : Matrix;
  mCursorPosition : PointF
}.

Record ButtonState := mkButtonState { savedBS : Z; currentBS : Z }.

Record DexState := mkDexState {
  dexButtons : ButtonState;
  dexIsDragging : bool;
  dexIsScrolling : bool
}.

(** The mutable fields of one [TouchInputHandler] object. *)
Record Handler := mkHandler {
  mInputStrategy : InputStrategy;
  mTotalMotionY : float;
  mSwipeThreshold : float;
  mEdgeSlopInPx : Z;
  mPanGestureBounds : Rect;
  mSuppressCursorMovement : bool;
  mSwipeCompleted : bool;
  mIsDragging : bool;
  mHMListener : ButtonState;
  mDexListener : DexState
}.

Record InputEventSender := mkInjector { pointerCapture : bool; preferScancodes : bool }.

(** The public constructor builds exactly two handlers: the one handed to
    the caller and, in its [mTouchpadHandler] field, a second one built with
    [isTouchpad = true] whose own [mTouchpadHandler] is [null].  Both share
    one [RenderData] and one [InputEventSender]. *)
Inductive Which := Main | Touchpad.

Record World := mkWorld {
  mRenderData : RenderData;
  mInjector : InputEventSender;
  mainHandler : Handler;
  touchpadHandler : Handler
}.

Definition mTouchpadHandler (this : Which) : option Which :=
  match this with Main => Some Touchpad | Touchpad => None end.

Definition hasTouchpadHandler (this : Which) : bool :=
  match mTouchpadHandler this with Some _ => true | None => false end.

Definition handler (this : Which) (w : World) : Handler :=
  match this with Main => mainHandler w | Touchpad => touchpadHandler w end.

Definition set_handler (this : Which) (h : Handler) (w : World) : World :=
  match this with
  | Main => mkWorld (mRenderData w) (mInjector w) h (touchpadHandler w)
  | Touchpad => mkWorld (mRenderData w) (mInjector w) (mainHandler w) h
  end.

Definition set_renderData (rd : RenderData) (w : World) : World :=
  mkWorld rd (mInjector w) (mainHandler w) (touchpadHandler w).

Definition set_injector (i : InputEventSender) (w : World) : World :=
  mkWorld (mRenderData w) i (mainHandler w) (touchpadHandler w).

(** Field updates. *)
Definition with_mInputStrategy (v : InputStrategy) (h : Handler) : Handler :=
  mkHandler v (mTotalMotionY h) (mSwipeThreshold h) (mEdgeSlopInPx h)
    (mPanGestureBounds h) (mSuppressCursorMovement h) (mSwipeCompleted h)
    (mIsDragging h) (mHMListener h) (mDexListener h).
Definition with_mTotalMotionY (v : float) (h : Handler) : Handler :=
  mkHandler (mInputStrategy h) v (mSwipeThreshold h) (mEdgeSlopInPx h)
    (mPanGestureBounds h) (mSuppressCursorMovement h) (mSwipeCompleted h)
    (mIsDragging h) (mHMListener h) (mDexListener h).
Definition with_mPanGestureBounds (v : Rect) (h : Handler) : Handler :=
  mkHandler (mInputStrategy h) (mTotalMotionY h) (mSwipeThreshold h) (mEdgeSlopInPx h)
    v (mSuppressCursorMovement h) (mSwipeCompleted h)
    (mIsDragging h) (mHMListener h) (mDexListener h).
Definition with_mSuppressCursorMovement (v : bool) (h : Handler) : Handler :=
  mkHandler (mInputStrategy h) (mTotalMotionY h) (mSwipeThreshold h) (mEdgeSlopInPx h)
    (mPanGestureBounds h) v (mSwipeCompleted h)
    (mIsDragging h) (mHMListener h) (mDexListener h).
Definition with_mSwipeCompleted (v : bool) (h : Handler) : Handler :=
  mkHandler (mInputStrategy h) (mTotalMotionY h) (mSwipeThreshold h) (mEdgeSlopInPx h)
    (mPanGestureBounds h) (mSuppressCursorMovement h) v
    (mIsDragging h) (mHMListener h) (mDexListener h).
Definition with_mIsDragging (v : bool) (h : Handler) : Handler :=
  mkHandler (mInputStrategy h) (mTotalMotionY h) (mSwipeThreshold h) (mEdgeSlopInPx h)
    (mPanGestureBounds h) (mSuppressCursorMovement h) (mSwipeCompleted h)
    v (mHMListener h) (mDexListener h).
Definition with_mHMListener (v : ButtonState) (h : Handler) : Handler :=
  mkHandler (mInputStrategy h) (mTotalMotionY h) (mSwipeThreshold h) (mEdgeSlopInPx h)
    (mPanGestureBounds h) (mSuppressCursorMovement h) (mSwipeCompleted h)
    (mIsDragging h) v (mDexListener h).
Definition with_mDexListener (v : DexState) (h : Handler) : Handler :=
  mkHandler (mInputStrategy h) (mTotalMotionY h) (mSwipeThreshold h) (mEdgeSlopInPx h)
    (mPanGestureBounds h) (mSuppressCursorMovement h) (mSwipeCompleted h)
    (mIsDragging h) (mHMListener h) v.

Definition with_screen (w h : Z) (rd : RenderData) : RenderData :=
  mkRenderData w h (imageWidth rd) (imageHeight rd) (transform rd) (mCursorPosition rd).
Definition with_image (w h : Z) (rd : RenderData) : RenderData :=
  mkRenderData (screenWidth rd) (screenHeight rd) w h (transform rd) (mCursorPosition rd).
Definition with_transform (m : Matrix) (rd : RenderData) : RenderData :=
  mkRenderData (screenWidth rd) (screenHeight rd) (imageWidth rd) (imageHeight rd)
    m (mCursorPosition rd).
Definition with_cursor (p : PointF) (rd : RenderData) : RenderData :=
  mkRenderData (screenWidth rd) (screenHeight rd) (imageWidth rd) (imageHeight rd)
    (transform rd) p.

(** *** A state-and-trace monad for the method bodies *)

Definition M (A : Type) : Type := World -> A * World * list Effect.

Definition ret {A} (a : A) : M A := fun w => (a, w, []).

Definition bind {A B} (m : M A) (k : A -> M B) : M B :=
  fun w =>
    let '(a, w1, t1) := m w in
    let '(b, w2, t2) := k a w1 in
    (b, w2, t1 ++ t2).

Definition get : M World := fun w => (w, w, []).
Definition modify (f : World -> World) : M unit := fun w => (tt, f w, []).
Definition emit (e : Effect) : M unit := fun w => (tt, w, [e]).
Definition when (b : bool) (m : M unit) : M unit := if b then m else ret tt.

Declare Scope java_scope.
Delimit Scope java_scope with java.
Notation "x <- m ;; k" := (bind m (fun x => k))
  (at level 61, m at next level, right associativity) : java_scope.
Notation "m ;; k" := (bind m (fun _ => k))
  (at level 61, right associativity) : java_scope.
Local Open Scope java_scope.

Definition result {A} (r : A * World * list Effect) : A := fst (fst r).
Definition world_of {A} (r : A * World * list Effect) : World := snd (fst r).
Definition trace_of {A} (r : A * World * list Effect) : list Effect := snd r.

Fixpoint forEach {A} (f : A -> M unit) (l : list A) : M unit :=
  match l with
  | [] => ret tt
  | a :: l' => f a ;; forEach f l'
  end.

Definition this_handler (this : Which) : M Handler :=
  w <- get ;; ret (handler this w).

Definition update_this (this : Which) (f : Handler -> Handler) : M unit :=
  modify (fun w => set_handler this (f (handler this w)) w).

Definition renderData : M RenderData := w <- get ;; ret (mRenderData w).

Definition update_renderData (f : RenderData -> RenderData) : M unit :=
  modify (fun w => set_renderData (f (mRenderData w)) w).

(** Modelled from the spec: the clamp of the invariant of section 3, one
    coordinate at a time.  A coordinate inside [0, size] is kept, one above
    becomes [size], and anything else (below 0, or not a number) becomes 0,
    so that what is stored is always inside. *)
Definition clampToImage (size : Z) (x : float) : float :=
  if F32.leb (F32.of_int 0) x && F32.leb x (F32.of_int size) then x
  else if F32.gtb x (F32.of_int size) then F32.of_int size
  else F32.of_int 0.

(** The point [setCursorPosition(x, y)] stores. *)
Definition storedPoint (rd : RenderData) (x y : float) : PointF :=
  mkPointF (clampToImage (imageWidth rd) x) (clampToImage (imageHeight rd) y).

(** Modelled from the spec: [RenderData.getCursorPosition()] and
    [setCursorPosition(x, y)], as described with [RenderData] above. *)
Definition getCursorPosition : M PointF :=
  rd <- renderData ;; ret (mCursorPosition rd).

Definition setCursorPosition (newX newY : float) : M bool :=
  rd <- renderData ;;
  let old := mCursorPosition rd in
  let new := storedPoint rd newX newY in
  update_renderData (with_cursor new) ;;
  ret (F32.neqb (px new) (px old) || F32.neqb (py new) (py old)).

Section Methods.
Context {SB : StrategyBehaviour}.

(** [isDexEvent] *)
Definition isDexEvent (event : MotionEvent) : bool :=
  let SOURCE_DEX := Z.lor SOURCE_MOUSE SOURCE_TOUCHSCREEN in
  (Z.land (getSource event) SOURCE_DEX =? SOURCE_DEX)
  && negb (Z.land (getSource event) SOURCE_TOUCHPAD =? SOURCE_TOUCHPAD).

(** [resetTransformation] *)
Definition resetTransformation : M unit :=
  rd <- renderData ;;
  let sx := F32.div (F32.of_int (imageWidth rd)) (F32.of_int (screenWidth rd)) in
  let sy := F32.div (F32.of_int (imageHeight rd)) (F32.of_int (screenHeight rd)) in
  update_renderData (with_transform (Matrix_setScale sx sy)).

(** [mapScreenPointToImagePoint]: the fresh matrix stays the identity
    when the transform cannot be inverted. *)
Definition mapScreenPointToImagePoint (screenX screenY : float) : M (float * float) :=
  rd <- renderData ;;
  let screenToImage :=
    match Matrix_invert (transform rd) with
    | Some inv => inv
    | None => Matrix_identity
    end in
  ret (Matrix_mapPoints screenToImage (screenX, screenY)).

(** [moveCursor] *)
Definition moveCursor (this : Which) (newX newY : float) : M unit :=
  cursorMoved <- setCursorPosition newX newY ;;
  h <- this_handler this ;;
  when cursorMoved
    (emit (StrategyInjectCursorMoveEvent (mInputStrategy h)
             (F32.to_int newX) (F32.to_int newY))) ;;
  pos <- getCursorPosition ;;
  emit (StubMoveCursor pos).

(** [moveCursorByOffset] *)
Definition moveCursorByOffset (this : Which) (deltaX deltaY : float) : M unit :=
  cursorPos <- getCursorPosition ;;
  rd <- renderData ;;
  (* cursorPos.offset(-deltaX, -deltaY) *)
  let x := F32.add (px cursorPos) (F32.neg deltaX) in
  let y := F32.add (py cursorPos) (F32.neg deltaY) in
  let x := if F32.ltb x (F32.of_int 0) then F32.of_int 0 else x in
  let y := if F32.ltb y (F32.of_int 0) then F32.of_int 0 else y in
  let x := if F32.gtb x (F32.of_int (screenWidth rd))
           then F32.of_int (screenWidth rd) else x in
  let y := if F32.gtb y (F32.of_int (screenHeight rd))
           then F32.of_int (screenHeight rd) else y in
  moveCursor this x y.

(** [moveCursorToScreenPoint] *)
Definition moveCursorToScreenPoint (this : Which) (screenX screenY : float) : M unit :=
  imagePoint <- mapScreenPointToImagePoint screenX screenY ;;
  moveCursor this (fst imagePoint) (snd imagePoint).

(** [handleClientSizeChanged], without the call on [mTouchpadHandler] *)
Definition handleClientSizeChanged_own (w h : Z) : M unit :=
  update_renderData (with_screen w h) ;;
  resetTransformation.

Definition handleClientSizeChanged (this : Which) (w h : Z) : M unit :=
  handleClientSizeChanged_own w h ;;
  match mTouchpadHandler this with
  | Some _ => handleClientSizeChanged_own w h
  | None => ret tt
  end.

(** [handleHostSizeChanged], without the call on [mTouchpadHandler] *)
Definition handleHostSizeChanged_own (this : Which) (w h : Z) : M unit :=
  update_renderData (with_image w h) ;;
  me <- this_handler this ;;
  let slop := mEdgeSlopInPx me in
  update_this this
    (with_mPanGestureBounds (mkRect slop slop (wrap32 (w - slop)) (wrap32 (h - slop)))) ;;
  moveCursorToScreenPoint this
    (F32.div (F32.of_int w) (F32.of_int 2)) (F32.div (F32.of_int h) (F32.of_int 2)) ;;
  resetTransformation.

Definition handleHostSizeChanged (this : Which) (w h : Z) : M unit :=
  handleHostSizeChanged_own this w h ;;
  match mTouchpadHandler this with
  | Some t => handleHostSizeChanged_own t w h
  | None => ret tt
  end.

(** [setInputMode]; the argument is one of the [InputMode] constants. *)
Definition InputMode_UNKNOWN : Z := 0.
Definition InputMode_TRACKPAD : Z := 1.
Definition InputMode_SIMULATED_TOUCH : Z := 2.
Definition InputMode_TOUCH : Z := 3.

Definition setInputMode (this : Which) (inputMode : Z) : M unit :=
  update_this this
    (with_mInputStrategy
       (if inputMode =? InputMode_TOUCH then TouchInputStrategy
        else if inputMode =? InputMode_SIMULATED_TOUCH then SimulatedTouchInputStrategy
        else TrackpadInputStrategy)).

(** [onSwipe] *)
Definition onSwipe (this : Which) : M bool :=
  h <- this_handler this ;;
  if F32.gtb (mTotalMotionY h) (mSwipeThreshold h) then
    emit StubSwipeDown ;;
    update_this this (with_mSuppressCursorMovement true) ;;
    update_this this (with_mSwipeCompleted true) ;;
    ret true
  else if F32.ltb (mTotalMotionY h) (F32.neg (mSwipeThreshold h)) then
    emit StubSwipeUp ;;
    update_this this (with_mSuppressCursorMovement true) ;;
    update_this this (with_mSwipeCompleted true) ;;
    ret true
  else ret false.

(** [mouseButtonFromMotionEvent] *)
Definition mouseButtonFromMotionEvent (e : MotionEvent) : Z :=
  if getActionButton e =? BUTTON_PRIMARY then BUTTON_LEFT
  else if getActionButton e =? BUTTON_SECONDARY then BUTTON_RIGHT
  else if getActionButton e =? BUTTON_TERTIARY then BUTTON_MIDDLE
  else BUTTON_UNDEFINED.

(** [GestureListener.mouseButtonFromPointerCount] *)
Definition mouseButtonFromPointerCount (pointerCount : Z) : Z :=
  if pointerCount =? 1 then BUTTON_LEFT
  else if pointerCount =? 2 then BUTTON_RIGHT
  else if pointerCount =? 3 then BUTTON_MIDDLE
  else BUTTON_UNDEFINED.

(** [GestureListener.screenPointLiesOutsideImageBoundary] *)
Definition screenPointLiesOutsideImageBoundary (screenX screenY : float) : M bool :=
  mappedPoints <- mapScreenPointToImagePoint screenX screenY ;;
  rd <- renderData ;;
  let imageWidth := F32.add (F32.of_int (imageWidth rd)) EPSILON in
  let imageHeight := F32.add (F32.of_int (imageHeight rd)) EPSILON in
  ret (F32.ltb (fst mappedPoints) (F32.neg EPSILON)
       || F32.gtb (fst mappedPoints) imageWidth
       || F32.ltb (snd mappedPoints) (F32.neg EPSILON)
       || F32.gtb (snd mappedPoints) imageHeight).

(** [GestureListener.onScroll] *)
Definition onScroll (this : Which) (e1 e2 : MotionEvent)
    (distanceX distanceY : float) (isSwiping : bool) : M bool :=
  let pointerCount := getPointerCount e2 in
  h <- this_handler this ;;
  if negb (Rect_contains (mPanGestureBounds h)
             (F32.to_int (getX e1)) (F32.to_int (getY e1)))
     && hasTouchpadHandler this
  then
    update_this this (with_mSuppressCursorMovement true) ;;
    ret false
  else if (3 <=? pointerCount) && negb (mSwipeCompleted h) then
    update_this this (with_mTotalMotionY (F32.sub (mTotalMotionY h) distanceY)) ;;
    onSwipe this
  else if (pointerCount =? 2) && isSwiping then
    when (negb (isIndirectInputMode (mInputStrategy h)))
      (moveCursorToScreenPoint this (getX e1) (getY e1)) ;;
    emit (StrategyOnScroll (mInputStrategy h) distanceX distanceY) ;;
    update_this this (with_mSuppressCursorMovement true) ;;
    ret true
  else if negb (pointerCount =? 1) || mSuppressCursorMovement h then
    ret false
  else
    rd <- renderData ;;
    let canvasToImage :=
      match Matrix_invert (transform rd) with
      | Some inv => inv
      | None => Matrix_identity
      end in
    let delta := Matrix_mapVectors canvasToImage (distanceX, distanceY) in
    when (isIndirectInputMode (mInputStrategy h))
      (moveCursorByOffset this (fst delta) (snd delta)) ;;
    when (negb (isIndirectInputMode (mInputStrategy h)) && mIsDragging h)
      (moveCursorToScreenPoint this (getX e2) (getY e2)) ;;
    ret true.

(** [GestureListener.onTap] *)
Definition onTap (this : Which) (pointerCount : Z) (x y : float) : M bool :=
  let button := mouseButtonFromPointerCount pointerCount in
  if button =? BUTTON_UNDEFINED then ret false
  else
    h <- this_handler this ;;
    let strategy := mInputStrategy h in
    let forward : M bool :=
      emit (StrategyOnTap strategy button) ;;
      (if onTap_consumed strategy button then
         pos <- getCursorPosition ;;
         emit (StubShowInputFeedback (ShortPressFeedbackType strategy) pos)
       else ret tt) ;;
      ret true in
    if negb (isIndirectInputMode strategy) then
      outside <- screenPointLiesOutsideImageBoundary x y ;;
      if outside then ret false
      else moveCursorToScreenPoint this x y ;; forward
    else forward.

(** [GestureListener.onLongPress] *)
Definition onLongPress (this : Which) (pointerCount : Z) (x y : float) : M unit :=
  let button := mouseButtonFromPointerCount pointerCount in
  if button =? BUTTON_UNDEFINED then ret tt
  else
    h <- this_handler this ;;
    let strategy := mInputStrategy h in
    let forward : M unit :=
      emit (StrategyOnPressAndHold strategy button) ;;
      if onPressAndHold_consumed strategy button then
        pos <- getCursorPosition ;;
        emit (StubShowInputFeedback (LongPressFeedbackType strategy) pos) ;;
        update_this this (with_mIsDragging true)
      else ret tt in
    if negb (isIndirectInputMode strategy) then
      outside <- screenPointLiesOutsideImageBoundary x y ;;
      if outside then ret tt
      else moveCursorToScreenPoint this x y ;; forward
    else forward.

(** Dispatch of one listener callback; [onDown], [onScale],
    [onScaleBegin] and [onScaleEnd] do nothing. *)
Definition gestureListener (this : Which) (cb : GestureCallback) : M unit :=
  match cb with
  | OnScroll e1 e2 dx dy sw => _ <- onScroll this e1 e2 dx dy sw ;; ret tt
  | OnTap pc x y => _ <- onTap this pc x y ;; ret tt
  | OnLongPress pc x y => onLongPress this pc x y
  | OnDown | OnScale | OnScaleBegin | OnScaleEnd => ret tt
  end.

(** [handleCapturedEvent] *)
Definition handleCapturedEvent (this : Which)
    (nested : option (View -> MotionEvent -> DetectorOracle -> M bool))
    (v : View) (e : MotionEvent) (o : DetectorOracle) : M bool :=
  if Z.land (getSource e) SOURCE_TOUCHPAD =? SOURCE_TOUCHPAD then
    match nested with
    | Some handleTouchEvent => _ <- handleTouchEvent v e o ;; ret true
    | None => ret true
    end
  else
    let button := mouseButtonFromMotionEvent e in
    if getAction e =? ACTION_MOVE then
      if F32.eqb (getX e) (F32.of_int 0) && F32.eqb (getY e) (F32.of_int 0)
      then ret true
      else
        moveCursorByOffset this
          (F32.mul (F32.neg (getX e)) (F32.of_int 2))
          (F32.mul (F32.neg (getY e)) (F32.of_int 2)) ;;
        ret true
    else if getAction e =? ACTION_BUTTON_PRESS then
      pos <- getCursorPosition ;;
      emit (InjectorSendMouseDown pos button) ;;
      ret true
    else if getAction e =? ACTION_BUTTON_RELEASE then
      pos <- getCursorPosition ;;
      emit (InjectorSendMouseUp pos button) ;;
      ret true
    else if getAction e =? ACTION_SCROLL then
      let scrollY := F32.mul (F32.of_int (-100)) (AXIS_VSCROLL e) in
      let scrollX := F32.mul (F32.of_int (-100)) (AXIS_HSCROLL e) in
      emit (InjectorSendMouseWheelEvent scrollX scrollY) ;;
      ret true
    else ret true.

(** [TouchpadListener.onTouch] *)
Definition TouchpadListener_onTouch (this : Which) (v : View) (e : MotionEvent) : M unit :=
  w <- get ;;
  when (pointerCapture (mInjector w) && negb (hasPointerCapture v)
        && (getAction e =? ACTION_UP))
    (emit ViewRequestPointerCapture) ;;
  when ((getActionMasked e =? ACTION_MOVE) && (getPointerCount e =? 1)
        && (Z.land (getSource e) SOURCE_TOUCHPAD =? SOURCE_TOUCHPAD))
    (moveCursorByOffset this
       (F32.mul (F32.of_int (-2)) (AXIS_RELATIVE_X e))
       (F32.mul (F32.of_int (-2)) (AXIS_RELATIVE_Y e))).

(** [isMouseButtonChanged] and [mouseButtonDown] of both listeners *)
Definition isMouseButtonChanged (bs : ButtonState) (mask : Z) : bool :=
  negb (Z.land (savedBS bs) mask =? Z.land (currentBS bs) mask).

Definition mouseButtonDown (bs : ButtonState) (mask : Z) : bool :=
  negb (Z.land (currentBS bs) mask =? 0).

(** The button-state diff shared by [HardwareMouseListener.onTouch] and
    [DexListener.onTouch]; it returns the listener state to store. *)
Definition sendButtonChanges (bs : ButtonState) (e : MotionEvent) : M ButtonState :=
  let bs := mkButtonState (savedBS bs) (getButtonState e) in
  when (isMouseButtonChanged bs BUTTON_PRIMARY)
    (pos <- getCursorPosition ;;
     emit (InjectorSendMouseEvent pos 1 (mouseButtonDown bs BUTTON_PRIMARY) false)) ;;
  when (isMouseButtonChanged bs BUTTON_TERTIARY)
    (pos <- getCursorPosition ;;
     emit (InjectorSendMouseEvent pos 2 (mouseButtonDown bs BUTTON_TERTIARY) false)) ;;
  when (isMouseButtonChanged bs BUTTON_SECONDARY)
    (pos <- getCursorPosition ;;
     emit (InjectorSendMouseEvent pos 3 (mouseButtonDown bs BUTTON_SECONDARY) false)) ;;
  ret (mkButtonState (currentBS bs) (currentBS bs)).

(** The absolute move of the mouse and Dex paths:
    [mapScreenPointToImagePoint((int) e.getX(), (int) e.getY())], then
    [setCursorPosition] and [sendCursorMove] when the position changed. *)
Definition moveCursorToEvent (e : MotionEvent) : M unit :=
  imagePoint <- mapScreenPointToImagePoint
                  (F32.of_int (F32.to_int (getX e))) (F32.of_int (F32.to_int (getY e))) ;;
  moved <- setCursorPosition (fst imagePoint) (snd imagePoint) ;;
  when moved (emit (InjectorSendCursorMove (fst imagePoint) (snd imagePoint))).

(** [HardwareMouseListener.onTouch] *)
Definition HardwareMouseListener_onTouch (this : Which) (v : View) (e : MotionEvent)
    : M bool :=
  w <- get ;;
  when (pointerCapture (mInjector w) && negb (hasPointerCapture v)
        && (getAction e =? ACTION_UP))
    (emit ViewRequestPointerCapture) ;;
  if getAction e =? ACTION_SCROLL then
    let scrollY := F32.mul (F32.of_int (-100)) (AXIS_VSCROLL e) in
    let scrollX := F32.mul (F32.of_int (-100)) (AXIS_HSCROLL e) in
    emit (InjectorSendMouseWheelEvent scrollX scrollY) ;;
    ret true
  else
    moveCursorToEvent e ;;
    h <- this_handler this ;;
    bs <- sendButtonChanges (mHMListener h) e ;;
    update_this this (with_mHMListener bs) ;;
    ret true.

(** Callbacks of [DexListener], a [SimpleOnGestureListener]. *)
Definition DexListener_onSingleTapConfirmed : M unit :=
  pos <- getCursorPosition ;;
  emit (InjectorSendMouseEvent pos 1 true false) ;;
  pos <- getCursorPosition ;;
  emit (InjectorSendMouseEvent pos 1 false false).

Definition dexListener (cb : DexCallback) : M unit :=
  match cb with
  | DexOnScroll dx dy => emit (InjectorSendMouseWheelEvent dx dy)
  | DexOnSingleTapConfirmed => DexListener_onSingleTapConfirmed
  | DexOnDoubleTapEvent =>
      DexListener_onSingleTapConfirmed ;; DexListener_onSingleTapConfirmed
  end.

(** [mScroller.onTouchEvent(e)] and [mScroller.onGenericMotionEvent(e)]
    inside [DexListener]. *)
Definition dexScroller (o : DetectorOracle) : M unit :=
  emit (DetectorOnTouchEvent DexScroller) ;;
  forEach dexListener (dexCallbacks o).

Definition FLAG_DEX_SCROLL : Z := 335544320.   (* 0x14000000 *)
Definition FLAG_DEX_DRAG : Z := 67108864.      (* 0x04000000 *)

Definition update_dex (this : Which) (f : DexState -> DexState) : M unit :=
  update_this this (fun h => with_mDexListener (f (mDexListener h)) h).

(** [DexListener.onTouch] *)
Definition DexListener_onTouch (this : Which) (v : View) (e : MotionEvent)
    (o : DetectorOracle) : M bool :=
  h <- this_handler this ;;
  let dex := mDexListener h in
  let scrollFlags := Z.land (getFlags e) FLAG_DEX_SCROLL =? FLAG_DEX_SCROLL in
  let dragFlags := Z.land (getFlags e) FLAG_DEX_DRAG =? FLAG_DEX_DRAG in
  (if (getActionMasked e =? ACTION_BUTTON_PRESS)
      || (getActionMasked e =? ACTION_BUTTON_RELEASE) then
     dexScroller o ;;
     bs <- sendButtonChanges (dexButtons dex) e ;;
     update_dex this (fun d => mkDexState bs (dexIsDragging d) (dexIsScrolling d))
   else if getActionMasked e =? ACTION_HOVER_MOVE then
     moveCursorToEvent e
   else if getActionMasked e =? ACTION_DOWN then
     if scrollFlags then
       update_dex this (fun d => mkDexState (dexButtons d) (dexIsDragging d) true) ;;
       dexScroller o
     else if dragFlags then
       update_dex this (fun d => mkDexState (dexButtons d) true (dexIsScrolling d)) ;;
       pos <- getCursorPosition ;;
       emit (InjectorSendMouseEvent pos 1 true false)
     else ret tt
   else if getActionMasked e =? ACTION_UP then
     (if scrollFlags then
        dexScroller o ;;
        update_dex this (fun d => mkDexState (dexButtons d) (dexIsDragging d) false)
      else if dragFlags then
        pos <- getCursorPosition ;;
        emit (InjectorSendMouseEvent pos 1 false false) ;;
        update_dex this (fun d => mkDexState (dexButtons d) false (dexIsScrolling d))
      else ret tt) ;;
     w <- get ;;
     when (pointerCapture (mInjector w) && negb (hasPointerCapture v))
       (emit ViewRequestPointerCapture)
   else if getActionMasked e =? ACTION_MOVE then
     if dexIsScrolling dex && scrollFlags then dexScroller o
     else if dexIsDragging dex && dragFlags then moveCursorToEvent e
     else ret tt
   else ret tt) ;;
  ret true.

(** The finger branch of [handleTouchEvent]: the strategy and every
    detector see the event, then the session flags are reset on
    [ACTION_DOWN] and the swipe accumulator on [ACTION_POINTER_DOWN]. *)
Definition gesturePipeline (this : Which) (view : View) (event : MotionEvent)
    (o : DetectorOracle) : M bool :=
  h <- this_handler this ;;
  emit (StrategyOnMotionEvent (mInputStrategy h) event) ;;
  emit (DetectorOnTouchEvent Scroller) ;;
  forEach (gestureListener this) (scrollerCallbacks o) ;;
  emit (DetectorOnTouchEvent Zoomer) ;;
  forEach (gestureListener this) (zoomerCallbacks o) ;;
  emit (DetectorOnTouchEvent TapDetector) ;;
  forEach (gestureListener this) (tapCallbacks o) ;;
  emit (DetectorOnTouchEvent SwipePinchDetector) ;;
  TouchpadListener_onTouch this view event ;;
  (if getActionMasked event =? ACTION_DOWN then
     update_this this (with_mSuppressCursorMovement false) ;;
     update_this this (with_mSwipeCompleted false) ;;
     update_this this (with_mIsDragging false)
   else if getActionMasked event =? ACTION_POINTER_DOWN then
     update_this this (with_mTotalMotionY (F32.of_int 0))
   else ret tt) ;;
  ret true.

(** [handleTouchEvent]; [nested] is the same method of
    [mTouchpadHandler] when that field is not [null]. *)
Definition handleTouchEventBody
    (nested : option (View -> MotionEvent -> DetectorOracle -> M bool))
    (this : Which) (view : View) (event : MotionEvent) (o : DetectorOracle) : M bool :=
  emit LogD ;;
  when (negb (isFocused view) && (getAction event =? ACTION_DOWN))
    (emit ViewRequestFocus) ;;
  if getToolType event (getActionIndex event) =? TOOL_TYPE_MOUSE then
    HardwareMouseListener_onTouch this view event
  else if getToolType event (getActionIndex event) =? TOOL_TYPE_FINGER then
    if isDexEvent event then DexListener_onTouch this view event o
    else
      match nested with
      | Some touchpad_handleTouchEvent =>
          if Z.land (getSource event) SOURCE_TOUCHPAD =? SOURCE_TOUCHPAD
          then touchpad_handleTouchEvent view event o
          else gesturePipeline this view event o
      | None => gesturePipeline this view event o
      end
  else ret false.

Definition handleTouchEventOf (this : Which)
    : View -> MotionEvent -> DetectorOracle -> M bool :=
  match this with
  | Touchpad => handleTouchEventBody None Touchpad
  | Main => handleTouchEventBody (Some (handleTouchEventBody None Touchpad)) Main
  end.

(** The entry point of the handler given to the application. *)
Definition handleTouchEvent : View -> MotionEvent -> DetectorOracle -> M bool :=
  handleTouchEventOf Main.

End Methods.

(** *** Construction *)

(** Modelled from the spec: a fresh [RenderData] has zero sizes, the
    identity transform and the cursor at the origin. *)
Definition new_RenderData : RenderData :=
  mkRenderData 0 0 0 0 Matrix_identity (mkPointF F32.zero F32.zero).

(** The private constructor: trackpad mode, a swipe threshold of 40
    density-independent pixels, an empty pan boundary.  [density] and
    [edgeSlop] are read from the Android context. *)
Definition new_Handler (density : float) (edgeSlop : Z) : Handler :=
  mkHandler TrackpadInputStrategy F32.zero (F32.mul (F32.of_int 40) density) edgeSlop
    (mkRect 0 0 0 0) false false false
    (mkButtonState 0 0) (mkDexState (mkButtonState 0 0) false false).

(** The public constructor. *)
Definition new_TouchInputHandler (density : float) (edgeSlop : Z) : World :=
  mkWorld new_RenderData (mkInjector false false)
    (new_Handler density edgeSlop) (new_Handler density edgeSlop).

(** *** Vocabulary of the statements *)

Definition cursor (w : World) : PointF := mCursorPosition (mRenderData w).

Definition scale (w : World) : float * float :=
  (MSCALE_X (transform (mRenderData w)), MSCALE_Y (transform (mRenderData w))).

(** The point a screen point is mapped to, in image space. *)
Definition imagePointOf (w : World) (screenX screenY : float) : float * float :=
  Matrix_mapPoints
    (match Matrix_invert (transform (mRenderData w)) with
     | Some inv => inv
     | None => Matrix_identity
     end) (screenX, screenY).

(** What an accepted tap hands on: the button to the input strategy and,
    when the strategy consumed it, the feedback at the cursor position. *)
Definition tapForwarded {SB : StrategyBehaviour} (strategy : InputStrategy) (button : Z)
    (pos : PointF) : list Effect :=
  StrategyOnTap strategy button
    :: (if onTap_consumed strategy button
        then [StubShowInputFeedback (ShortPressFeedbackType strategy) pos] else []).

(** The same for an accepted long press. *)
Definition holdForwarded {SB : StrategyBehaviour} (strategy : InputStrategy) (button : Z)
    (pos : PointF) : list Effect :=
  StrategyOnPressAndHold strategy button
    :: (if onPressAndHold_consumed strategy button
        then [StubShowInputFeedback (LongPressFeedbackType strategy) pos] else []).


(** An image point lies outside the image by more than [EPSILON]. *)
Definition outsideImage (w : World) (p : float * float) : bool :=
  F32.ltb (fst p) (F32.neg EPSILON)
  || F32.gtb (fst p) (F32.add (F32.of_int (imageWidth (mRenderData w))) EPSILON)
  || F32.ltb (snd p) (F32.neg EPSILON)
  || F32.gtb (snd p) (F32.add (F32.of_int (imageHeight (mRenderData w))) EPSILON).

Definition is_swipe_down (e : Effect) : bool :=
  match e with StubSwipeDown => true | _ => false end.

Definition is_swipe_up (e : Effect) : bool :=
  match e with StubSwipeUp => true | _ => false end.

Definition swipeDowns (t : list Effect) : nat := List.length (filter is_swipe_down t).
Definition swipeUps (t : list Effect) : nat := List.length (filter is_swipe_up t).

(** An effect that is neither gesture processing nor a protocol intent:
    the debug log line and the focus request on the view. *)
Definition is_housekeeping (e : Effect) : bool :=
  match e with LogD | ViewRequestFocus => true | _ => false end.

(** A gesture session of one handler: the finger events that reach its
    gesture pipeline after the [ACTION_DOWN] that opened the session. *)
Definition SessionEvent : Type := View * MotionEvent * DetectorOracle.

Definition continues_session (ev : SessionEvent) : bool :=
  negb (getActionMasked (snd (fst ev)) =? ACTION_DOWN).

Definition runSession {SB : StrategyBehaviour} (this : Which) (evs : list SessionEvent)
    : M unit :=
  forEach (fun ev : SessionEvent =>
             bind (gesturePipeline this (fst (fst ev)) (snd (fst ev)) (snd ev))
                  (fun _ => ret tt)) evs.

(** [onScroll] does not turn the gesture away as an edge swipe. *)
Definition startsInsidePanBounds (this : Which) (w : World) (e1 : MotionEvent) : bool :=
  negb (negb (Rect_contains (mPanGestureBounds (handler this w))
                (F32.to_int (getX e1)) (F32.to_int (getY e1)))
        && hasTouchpadHandler this).

Definition swipes (t : list Effect) : nat := swipeDowns t + swipeUps t.

Definition completed (this : Which) (w : World) : bool :=
  mSwipeCompleted (handler this w).

(** A computation that fires no swipe and leaves [mSwipeCompleted] of
    [this] alone. *)
Definition quiet (this : Which) {A} (m : M A) : Prop :=
  forall w, swipes (trace_of (m w)) = 0%nat
            /\ completed this (world_of (m w)) = completed this w.

(** A computation that fires at most one swipe, and only while
    [mSwipeCompleted] is still false; it raises the flag exactly when it
    fires. *)
Definition at_most_once (this : Which) {A} (m : M A) : Prop :=
  forall w,
    (swipes (trace_of (m w)) = 0%nat
     /\ completed this (world_of (m w)) = completed this w)
    \/ (completed this w = false
        /\ swipes (trace_of (m w)) = 1%nat
        /\ completed this (world_of (m w)) = true).

(** What [gesturePipeline] does once the scroller has seen the event. *)
Definition afterScroller {SB : StrategyBehaviour} (this : Which) (view : View)
    (event : MotionEvent) (o : DetectorOracle) : M bool :=
  emit (DetectorOnTouchEvent Zoomer) ;;
  forEach (gestureListener this) (zoomerCallbacks o) ;;
  emit (DetectorOnTouchEvent TapDetector) ;;
  forEach (gestureListener this) (tapCallbacks o) ;;
  emit (DetectorOnTouchEvent SwipePinchDetector) ;;
  TouchpadListener_onTouch this view event ;;
  (if getActionMasked event =? ACTION_DOWN then
     update_this this (with_mSuppressCursorMovement false) ;;
     update_this this (with_mSwipeCompleted false) ;;
     update_this this (with_mIsDragging false)
   else if getActionMasked event =? ACTION_POINTER_DOWN then
     update_this this (with_mTotalMotionY (F32.of_int 0))
   else ret tt) ;;
  ret true.

(** *** Further methods and vocabulary *)

(** [setPreferScancodes] and [setPointerCaptureEnabled] write a field of the
    shared [InputEventSender]. *)
Definition setPreferScancodes (enabled : bool) : M unit :=
  modify (fun w => set_injector (mkInjector (pointerCapture (mInjector w)) enabled) w).

Definition setPointerCaptureEnabled (enabled : bool) : M unit :=
  modify (fun w => set_injector (mkInjector enabled (preferScancodes (mInjector w))) w).

(** A computation keeps the property [I] of the state and emits only effects
    that pass [ok]. *)
Definition preserves {A} (I : World -> Prop) (ok : Effect -> bool) (m : M A) : Prop :=
  forall w, I w -> I (world_of (m w)) /\ forallb ok (trace_of (m w)) = true.

(** A computation that always answers [a]. *)
Definition answers {A} (a : A) (m : M A) : Prop :=
  forall w, result (m w) = a.

Definition is_pointer_capture (e : Effect) : bool :=
  match e with ViewRequestPointerCapture => true | _ => false end.

Definition is_mouse_button_event (e : Effect) : bool :=
  match e with InjectorSendMouseEvent _ _ _ _ => true | _ => false end.

(** The calls the hardware-mouse path may make: the log line, requests on
    the view and calls on the injector. *)
Definition is_mouse_path_effect (e : Effect) : bool :=
  match e with
  | LogD | ViewRequestFocus | ViewRequestPointerCapture
  | InjectorSendMouseEvent _ _ _ _ | InjectorSendCursorMove _ _
  | InjectorSendMouseWheelEvent _ _ => true
  | _ => false
  end.

(** The fields of a handler that belong to its gesture pipeline. *)
Definition gestureState (h : Handler)
    : InputStrategy * float * float * Rect * bool * bool * bool :=
  (mInputStrategy h, mTotalMotionY h, mSwipeThreshold h, mPanGestureBounds h,
   mSuppressCursorMovement h, mSwipeCompleted h, mIsDragging h).

(** The pointer capture is wanted: the injector has it switched on and the
    view does not hold it yet. *)
Definition wantsPointerCapture (v : View) (w : World) : bool :=
  pointerCapture (mInjector w) && negb (hasPointerCapture v).

(** The two-sided clamp of [moveCursorByOffset]. *)
Definition clampTo (hi : Z) (x : float) : float :=
  let x := if F32.ltb x (F32.of_int 0) then F32.of_int 0 else x in
  if F32.gtb x (F32.of_int hi) then F32.of_int hi else x.

(** The three buttons the mouse and Dex listeners watch, in the order they
    test them, each with the button id they send for it. *)
Definition buttonMasks : list (Z * Z) :=
  [(BUTTON_PRIMARY, 1); (BUTTON_TERTIARY, 2); (BUTTON_SECONDARY, 3)].

Definition buttonChanged (old new : Z) (button : Z * Z) : bool :=
  negb (Z.land old (fst button) =? Z.land new (fst button)).

(** The mouse events that report the change of the button state from [old]
    to [new] at the point [p]. *)
Definition buttonEvents (p : PointF) (old new : Z) : list Effect :=
  map (fun button : Z * Z =>
         InjectorSendMouseEvent p (snd button)
           (negb (Z.land new (fst button) =? 0)) false)
      (filter (buttonChanged old new) buttonMasks).

(** What the constructor and [setInputMode] fix for a handler. *)
Definition configuration (h : Handler) : InputStrategy * float * Z :=
  (mInputStrategy h, mSwipeThreshold h, mEdgeSlopInPx h).

(** A run that never asks the view for the pointer capture. *)
Definition neverCaptures {A} (m : M A) (w : World) : Prop :=
  existsb is_pointer_capture (trace_of (m w)) = false.

(** A run that leaves the injector and what is configured for each handler
    (strategy, swipe threshold, edge slop) as they were. *)
Definition keepsSettings {A} (m : M A) (w : World) : Prop :=
  mInjector (world_of (m w)) = mInjector w
  /\ forall that, configuration (handler that (world_of (m w)))
                  = configuration (handler that w).

(** The calls the application makes on the handler it was given. *)
Inductive Call :=
| CallHandleTouchEvent (v : View) (e : MotionEvent) (o : DetectorOracle)
| CallHandleCapturedEvent (v : View) (e : MotionEvent) (o : DetectorOracle)
| CallHandleClientSizeChanged (w h : Z)
| CallHandleHostSizeChanged (w h : Z)
| CallSetInputMode (inputMode : Z)
| CallSetPreferScancodes (enabled : bool)
| CallSetPointerCaptureEnabled (enabled : bool).

Definition call {SB : StrategyBehaviour} (c : Call) : M unit :=
  match c with
  | CallHandleTouchEvent v e o => _ <- handleTouchEvent v e o ;; ret tt
  | CallHandleCapturedEvent v e o =>
      _ <- handleCapturedEvent Main (Some (handleTouchEventOf Touchpad)) v e o ;; ret tt
  | CallHandleClientSizeChanged w h => handleClientSizeChanged Main w h
  | CallHandleHostSizeChanged w h => handleHostSizeChanged Main w h
  | CallSetInputMode inputMode => setInputMode Main inputMode
  | CallSetPreferScancodes enabled => setPreferScancodes enabled
  | CallSetPointerCaptureEnabled enabled => setPointerCaptureEnabled enabled
  end.

(** The strategy [setInputMode] builds for a mode. *)
Definition strategyOfMode (inputMode : Z) : InputStrategy :=
  if inputMode =? InputMode_TOUCH then TouchInputStrategy
  else if inputMode =? InputMode_SIMULATED_TOUCH then SimulatedTouchInputStrategy
  else TrackpadInputStrategy.

(** The strategy selected by the last [setInputMode] among the calls. *)
Fixpoint selectedStrategy (s : InputStrategy) (cs : list Call) : InputStrategy :=
  match cs with
  | [] => s
  | CallSetInputMode inputMode :: cs' => selectedStrategy (strategyOfMode inputMode) cs'
  | _ :: cs' => selectedStrategy s cs'
  end.

(** A Dex event flagged as part of a drag and not of a scroll. *)
Definition is_dex_drag (e : MotionEvent) : bool :=
  negb (Z.land (getFlags e) FLAG_DEX_SCROLL =? FLAG_DEX_SCROLL)
  && (Z.land (getFlags e) FLAG_DEX_DRAG =? FLAG_DEX_DRAG).

(** Events handed to the Dex listener one after the other. *)
Definition dexSession (this : Which) (v : View)
    (events : list (MotionEvent * DetectorOracle)) : M unit :=
  forEach (fun ev : MotionEvent * DetectorOracle =>
             bind (DexListener_onTouch this v (fst ev) (snd ev)) (fun _ => ret tt)) events.

(** Where the cursor is put for an event: the image point under its
    (truncated) position, as [setCursorPosition] stores it. *)
Definition pointerImagePoint (w : World) (e : MotionEvent) : PointF :=
  let p := imagePointOf w (F32.of_int (F32.to_int (getX e)))
                          (F32.of_int (F32.to_int (getY e))) in
  storedPoint (mRenderData w) (fst p) (snd p).

(** *** Example inputs *)

(** A phone in portrait showing a 1920x1080 desktop: the state after
    construction, [handleClientSizeChanged(1080, 2400)] and
    [handleHostSizeChanged(1920, 1080)]; and the same with the cursor put
    at (5, 5). *)
Definition portrait_phone : World :=
  world_of (handleHostSizeChanged Main 1920 1080
              (world_of (handleClientSizeChanged Main 1080 2400
                           (new_TouchInputHandler (F32.of_int 2) 16)))).


(** A 1920x1080 desktop shown one to one in a 1920x1080 view, in the
    direct Touch mode. *)
Definition desktop_touch : World :=
  world_of (setInputMode Main InputMode_TOUCH
              (world_of (handleHostSizeChanged Main 1920 1080
                           (world_of (handleClientSizeChanged Main 1920 1080
                                        (new_TouchInputHandler (F32.of_int 2) 16)))))).

Definition stylus_down : MotionEvent :=
  mkMotionEvent ACTION_DOWN [TOOL_TYPE_STYLUS] SOURCE_TOUCHSCREEN
    (F32.of_int 100) (F32.of_int 200) 1 0 0 0 F32.zero F32.zero F32.zero F32.zero.

Definition no_callbacks : DetectorOracle := mkOracle [] [] [] [].

(** Three fingers dragged down by 100 pixels from (500, 500): the first
    event of the gesture, a later move event, and what the scroller reports
    for that move. *)
Definition three_finger_move : MotionEvent :=
  mkMotionEvent ACTION_MOVE [TOOL_TYPE_FINGER; TOOL_TYPE_FINGER; TOOL_TYPE_FINGER]
    SOURCE_TOUCHSCREEN (F32.of_int 500) (F32.of_int 600) 3 0 0 0
    F32.zero F32.zero F32.zero F32.zero.

Definition three_finger_down : MotionEvent :=
  mkMotionEvent ACTION_DOWN [TOOL_TYPE_FINGER] SOURCE_TOUCHSCREEN
    (F32.of_int 500) (F32.of_int 500) 1 0 0 0 F32.zero F32.zero F32.zero F32.zero.

Definition three_finger_drag : SessionEvent :=
  (mkView true false, three_finger_move,
   mkOracle [OnScroll three_finger_down three_finger_move F32.zero (F32.of_int (-100)) false]
     [] [] []).

(** The same three-finger drag begun 5 pixels under the top edge of the
    view, inside the edge slop of 16 pixels. *)
Definition edge_down : MotionEvent :=
  mkMotionEvent ACTION_DOWN [TOOL_TYPE_FINGER] SOURCE_TOUCHSCREEN
    (F32.of_int 500) (F32.of_int 5) 1 0 0 0 F32.zero F32.zero F32.zero F32.zero.

Definition edge_drag : SessionEvent :=
  (mkView true false, three_finger_move,
   mkOracle [OnScroll edge_down three_finger_move F32.zero (F32.of_int (-100)) false]
     [] [] []).

(** A strategy that consumes every tap and every hold. *)
Definition consuming_strategy : StrategyBehaviour :=
  {| onTap_consumed := fun _ _ => true; onPressAndHold_consumed := fun _ _ => true |}.

(** A press of the left button of a hardware mouse. *)
Definition mouse_click : MotionEvent :=
  mkMotionEvent ACTION_BUTTON_PRESS [TOOL_TYPE_MOUSE] SOURCE_MOUSE
    (F32.of_int 300) (F32.of_int 400) 1 BUTTON_PRIMARY BUTTON_PRIMARY 0
    F32.zero F32.zero F32.zero F32.zero.

(** The three-finger drag in the other direction. *)
Definition three_finger_drag_up : SessionEvent :=
  (mkView true false, three_finger_move,
   mkOracle [OnScroll three_finger_down three_finger_move F32.zero (F32.of_int 100) false]
     [] [] []).

(** Later move events of a gesture with one and with two fingers. *)
Definition one_finger_move : MotionEvent :=
  mkMotionEvent ACTION_MOVE [TOOL_TYPE_FINGER] SOURCE_TOUCHSCREEN
    (F32.of_int 520) (F32.of_int 540) 1 0 0 0 F32.zero F32.zero F32.zero F32.zero.

Definition two_finger_move : MotionEvent :=
  mkMotionEvent ACTION_MOVE [TOOL_TYPE_FINGER; TOOL_TYPE_FINGER] SOURCE_TOUCHSCREEN
    (F32.of_int 520) (F32.of_int 540) 2 0 0 0 F32.zero F32.zero F32.zero F32.zero.

(** The phone after a two-finger scroll has suppressed the cursor. *)
Definition suppressed_phone : World :=
  set_handler Main (with_mSuppressCursorMovement true (handler Main portrait_phone))
    portrait_phone.

(** A drag with a Dex pointer: press, one move, release. *)
Definition dex_event (action x y : Z) : MotionEvent :=
  mkMotionEvent action [TOOL_TYPE_FINGER] (Z.lor SOURCE_MOUSE SOURCE_TOUCHSCREEN)
    (F32.of_int x) (F32.of_int y) 1 0 0 FLAG_DEX_DRAG
    F32.zero F32.zero F32.zero F32.zero.

End TouchInputHandler.

(* ================================================================== *)
(** ** android.c: the X client side                                    *)
(* ================================================================== *)

Module Lorie.

(** *** Constants of libxcb *)

Definition XCB_CONN_ERROR : Z := 1.
Definition XCB_CONN_CLOSED_EXT_NOTSUPPORTED : Z := 2.
Definition XCB_CONN_CLOSED_MEM_INSUFFICIENT : Z := 3.
Definition XCB_CONN_CLOSED_REQ_LEN_EXCEED : Z := 4.
Definition XCB_CONN_CLOSED_PARSE_ERR : Z := 5.
Definition XCB_CONN_CLOSED_INVALID_SCREEN : Z := 6.
Definition XCB_CONN_CLOSED_FDPASSING_FAILED : Z := 7.

Definition XCB_XFIXES_SELECTION_NOTIFY : Z := 0.
Definition XCB_XFIXES_SELECTION_EVENT_MASK_SET_SELECTION_OWNER : Z := 1.
Definition XCB_SELECTION_NOTIFY : Z := 31.
Definition XCB_ATOM_ANY : Z := 0.
Definition XCB_ATOM_STRING : Z := 31.
Definition XCB_CURRENT_TIME : Z := 0.
Definition XCB_WINDOW_CLASS_INPUT_ONLY : Z := 2.
Definition XCB_COPY_FROM_PARENT : Z := 0.
Definition XCB_CW_OVERRIDE_REDIRECT : Z := 512.

(** *** Data *)

(** An [xcb_connection_t]: [xcb_connect_to_fd] always returns an object,
    whose error state [xcb_connection_has_error] reads (0 = no error). *)
Record xcb_connection := mkConnection { conn_fd : Z; has_error : Z }.

Record xcb_generic_error := mkError {
  error_code : Z;
  major_code : Z;
  minor_code : Z;
  sequence : Z;
  full_sequence : Z
}.

(** The file's static variables. *)
Record Globals := mkGlobals {
  conn : option xcb_connection;
  xfixes_first_event : Z;
  err_ctx : option xcb_connection;   (* the connection the context was made for *)
  win : Z;
  prop_sel : Z;
  atom_clipboard : Z;
  clipboard_sync_enabled : bool
}.

(** Initial values of the static variables. *)
Definition initial : Globals := mkGlobals None 0 None 0 0 0 false.

Inductive Request :=
| QueryExtension (name : string)
| XFixesQueryVersion (major minor : Z)
| InternAtom (only_if_exists : bool) (name : string)
| XFixesSelectSelectionInput (window selection mask : Z)
| CreateWindow (depth wid parent x y width height border class visual mask : Z)
               (values : list Z)
| ConvertSelection (requestor selection target property time : Z)
| GetProperty (delete : bool) (window property type long_offset long_length : Z)
| Tx11ScreenSizeChange (width height : Z)
| Tx11MouseEvent (x y : float) (which_button : Z) (button_down relative : bool)
| Tx11TouchEvent (action id x y : Z)
| Tx11KeyEvent (code : Z) (key_down : bool)
| Tx11UnicodeEvent (unicode : Z).

Inductive LogLine :=
| ConnectionHasError (name : string)
| ConnectionIsSuccessfull
| XcbErrorReport (e : xcb_generic_error)
| ResponseIs (response_type : Z)
| ClipboardContentChanged
| GotSelectionContents
| ClipboardSizeIs (size : Z)
| SendingMouseEvent (x y : float) (which_button : Z) (button_down relative : bool).

(** What a call does to the outside, in program order. *)
Inductive Action :=
| Log (l : LogLine)
| XcbRequest (c : xcb_connection) (r : Request)
| XcbFlush (c : xcb_connection)
| XcbDisconnect (c : xcb_connection)
| XcbErrorsContextNew (c : xcb_connection)
| XcbErrorsContextFree (c : xcb_connection)
| SetClipboardText (text : string).

(** The outcome of a request that waits for its answer. *)
Record Reply (A : Type) := mkReply {
  reply : option A;
  error : option xcb_generic_error
}.
Arguments mkReply {A}.
Arguments reply {A}.
Arguments error {A}.

(** What the server and the transport answer during [connect]. *)
Record ConnectAnswers := mkConnectAnswers {
  connection_error : Z;
  xfixes_extension : Reply Z;          (* [first_event] *)
  xfixes_version : Reply unit;
  clipboard_atom : Reply Z;
  termux_clip_atom : Reply Z;
  root_window : Z;
  select_input_check : option xcb_generic_error;
  generated_id : Z;
  create_window_check : option xcb_generic_error
}.

(** One event returned by [xcb_poll_for_event], with the answers to the two
    property requests it may trigger. *)
Record PolledEvent := mkPolled {
  response_type : Z;                  (* [uint8_t] *)
  event_as_error : xcb_generic_error;
  property_size : Reply Z;            (* [bytes_after] *)
  property_value : Reply string       (* the bytes at [xcb_get_property_value] *)
}.

(** A C string: [NewStringUTF] is handed a pointer without a length and
    reads the bytes before the first zero byte.  The bytes of a
    [property_value] are those that start at the pointer, the value of the
    property and whatever follows it in memory. *)
Fixpoint c_string (bytes : string) : string :=
  match bytes with
  | EmptyString => EmptyString
  | String c rest => if Ascii.eqb c Ascii.zero then EmptyString else String c (c_string rest)
  end.

(** *** Functions *)

(** [parse_error] *)
Definition parse_error (err : option xcb_generic_error) : list Action :=
  match err with
  | None => []
  | Some e => [Log (XcbErrorReport e)]
  end.

(** The [switch] of [connect] that names a connection error. *)
Definition connection_error_name (conn_err : Z) : string :=
  if conn_err =? XCB_CONN_ERROR then "XCB_CONN_ERROR"
  else if conn_err =? XCB_CONN_CLOSED_EXT_NOTSUPPORTED then "XCB_CONN_CLOSED_EXT_NOTSUPPORTED"
  else if conn_err =? XCB_CONN_CLOSED_MEM_INSUFFICIENT then "XCB_CONN_CLOSED_MEM_INSUFFICIENT"
  else if conn_err =? XCB_CONN_CLOSED_REQ_LEN_EXCEED then "XCB_CONN_CLOSED_REQ_LEN_EXCEED"
  else if conn_err =? XCB_CONN_CLOSED_PARSE_ERR then "XCB_CONN_CLOSED_PARSE_ERR"
  else if conn_err =? XCB_CONN_CLOSED_INVALID_SCREEN then "XCB_CONN_CLOSED_INVALID_SCREEN"
  else if conn_err =? XCB_CONN_CLOSED_FDPASSING_FAILED then "XCB_CONN_CLOSED_FDPASSING_FAILED"
  else "UNKNOWN".

Definition from_reply {A} (r : Reply A) (old : A) : A :=
  match reply r with Some a => a | None => old end.

(** [Java_com_termux_x11_MainActivity_connect] *)
Definition connect (answers : ConnectAnswers) (fd : Z) (g : Globals)
    : Globals * list Action :=
  let new_conn := mkConnection fd (connection_error answers) in
  let conn_err := has_error new_conn in
  let t_err :=
    if conn_err =? 0 then []
    else [Log (ConnectionHasError (connection_error_name conn_err))] in
  let t_free :=
    match err_ctx g with Some c => [XcbErrorsContextFree c] | None => [] end in
  let t_disconnect :=
    match conn g with Some c => [XcbDisconnect c] | None => [] end in
  (* conn = new_conn; xcb_errors_context_new(conn, &err_ctx); *)
  let t_install := [XcbErrorsContextNew new_conn; Log ConnectionIsSuccessfull] in
  let first_event := from_reply (xfixes_extension answers) (xfixes_first_event g) in
  let t_ext :=
    XcbRequest new_conn (QueryExtension "XFIXES")
      :: parse_error (error (xfixes_extension answers)) in
  let t_version :=
    XcbRequest new_conn (XFixesQueryVersion 4 0)
      :: parse_error (error (xfixes_version answers)) in
  let clipboard := from_reply (clipboard_atom answers) (atom_clipboard g) in
  let t_clipboard :=
    XcbRequest new_conn (InternAtom false "CLIPBOARD")
      :: parse_error (error (clipboard_atom answers)) in
  let prop := from_reply (termux_clip_atom answers) (prop_sel g) in
  let t_prop :=
    XcbRequest new_conn (InternAtom false "TERMUX_X11_CLIP")
      :: parse_error (error (termux_clip_atom answers)) in
  let t_select :=
    XcbRequest new_conn
      (XFixesSelectSelectionInput (root_window answers) clipboard
         XCB_XFIXES_SELECTION_EVENT_MASK_SET_SELECTION_OWNER)
      :: parse_error (select_input_check answers) in
  let new_win := generated_id answers in
  let t_window :=
    XcbRequest new_conn
      (CreateWindow 0 new_win (root_window answers) 0 0 10 10 0
         XCB_WINDOW_CLASS_INPUT_ONLY XCB_COPY_FROM_PARENT XCB_CW_OVERRIDE_REDIRECT [1])
      :: parse_error (create_window_check answers) in
  (mkGlobals (Some new_conn) first_event (Some new_conn) new_win prop clipboard
     (clipboard_sync_enabled g),
   t_err ++ t_free ++ t_disconnect ++ t_install ++ t_ext ++ t_version
     ++ t_clipboard ++ t_prop ++ t_select ++ t_window ++ [XcbFlush new_conn]).

(** The body of the [while] loop of [handleXEvents], for one event. *)
Definition handleXEvent (g : Globals) (c : xcb_connection) (ev : PolledEvent)
    : list Action :=
  Log (ResponseIs (response_type ev)) ::
  if response_type ev =? 0 then
    parse_error (Some (event_as_error ev))
  else if response_type ev =? xfixes_first_event g + XCB_XFIXES_SELECTION_NOTIFY then
    Log ClipboardContentChanged ::
    (if clipboard_sync_enabled g then
       [XcbRequest c (ConvertSelection (win g) (atom_clipboard g) XCB_ATOM_STRING
                        (prop_sel g) XCB_CURRENT_TIME);
        XcbFlush c]
     else [])
  else if Z.land (response_type ev) (Z.lnot 128) =? XCB_SELECTION_NOTIFY then
    let data_size := from_reply (property_size ev) 0 in
    [Log GotSelectionContents;
     XcbRequest c (GetProperty false (win g) (prop_sel g) XCB_ATOM_ANY 0 0)]
    ++ parse_error (error (property_size ev))
    ++ [Log (ClipboardSizeIs data_size)]
    ++ (if data_size =? 0 then []
        else
          XcbRequest c (GetProperty false (win g) (prop_sel g) XCB_ATOM_ANY 0 data_size)
            :: parse_error (error (property_value ev))
            ++ match reply (property_value ev) with
               | Some bytes => [SetClipboardText (c_string bytes)]
               | None => []
               end)
  else [].

(** [Java_com_termux_x11_MainActivity_handleXEvents]; [pending] is what
    [xcb_poll_for_event] hands out before it returns [NULL].  No static
    variable is written. *)
Definition handleXEvents (pending : list PolledEvent) (g : Globals) : list Action :=
  match conn g with
  | None => []
  | Some c => flat_map (handleXEvent g c) pending
  end.

(** [Java_com_termux_x11_MainActivity_setClipboardSyncEnabled] *)
Definition setClipboardSyncEnabled (enabled : bool) (g : Globals) : Globals :=
  mkGlobals (conn g) (xfixes_first_event g) (err_ctx g) (win g) (prop_sel g)
    (atom_clipboard g) enabled.

(** [Java_com_termux_x11_MainActivity_sendWindowChange] *)
Definition sendWindowChange (width height : Z) (g : Globals) : Globals * list Action :=
  match conn g with
  | Some c => (g, [XcbRequest c (Tx11ScreenSizeChange width height); XcbFlush c])
  | None => (g, [])
  end.

(** [Java_com_termux_x11_MainActivity_sendMouseEvent] *)
Definition sendMouseEvent (x y : float) (which_button : Z) (button_down relative : bool)
    (g : Globals) : Globals * list Action :=
  match conn g with
  | Some c =>
      (g, [Log (SendingMouseEvent x y which_button button_down relative);
           XcbRequest c (Tx11MouseEvent x y which_button button_down relative);
           XcbFlush c])
  | None => (g, [])
  end.

(** [Java_com_termux_x11_MainActivity_sendTouchEvent] *)
Definition sendTouchEvent (action id x y : Z) (g : Globals) : Globals * list Action :=
  match conn g with
  | Some c =>
      if 0 <=? action
      then (g, [XcbRequest c (Tx11TouchEvent action id x y)])
      else (g, [XcbFlush c])
  | None => (g, [])
  end.

(** [Java_com_termux_x11_MainActivity_sendKeyEvent]; the table
    [android_to_linux_keycode] comes from a header that is not among the
    sources and is a parameter. *)
Definition sendKeyEvent (android_to_linux_keycode : Z -> Z)
    (scan_code key_code : Z) (key_down : bool) (g : Globals)
    : bool * Globals * list Action :=
  match conn g with
  | Some c =>
      let code :=
        if scan_code =? 0 then android_to_linux_keycode key_code else scan_code in
      (true, g, [XcbRequest c (Tx11KeyEvent (wrap32 (code + 8)) key_down); XcbFlush c])
  | None => (true, g, [])
  end.

(** [Java_com_termux_x11_MainActivity_sendUnicodeEvent] *)
Definition sendUnicodeEvent (unicode : Z) (g : Globals) : Globals * list Action :=
  match conn g with
  | Some c => (g, [XcbRequest c (Tx11UnicodeEvent unicode); XcbFlush c])
  | None => (g, [])
  end.

(** *** Further functions *)

(** [progname]: on the first call the process name is copied and cut at its
    first colon; the copy is kept in a static variable and handed out from
    then on. *)
Fixpoint before_colon (s : string) : string :=
  match s with
  | EmptyString => EmptyString
  | String c s' => if Ascii.eqb c ":" then EmptyString else String c (before_colon s')
  end.

Definition progname (cache : option string) (__progname : string) : string * option string :=
  match cache with
  | Some name => (name, cache)
  | None => (before_colon __progname, Some (before_colon __progname))
  end.

(** [init], the library constructor: whether the thread that forwards
    standard error to the log is started. *)
Definition init (__progname : string) : bool :=
  String.eqb "com.termux.x11" (fst (progname None __progname)).

(** The process environment, the part of the file system [access] looks at
    and the results of two library calls, as [CmdEntryPoint_start] sees
    them. *)
Definition Environment : Type := string -> option string.

Definition setenv (name value : string) (env : Environment) : Environment :=
  fun n => if String.eqb n name then Some value else env n.

Record System := mkSystem {
  access : string -> bool;            (* [access(path, F_OK) == 0] *)
  dirname : string -> string;
  module_path : string                (* what [wai_getModulePath] writes *)
}.

Record Started := mkStarted {
  started_env : Environment;
  started_argv : list string;
  defaultFontPath : option string;
  XkbBaseDirectory : option string
}.

Inductive StartAction :=
| StartLogError (message : string)            (* to the log and to standard error *)
| StartLogUnaccessible (directory : string)   (* with the text of [errno] *)
| StartServerThread (argv : list string).

(** [snprintf] into a buffer of [size] bytes keeps [size - 1] of them. *)
Definition snprintf (size : nat) (s : string) : string := substring 0 (size - 1) s.

(** The loop over the three font directories: the first one that exists
    under [root_dir] gives the default font path. *)
Fixpoint findFontPath (sys : System) (root_dir : string) (pathes : list string)
    : option string :=
  match pathes with
  | [] => None
  | path :: rest =>
      let current_path := snprintf 1024 (root_dir ++ path) in
      if access sys current_path then
        Some (snprintf 4096
                (current_path ++ "/misc," ++ current_path ++ "/TTF," ++ current_path
                 ++ "/OTF," ++ current_path ++ "/Type1," ++ current_path ++ "/100dpi,"
                 ++ current_path ++ "/75dpi"))
      else findFontPath sys root_dir rest
  end.

(** The default of an unset variable: the first of two directories that
    exists. *)
Definition provide (sys : System) (name first second : string) (env : Environment)
    : Environment :=
  match env name with
  | Some _ => env
  | None =>
      if access sys first then setenv name first env
      else if access sys second then setenv name second env
      else env
  end.

(** [Java_com_termux_x11_CmdEntryPoint_start]; [old_font] and [old_xkb] are
    the values of [defaultFontPath] and [XkbBaseDirectory] before the call.
    [dirname] is bionic's, which leaves its argument alone. *)
Definition start (sys : System) (old_font old_xkb : option string) (args : list string)
    (env : Environment) : bool * Started * list StartAction :=
  let argv := "Xlorie"%string :: args in
  let env := provide sys "TMPDIR" "/tmp" "/data/data/com.termux/files/usr/tmp" env in
  match env "TMPDIR"%string with
  | None =>
      (false, mkStarted env argv old_font old_xkb,
       [StartLogError
          "$TMPDIR is not set. Normally it is pointing to /tmp of a container."])
  | Some tmpdir =>
      let font :=
        match findFontPath sys (dirname sys tmpdir)
                ["/etc/X11/fonts"; "/usr/share/fonts/X11"; "/share/fonts"]%string with
        | Some path => Some path
        | None => old_font
        end in
      let env := provide sys "XKB_CONFIG_ROOT" "/usr/share/X11/xkb"
                   "/data/data/com.termux/files/usr/share/X11/xkb" env in
      match env "XKB_CONFIG_ROOT"%string with
      | None =>
          (false, mkStarted env argv font old_xkb,
           [StartLogError
              "$XKB_CONFIG_ROOT is not set. Normally it is pointing to /usr/share/X11/xkb of a container."])
      | Some xkb =>
          let env := setenv "LIBGL_DRIVERS_PATH" (dirname sys (module_path sys)) env in
          if access sys xkb then
            (true, mkStarted env argv font (Some xkb), [StartServerThread argv])
          else
            (false, mkStarted env argv font (Some xkb),
             [StartLogUnaccessible xkb])
      end
  end.

(** A run of [sendTouchEvent] calls, each given as (action, id, x, y). *)
Definition sendTouchEvents (calls : list (Z * Z * Z * Z)) (g : Globals) : list Action :=
  flat_map (fun c : Z * Z * Z * Z =>
              let '(action, id, x, y) := c in snd (sendTouchEvent action id x y g)) calls.

(** The clipboard texts a trace hands to [setClipboardText]. *)
Definition texts_of (t : list Action) : list string :=
  flat_map (fun a => match a with SetClipboardText text => [text] | _ => [] end) t.

(** One call of the native interface of [MainActivity]. *)
Inductive NativeCall :=
| CallConnect (answers : ConnectAnswers) (fd : Z)
| CallHandleXEvents (pending : list PolledEvent)
| CallSetClipboardSyncEnabled (enabled : bool)
| CallSendWindowChange (width height : Z)
| CallSendMouseEvent (x y : float) (which_button : Z) (button_down relative : bool)
| CallSendTouchEvent (action id x y : Z)
| CallSendKeyEvent (scan_code key_code : Z) (key_down : bool)
| CallSendUnicodeEvent (unicode : Z).

Definition native (table : Z -> Z) (c : NativeCall) (g : Globals) : Globals * list Action :=
  match c with
  | CallConnect answers fd => connect answers fd g
  | CallHandleXEvents pending => (g, handleXEvents pending g)
  | CallSetClipboardSyncEnabled enabled => (setClipboardSyncEnabled enabled g, [])
  | CallSendWindowChange width height => sendWindowChange width height g
  | CallSendMouseEvent x y which_button button_down relative =>
      sendMouseEvent x y which_button button_down relative g
  | CallSendTouchEvent action id x y => sendTouchEvent action id x y g
  | CallSendKeyEvent scan_code key_code key_down =>
      let '(_, g', t) := sendKeyEvent table scan_code key_code key_down g in (g', t)
  | CallSendUnicodeEvent unicode => sendUnicodeEvent unicode g
  end.

(** Calls made one after the other, as the Java side makes them. *)
Fixpoint natives (table : Z -> Z) (calls : list NativeCall) (g : Globals)
    : Globals * list Action :=
  match calls with
  | [] => (g, [])
  | c :: rest =>
      let '(g1, t1) := native table c g in
      let '(g2, t2) := natives table rest g1 in
      (g2, t1 ++ t2)
  end.

(** The discipline libxcb asks of its caller, read along a trace with the
    connection that is open at each point: requests, flushes and the release
    of the error context use the open connection, only the open connection
    is disconnected, and an error context is made for a connection when
    none is open. *)
Fixpoint follows (open : option xcb_connection) (t : list Action) : Prop :=
  match t with
  | [] => True
  | XcbRequest c _ :: t' | XcbFlush c :: t' | XcbErrorsContextFree c :: t' =>
      open = Some c /\ follows open t'
  | XcbDisconnect c :: t' => open = Some c /\ follows None t'
  | XcbErrorsContextNew c :: t' => open = None /\ follows (Some c) t'
  | Log _ :: t' | SetClipboardText _ :: t' => follows open t'
  end.

(** The connection that is open after a trace. *)
Fixpoint open_after (open : option xcb_connection) (t : list Action)
    : option xcb_connection :=
  match t with
  | [] => open
  | XcbDisconnect _ :: t' => open_after None t'
  | XcbErrorsContextNew c :: t' => open_after (Some c) t'
  | _ :: t' => open_after open t'
  end.

(** A trace that follows the discipline and the connection it leaves open. *)
Definition leaves (open : option xcb_connection) (t : list Action)
    (open' : option xcb_connection) : Prop :=
  follows open t /\ open_after open t = open'.

(** *** Vocabulary of the statements and example inputs *)

(** The value a variable has after [provide]. *)
Definition resolved (sys : System) (first second : string) (value : option string)
    : option string :=
  match value with
  | Some directory => Some directory
  | None =>
      if access sys first then Some first
      else if access sys second then Some second
      else None
  end.


Definition conversions_of (t : list Action) : list Request :=
  flat_map (fun a =>
              match a with
              | XcbRequest _ (ConvertSelection q s tg p tm) => [ConvertSelection q s tg p tm]
              | _ => []
              end) t.

(** A trace ends with a request and the flush of its connection. *)
Definition request_then_flush (t : list Action) : Prop :=
  exists pre c r, t = pre ++ [XcbRequest c r; XcbFlush c].

Definition is_flush (a : Action) : bool :=
  match a with XcbFlush _ => true | _ => false end.

(** [ev] is what the server sends when the owner of a selection changes:
    the first event of XFIXES plus [XCB_XFIXES_SELECTION_NOTIFY]. *)
Definition is_owner_change (g : Globals) (ev : PolledEvent) : bool :=
  negb (response_type ev =? 0)
  && (response_type ev =? xfixes_first_event g + XCB_XFIXES_SELECTION_NOTIFY).

Definition a_connection : xcb_connection := mkConnection 7 0.

Definition connected : Globals :=
  mkGlobals (Some a_connection) 87 (Some a_connection) 2097152 300 280 false.

Definition no_error : xcb_generic_error := mkError 0 0 0 0 0.

Definition owner_change_event : PolledEvent :=
  mkPolled 87 no_error (mkReply None None) (mkReply None None).

Definition failing_transport : ConnectAnswers :=
  mkConnectAnswers XCB_CONN_ERROR (mkReply None None) (mkReply None None)
    (mkReply None None) (mkReply None None) 0 None 0 None.

Definition selection_reply : PolledEvent :=
  mkPolled 31 no_error (mkReply (Some 5) None) (mkReply (Some "hello"%string) None).

(** A selection whose value has a zero byte in the middle. *)
Definition selection_reply_with_zero : PolledEvent :=
  mkPolled 31 no_error (mkReply (Some 5) None)
    (mkReply (Some ("he" ++ String Ascii.zero "lo")%string) None).

Definition xfixes_server : ConnectAnswers :=
  mkConnectAnswers 0 (mkReply (Some 87) None) (mkReply (Some tt) None)
    (mkReply (Some 280) None) (mkReply (Some 300) None) 1 None 2097152 None.

(** A container with [/tmp] and the keyboard data in the usual place. *)
Definition a_container : System :=
  mkSystem (fun path => String.eqb path "/tmp" || String.eqb path "/usr/share/X11/xkb")
    (fun _ => "/"%string) "/data/app/lib/libXlorie.so".

Definition an_environment : Environment :=
  fun n => if String.eqb n "HOME" then Some "/home"%string else None.

End Lorie.

(* ================================================================== *)
(** ** Properties of the X client side                                 *)
(* ================================================================== *)

Module LorieFacts.
Import Lorie.



Lemma conversions_of_app (t1 t2 : list Action) :
  conversions_of (t1 ++ t2) = conversions_of t1 ++ conversions_of t2.
Proof. unfold conversions_of. apply flat_map_app. Qed.

Lemma conversions_of_parse_error (e : option xcb_generic_error) :
  conversions_of (parse_error e) = [].
Proof. destruct e; reflexivity. Qed.

(** One event leads to a conversion exactly when it is an owner change
    and synchronisation is on. *)
Lemma conversions_of_handleXEvent (g : Globals) (c : xcb_connection) (ev : PolledEvent) :
  conversions_of (handleXEvent g c ev) =
    if clipboard_sync_enabled g && is_owner_change g ev
    then [ConvertSelection (win g) (atom_clipboard g) XCB_ATOM_STRING (prop_sel g)
            XCB_CURRENT_TIME]
    else [].
Proof.
  unfold handleXEvent, is_owner_change.
  destruct (response_type ev =? 0) eqn:E0; cbn [negb andb].
  - rewrite andb_false_r. reflexivity.
  - destruct (response_type ev =? xfixes_first_event g + XCB_XFIXES_SELECTION_NOTIFY) eqn:E1.
    + rewrite andb_true_r. destruct (clipboard_sync_enabled g); reflexivity.
    + rewrite andb_false_r.
      destruct (Z.land (response_type ev) (Z.lnot 128) =? XCB_SELECTION_NOTIFY);
        [ | reflexivity ].
      change (conversions_of (?a :: ?l)) with (conversions_of ([a] ++ l)).
      rewrite !conversions_of_app, conversions_of_parse_error.
      destruct (from_reply (property_size ev) 0 =? 0); [ reflexivity | ].
      cbn. rewrite conversions_of_app, conversions_of_parse_error.
      destruct (reply (property_value ev)); reflexivity.
Qed.

Lemma conversions_of_handleXEvents (g : Globals) (c : xcb_connection)
    (pending : list PolledEvent) :
  conn g = Some c ->
  conversions_of (handleXEvents pending g) =
    if clipboard_sync_enabled g
    then map (fun _ => ConvertSelection (win g) (atom_clipboard g) XCB_ATOM_STRING
                         (prop_sel g) XCB_CURRENT_TIME)
             (filter (is_owner_change g) pending)
    else [].
Proof.
  intros Hc. unfold handleXEvents. rewrite Hc.
  induction pending as [ | ev rest IH ]; cbn [flat_map filter].
  - destruct (clipboard_sync_enabled g); reflexivity.
  - rewrite conversions_of_app, IH, conversions_of_handleXEvent.
    destruct (clipboard_sync_enabled g); cbn [andb]; [ | reflexivity ].
    destruct (is_owner_change g ev); reflexivity.
Qed.

End LorieFacts.

Import Lorie LorieFacts.

Section LorieTheorems.




(** C6, as stated, fails: with a connection installed, a touch-point
    event is sent without any flush. *)
Lemma touch_event_is_not_flushed :
  snd (sendTouchEvent 0 1 10 20 connected)
    = [XcbRequest a_connection (Tx11TouchEvent 0 1 10 20)]
  /\ existsb is_flush (snd (sendTouchEvent 0 1 10 20 connected)) = false
  /\ ~ request_then_flush (snd (sendTouchEvent 0 1 10 20 connected)).
Proof.
  split; [ reflexivity | ]. split; [ reflexivity | ].
  intros (pre & c & r & H). cbn in H.
  destruct pre as [ | a [ | b pre ] ]; cbn in H; discriminate.
Qed.

(** C6, amended: with a connection installed, the screen-resize, pointer,
    key and unicode calls each send their request and flush the connection
    before they return.  A touch-point call with a non-negative action only
    queues its request; the flush is a call of its own, with a negative
    action, which sends no request. *)
Theorem encode_calls_flush_except_touch (g : Globals) (c : xcb_connection)
    (table : Z -> Z) :
  conn g = Some c ->
  (forall width height,
      request_then_flush (snd (sendWindowChange width height g)))
  /\ (forall x y b down rel,
      request_then_flush (snd (sendMouseEvent x y b down rel g)))
  /\ (forall scan key down,
      request_then_flush (snd (sendKeyEvent table scan key down g)))
  /\ (forall u,
      request_then_flush (snd (sendUnicodeEvent u g)))
  /\ (forall action id x y, 0 <= action ->
      snd (sendTouchEvent action id x y g) = [XcbRequest c (Tx11TouchEvent action id x y)])
  /\ (forall action id x y, action < 0 ->
      snd (sendTouchEvent action id x y g) = [XcbFlush c]).
Proof.
  intros Hc.
  unfold request_then_flush, sendWindowChange, sendMouseEvent, sendKeyEvent,
    sendUnicodeEvent, sendTouchEvent.
  rewrite Hc. cbn [snd].
  repeat split.
  - intros. exists []. eexists. eexists. reflexivity.
  - intros. eexists [_]. eexists. eexists. reflexivity.
  - intros. exists []. eexists. eexists. reflexivity.
  - intros. exists []. eexists. eexists. reflexivity.
  - intros action id x y Ha.
    destruct (0 <=? action) eqn:E; [ reflexivity | ].
    apply Z.leb_gt in E. lia.
  - intros action id x y Ha.
    destruct (0 <=? action) eqn:E; [ | reflexivity ].
    apply Z.leb_le in E. lia.
Qed.

Lemma encode_calls_flush_except_touch_witness :
  conn connected = Some a_connection
  /\ request_then_flush (snd (sendWindowChange 1080 2400 connected))
  /\ snd (sendTouchEvent 0 1 10 20 connected)
       = [XcbRequest a_connection (Tx11TouchEvent 0 1 10 20)]
  /\ snd (sendTouchEvent (-1) 0 0 0 connected) = [XcbFlush a_connection].
Proof.
  pose proof (encode_calls_flush_except_touch connected a_connection (fun _ => 0) eq_refl)
    as (H1 & _ & _ & _ & H5 & H6).
  split; [ reflexivity | ].
  split; [ apply H1 | ].
  split; [ apply H5; lia | apply H6; lia ].
Defined.

(** C7: without an installed connection every encode call (screen resize,
    pointer, touch, key, unicode) sends nothing, fails in no way and leaves
    the static variables as they were; the key call still answers
    [true]. *)
Theorem encode_without_connection_is_noop (g : Globals) (table : Z -> Z) :
  conn g = None ->
  (forall width height, sendWindowChange width height g = (g, []))
  /\ (forall x y b down rel, sendMouseEvent x y b down rel g = (g, []))
  /\ (forall action id x y, sendTouchEvent action id x y g = (g, []))
  /\ (forall scan key down, sendKeyEvent table scan key down g = (true, g, []))
  /\ (forall u, sendUnicodeEvent u g = (g, [])).
Proof.
  intros Hc.
  unfold sendWindowChange, sendMouseEvent, sendTouchEvent, sendKeyEvent, sendUnicodeEvent.
  rewrite Hc. repeat split.
Qed.

Lemma encode_without_connection_is_noop_witness :
  conn initial = None
  /\ sendWindowChange 1080 2400 initial = (initial, [])
  /\ sendTouchEvent 0 1 10 20 initial = (initial, [])
  /\ sendKeyEvent (fun k => k) 0 29 true initial = (true, initial, []).
Proof.
  pose proof (encode_without_connection_is_noop initial (fun k => k) eq_refl)
    as (H1 & _ & H3 & H4 & _).
  split; [ reflexivity | ].
  split; [ apply H1 | ].
  split; [ apply H3 | apply H4 ].
Defined.

(** C8: once clipboard synchronisation is switched off, draining the event
    queue sends no selection conversion, whatever the events are.  Once it
    is switched on, every selection-owner-change notification leads to
    exactly one conversion request, whose requestor is the proxy window
    [win] and whose target is the string type; other events lead to
    none. *)
Theorem clipboard_conversion_follows_switch (g : Globals) (pending : list PolledEvent) :
  conversions_of (handleXEvents pending (setClipboardSyncEnabled false g)) = []
  /\ (forall c, conn g = Some c ->
      conversions_of (handleXEvents pending (setClipboardSyncEnabled true g)) =
        map (fun _ => ConvertSelection (win g) (atom_clipboard g) XCB_ATOM_STRING
                        (prop_sel g) XCB_CURRENT_TIME)
            (filter (is_owner_change g) pending))
  /\ (forall c ev, conn g = Some c -> is_owner_change g ev = true ->
      conversions_of (handleXEvents [ev] (setClipboardSyncEnabled true g)) =
        [ConvertSelection (win g) (atom_clipboard g) XCB_ATOM_STRING (prop_sel g)
           XCB_CURRENT_TIME]).
Proof.
  split.
  { destruct (conn g) as [ c | ] eqn:Hc.
    - rewrite (conversions_of_handleXEvents _ c) by exact Hc. reflexivity.
    - unfold handleXEvents. cbn. rewrite Hc. reflexivity. }
  split.
  { intros c Hc.
    rewrite (conversions_of_handleXEvents _ c) by exact Hc. reflexivity. }
  { intros c ev Hc Hev.
    rewrite (conversions_of_handleXEvents _ c) by exact Hc.
    cbn [clipboard_sync_enabled setClipboardSyncEnabled filter].
    change (is_owner_change (setClipboardSyncEnabled true g) ev)
      with (is_owner_change g ev).
    rewrite Hev. reflexivity. }
Qed.

Lemma clipboard_conversion_follows_switch_witness :
  conn connected = Some a_connection
  /\ is_owner_change connected owner_change_event = true
  /\ conversions_of (handleXEvents [owner_change_event]
                       (setClipboardSyncEnabled false connected)) = []
  /\ conversions_of (handleXEvents [owner_change_event] (setClipboardSyncEnabled true connected))
     = [ConvertSelection 2097152 280 XCB_ATOM_STRING 300 XCB_CURRENT_TIME].
Proof.
  pose proof (clipboard_conversion_follows_switch connected [owner_change_event])
    as (H1 & _ & H3).
  split; [ reflexivity | ].
  split; [ reflexivity | ].
  split; [ exact H1 | ].
  exact (H3 a_connection owner_change_event eq_refl eq_refl).
Defined.

End LorieTheorems.

(* ================================================================== *)
(** ** Facts about binary32 numbers                                    *)
(* ================================================================== *)

Module F32Facts.
Import F32.






(** Division by zero never gives a finite number: the quotient is an
    infinity, or NaN for 0/0 and NaN/0. *)
Lemma div_by_zero_not_finite (a : float) : is_finite (div a (of_int 0)) = false.
Proof. destruct a as [ s | s | | s m e ]; reflexivity. Qed.

(** *** Conversions from [int] are numbers *)







(** *** Less or equal *)




End F32Facts.

(* ================================================================== *)
(** ** Facts about the touch input handler                             *)
(* ================================================================== *)

Module HandlerFacts.
Import TouchInputHandler.
Local Open Scope java_scope.

(** *** Reading the three components of a run *)

Lemma result_bind {A B} (m : M A) (k : A -> M B) (w : World) :
  result (bind m k w) = result (k (result (m w)) (world_of (m w))).
Proof.
  unfold bind, result, world_of.
  destruct (m w) as [[a w1] t1]. cbn. destruct (k a w1) as [[b w2] t2]. reflexivity.
Qed.

Lemma world_bind {A B} (m : M A) (k : A -> M B) (w : World) :
  world_of (bind m k w) = world_of (k (result (m w)) (world_of (m w))).
Proof.
  unfold bind, result, world_of.
  destruct (m w) as [[a w1] t1]. cbn. destruct (k a w1) as [[b w2] t2]. reflexivity.
Qed.

Lemma trace_bind {A B} (m : M A) (k : A -> M B) (w : World) :
  trace_of (bind m k w) = trace_of (m w) ++ trace_of (k (result (m w)) (world_of (m w))).
Proof.
  unfold bind, result, world_of, trace_of.
  destruct (m w) as [[a w1] t1]. cbn. destruct (k a w1) as [[b w2] t2]. reflexivity.
Qed.

Lemma run_eta {A} (r : A * World * list Effect) :
  r = (result r, world_of r, trace_of r).
Proof. destruct r as [[a w] t]. reflexivity. Qed.

Lemma handler_set_renderData (this : Which) (rd : RenderData) (w : World) :
  handler this (set_renderData rd w) = handler this w.
Proof. destruct this; reflexivity. Qed.

Lemma handler_set_handler (this : Which) (h : Handler) (w : World) :
  handler this (set_handler this h w) = h.
Proof. destruct this; reflexivity. Qed.

Lemma renderData_set_handler (this : Which) (h : Handler) (w : World) :
  mRenderData (set_handler this h w) = mRenderData w.
Proof. destruct this; reflexivity. Qed.

(** Evaluation of the primitive steps of the monad. *)
Ltac run_monad :=
  cbv [bind ret get modify emit when this_handler update_this renderData
       update_renderData getCursorPosition setCursorPosition
       result world_of trace_of fst snd].

Section Primitives.
Context {A : Type}.
Implicit Types (w : World) (a : A).

Lemma result_ret a w : result (ret a w) = a.
Proof. reflexivity. Qed.
Lemma world_ret a w : world_of (ret a w) = w.
Proof. reflexivity. Qed.
Lemma trace_ret a w : trace_of (ret a w) = [].
Proof. reflexivity. Qed.
End Primitives.

Lemma result_get w : result (get w) = w.
Proof. reflexivity. Qed.
Lemma world_get w : world_of (get w) = w.
Proof. reflexivity. Qed.
Lemma trace_get w : trace_of (get w) = [].
Proof. reflexivity. Qed.
Lemma world_modify f w : world_of (modify f w) = f w.
Proof. reflexivity. Qed.
Lemma trace_modify f w : trace_of (modify f w) = [].
Proof. reflexivity. Qed.
Lemma world_emit e w : world_of (emit e w) = w.
Proof. reflexivity. Qed.
Lemma trace_emit e w : trace_of (emit e w) = [e].
Proof. reflexivity. Qed.
Lemma world_when b m w : world_of (when b m w) = if b then world_of (m w) else w.
Proof. destruct b; reflexivity. Qed.
Lemma trace_when b m w : trace_of (when b m w) = if b then trace_of (m w) else [].
Proof. destruct b; reflexivity. Qed.
Lemma result_this_handler this w : result (this_handler this w) = handler this w.
Proof. reflexivity. Qed.
Lemma world_this_handler this w : world_of (this_handler this w) = w.
Proof. reflexivity. Qed.
Lemma trace_this_handler this w : trace_of (this_handler this w) = [].
Proof. reflexivity. Qed.
Lemma world_update_this this f w :
  world_of (update_this this f w) = set_handler this (f (handler this w)) w.
Proof. reflexivity. Qed.
Lemma trace_update_this this f w : trace_of (update_this this f w) = [].
Proof. reflexivity. Qed.
Lemma result_renderData w : result (renderData w) = mRenderData w.
Proof. reflexivity. Qed.
Lemma world_renderData w : world_of (renderData w) = w.
Proof. reflexivity. Qed.
Lemma trace_renderData w : trace_of (renderData w) = [].
Proof. reflexivity. Qed.
Lemma world_update_renderData f w :
  world_of (update_renderData f w) = set_renderData (f (mRenderData w)) w.
Proof. reflexivity. Qed.
Lemma trace_update_renderData f w : trace_of (update_renderData f w) = [].
Proof. reflexivity. Qed.
Lemma result_getCursorPosition w : result (getCursorPosition w) = cursor w.
Proof. reflexivity. Qed.
Lemma world_getCursorPosition w : world_of (getCursorPosition w) = w.
Proof. reflexivity. Qed.
Lemma trace_getCursorPosition w : trace_of (getCursorPosition w) = [].
Proof. reflexivity. Qed.

Create Rewrite HintDb run.
#[export] Hint Rewrite @result_ret @world_ret @trace_ret result_get world_get trace_get
  world_modify trace_modify world_emit trace_emit
  result_this_handler world_this_handler trace_this_handler
  world_update_this trace_update_this
  result_renderData world_renderData trace_renderData
  world_update_renderData trace_update_renderData
  result_getCursorPosition world_getCursorPosition trace_getCursorPosition
  handler_set_renderData handler_set_handler renderData_set_handler
  app_nil_r app_nil_l : run.

(** One step through a sequence of statements. *)
Ltac step :=
  repeat (rewrite ?world_bind, ?result_bind, ?trace_bind; cbv beta;
          autorewrite with run).

Section WithStrategy.
Context {SB : StrategyBehaviour}.

(** *** Where the cursor ends up *)

Lemma moveCursor_world (this : Which) (x y : float) (w : World) :
  world_of (moveCursor this x y w)
  = set_renderData (with_cursor (storedPoint (mRenderData w) x y) (mRenderData w)) w.
Proof.
  unfold moveCursor. run_monad.
  destruct (F32.neqb _ _ || F32.neqb _ _); reflexivity.
Qed.

Lemma moveCursorToScreenPoint_world (this : Which) (x y : float) (w : World) :
  world_of (moveCursorToScreenPoint this x y w)
  = set_renderData
      (with_cursor
         (storedPoint (mRenderData w) (fst (imagePointOf w x y)) (snd (imagePointOf w x y)))
         (mRenderData w)) w.
Proof.
  unfold moveCursorToScreenPoint, mapScreenPointToImagePoint, imagePointOf.
  rewrite world_bind. run_monad. apply moveCursor_world.
Qed.

Lemma moveCursorByOffset_world (this : Which) (dx dy : float) (w : World) :
  let rd := mRenderData w in
  let x := F32.add (px (cursor w)) (F32.neg dx) in
  let y := F32.add (py (cursor w)) (F32.neg dy) in
  let x1 := if F32.ltb x (F32.of_int 0) then F32.of_int 0 else x in
  let y1 := if F32.ltb y (F32.of_int 0) then F32.of_int 0 else y in
  let x2 := if F32.gtb x1 (F32.of_int (screenWidth rd))
            then F32.of_int (screenWidth rd) else x1 in
  let y2 := if F32.gtb y1 (F32.of_int (screenHeight rd))
            then F32.of_int (screenHeight rd) else y1 in
  world_of (moveCursorByOffset this dx dy w)
  = set_renderData (with_cursor (storedPoint rd x2 y2) rd) w.
Proof.
  cbv zeta. unfold moveCursorByOffset.
  rewrite !world_bind. run_monad. apply moveCursor_world.
Qed.

Lemma sendButtonChanges_world (bs : ButtonState) (e : MotionEvent) (w : World) :
  world_of (sendButtonChanges bs e w) = w.
Proof.
  unfold sendButtonChanges. run_monad.
  destruct (isMouseButtonChanged _ BUTTON_PRIMARY),
           (isMouseButtonChanged _ BUTTON_TERTIARY),
           (isMouseButtonChanged _ BUTTON_SECONDARY); reflexivity.
Qed.

Lemma moveCursorToEvent_world (e : MotionEvent) (w : World) :
  let p := imagePointOf w (F32.of_int (F32.to_int (getX e)))
                          (F32.of_int (F32.to_int (getY e))) in
  world_of (moveCursorToEvent e w)
  = set_renderData (with_cursor (storedPoint (mRenderData w) (fst p) (snd p)) (mRenderData w)) w.
Proof.
  cbv zeta. unfold moveCursorToEvent, mapScreenPointToImagePoint, imagePointOf.
  run_monad. destruct (F32.neqb _ _ || F32.neqb _ _); reflexivity.
Qed.

Lemma HardwareMouseListener_onTouch_cursor (this : Which) (v : View) (e : MotionEvent)
    (w : World) :
  getAction e <> ACTION_SCROLL ->
  cursor (world_of (HardwareMouseListener_onTouch this v e w))
  = cursor (world_of (moveCursorToEvent e w)).
Proof.
  intros Hact. unfold HardwareMouseListener_onTouch.
  apply Z.eqb_neq in Hact.
  step. rewrite world_when, world_emit, Hact.
  replace (if pointerCapture (mInjector w) && negb (hasPointerCapture v)
              && (getAction e =? ACTION_UP) then w else w) with w
    by (destruct (_ && _ && _); reflexivity).
  step. rewrite sendButtonChanges_world.
  unfold cursor. step. reflexivity.
Qed.


(** *** The transform after a size change *)

Lemma resetTransformation_world (w : World) :
  let rd := mRenderData w in
  world_of (resetTransformation w)
  = set_renderData
      (with_transform
         (Matrix_setScale
            (F32.div (F32.of_int (imageWidth rd)) (F32.of_int (screenWidth rd)))
            (F32.div (F32.of_int (imageHeight rd)) (F32.of_int (screenHeight rd))))
         rd) w.
Proof. reflexivity. Qed.

Lemma handleClientSizeChanged_own_renderData (width height : Z) (w : World) :
  let rd := mRenderData w in
  mRenderData (world_of (handleClientSizeChanged_own width height w))
  = mkRenderData width height (imageWidth rd) (imageHeight rd)
      (mkMatrix (F32.div (F32.of_int (imageWidth rd)) (F32.of_int width))
                (F32.div (F32.of_int (imageHeight rd)) (F32.of_int height)))
      (mCursorPosition rd).
Proof. reflexivity. Qed.

Lemma handleClientSizeChanged_renderData (this : Which) (width height : Z) (w : World) :
  let rd := mRenderData w in
  mRenderData (world_of (handleClientSizeChanged this width height w))
  = mkRenderData width height (imageWidth rd) (imageHeight rd)
      (mkMatrix (F32.div (F32.of_int (imageWidth rd)) (F32.of_int width))
                (F32.div (F32.of_int (imageHeight rd)) (F32.of_int height)))
      (mCursorPosition rd).
Proof. destruct this; reflexivity. Qed.

Lemma handleHostSizeChanged_own_renderData (this : Which) (width height : Z) (w : World) :
  let rd := mRenderData w in
  exists p,
    mRenderData (world_of (handleHostSizeChanged_own this width height w))
    = mkRenderData (screenWidth rd) (screenHeight rd) width height
        (mkMatrix (F32.div (F32.of_int width) (F32.of_int (screenWidth rd)))
                  (F32.div (F32.of_int height) (F32.of_int (screenHeight rd))))
        p.
Proof.
  cbv zeta. unfold handleHostSizeChanged_own.
  step. rewrite resetTransformation_world, moveCursorToScreenPoint_world.
  eexists. cbn. step. cbn. reflexivity.
Qed.

Lemma handleHostSizeChanged_renderData (this : Which) (width height : Z) (w : World) :
  let rd := mRenderData w in
  exists p,
    mRenderData (world_of (handleHostSizeChanged this width height w))
    = mkRenderData (screenWidth rd) (screenHeight rd) width height
        (mkMatrix (F32.div (F32.of_int width) (F32.of_int (screenWidth rd)))
                  (F32.div (F32.of_int height) (F32.of_int (screenHeight rd))))
        p.
Proof.
  cbv zeta. unfold handleHostSizeChanged. rewrite world_bind.
  destruct (handleHostSizeChanged_own_renderData this width height w) as [p Hp].
  cbv zeta in Hp.
  destruct this; cbn [mTouchpadHandler].
  - destruct (handleHostSizeChanged_own_renderData Touchpad width height
                (world_of (handleHostSizeChanged_own Main width height w))) as [q Hq].
    cbv zeta in Hq. rewrite Hp in Hq. cbn in Hq. exists q. exact Hq.
  - exists p. exact Hp.
Qed.

End WithStrategy.

(** *** Swipes within a session *)

Lemma swipeDowns_app (t1 t2 : list Effect) :
  swipeDowns (t1 ++ t2) = (swipeDowns t1 + swipeDowns t2)%nat.
Proof. unfold swipeDowns. rewrite filter_app, length_app. reflexivity. Qed.

Lemma swipeUps_app (t1 t2 : list Effect) :
  swipeUps (t1 ++ t2) = (swipeUps t1 + swipeUps t2)%nat.
Proof. unfold swipeUps. rewrite filter_app, length_app. reflexivity. Qed.

Lemma swipes_app (t1 t2 : list Effect) :
  swipes (t1 ++ t2) = (swipes t1 + swipes t2)%nat.
Proof. unfold swipes. rewrite swipeDowns_app, swipeUps_app. lia. Qed.

Section Combinators.
Context (this : Which) {A B : Type}.

Lemma quiet_at_most_once (m : M A) : quiet this m -> at_most_once this m.
Proof. intros H w. left. apply H. Qed.

Lemma quiet_ret (a : A) : quiet this (ret a).
Proof. intros w. split; reflexivity. Qed.

Lemma quiet_bind (m : M A) (k : A -> M B) :
  quiet this m -> (forall a, quiet this (k a)) -> quiet this (bind m k).
Proof.
  intros Hm Hk w. rewrite trace_bind, world_bind, swipes_app.
  destruct (Hm w) as [H1 H2].
  destruct (Hk (result (m w)) (world_of (m w))) as [H3 H4].
  rewrite H1, H3, H4, H2. split; reflexivity.
Qed.

Lemma at_most_once_bind (m : M A) (k : A -> M B) :
  at_most_once this m -> (forall a, at_most_once this (k a)) ->
  at_most_once this (bind m k).
Proof.
  intros Hm Hk w. rewrite trace_bind, world_bind, swipes_app.
  destruct (Hm w) as [ [H1 H2] | (H0 & H1 & H2) ];
    destruct (Hk (result (m w)) (world_of (m w))) as [ [H3 H4] | (H5 & H3 & H4) ];
    rewrite ?H1, ?H3, ?H4, ?H2.
  - left. split; reflexivity.
  - right. rewrite H2 in H5. repeat split; assumption.
  - right. repeat split; assumption.
  - rewrite H2 in H5. discriminate.
Qed.

Lemma quiet_if (b : bool) (m1 m2 : M A) :
  quiet this m1 -> quiet this m2 -> quiet this (if b then m1 else m2).
Proof. destruct b; auto. Qed.

Lemma at_most_once_if (b : bool) (m1 m2 : M A) :
  at_most_once this m1 -> at_most_once this m2 ->
  at_most_once this (if b then m1 else m2).
Proof. destruct b; auto. Qed.

End Combinators.

Lemma quiet_get (this : Which) : quiet this get.
Proof. intros w. split; reflexivity. Qed.

Lemma quiet_emit (this : Which) (e : Effect) :
  is_swipe_down e || is_swipe_up e = false -> quiet this (emit e).
Proof.
  intros He w. apply orb_false_elim in He. destruct He as [Hd Hu].
  unfold swipes, swipeDowns, swipeUps. cbn. rewrite Hd, Hu. split; reflexivity.
Qed.

Lemma quiet_when (this : Which) (b : bool) (m : M unit) :
  quiet this m -> quiet this (when b m).
Proof. intros Hm. unfold when. destruct b; [ exact Hm | apply quiet_ret ]. Qed.

Lemma quiet_this_handler (this that : Which) : quiet this (this_handler that).
Proof. intros w. split; reflexivity. Qed.

Lemma quiet_renderData (this : Which) : quiet this renderData.
Proof. intros w. split; reflexivity. Qed.

Lemma quiet_update_renderData (this : Which) (f : RenderData -> RenderData) :
  quiet this (update_renderData f).
Proof.
  intros w. split; [ reflexivity | ].
  unfold completed. rewrite world_update_renderData, handler_set_renderData. reflexivity.
Qed.

Lemma quiet_update_this (this : Which) (f : Handler -> Handler) :
  (forall h, mSwipeCompleted (f h) = mSwipeCompleted h) ->
  quiet this (update_this this f).
Proof.
  intros Hf w. split; [ reflexivity | ].
  unfold completed. rewrite world_update_this, handler_set_handler. apply Hf.
Qed.

Lemma quiet_forEach (this : Which) {A} (f : A -> M unit) (l : list A) :
  (forall a, quiet this (f a)) -> quiet this (forEach f l).
Proof.
  intros Hf. induction l as [ | a l IH ]; cbn [forEach].
  - apply quiet_ret.
  - apply quiet_bind; [ apply Hf | intros _; exact IH ].
Qed.

Lemma at_most_once_forEach (this : Which) {A} (f : A -> M unit) (l : list A) :
  (forall a, In a l -> at_most_once this (f a)) -> at_most_once this (forEach f l).
Proof.
  induction l as [ | a l IH ]; cbn [forEach]; intros Hf.
  - apply quiet_at_most_once, quiet_ret.
  - apply at_most_once_bind; [ apply Hf; left; reflexivity | intros _ ].
    apply IH. intros b Hb. apply Hf. right. exact Hb.
Qed.

(** Once the flag is up, nothing more is fired. *)
Lemma at_most_once_completed (this : Which) {A} (m : M A) (w : World) :
  at_most_once this m -> completed this w = true ->
  swipes (trace_of (m w)) = 0%nat /\ completed this (world_of (m w)) = true.
Proof.
  intros Hm Hw. destruct (Hm w) as [ [H1 H2] | (H0 & _) ].
  - rewrite H2. auto.
  - rewrite Hw in H0. discriminate.
Qed.

(** While the flag is down, nothing has been fired. *)
Lemma at_most_once_not_completed (this : Which) {A} (m : M A) (w : World) :
  at_most_once this m -> completed this (world_of (m w)) = false ->
  swipes (trace_of (m w)) = 0%nat /\ completed this w = false.
Proof.
  intros Hm Hw. destruct (Hm w) as [ [H1 H2] | (_ & _ & H2) ].
  - rewrite <- H2. auto.
  - rewrite Hw in H2. discriminate.
Qed.

Lemma forEach_app_trace {A} (f : A -> M unit) (l1 l2 : list A) (w : World) :
  trace_of (forEach f (l1 ++ l2) w)
  = trace_of (forEach f l1 w) ++ trace_of (forEach f l2 (world_of (forEach f l1 w))).
Proof.
  revert w. induction l1 as [ | a l1 IH ]; intros w; cbn [forEach app].
  - reflexivity.
  - rewrite !trace_bind, !world_bind, IH, app_assoc. reflexivity.
Qed.

Lemma forEach_app_world {A} (f : A -> M unit) (l1 l2 : list A) (w : World) :
  world_of (forEach f (l1 ++ l2) w)
  = world_of (forEach f l2 (world_of (forEach f l1 w))).
Proof.
  revert w. induction l1 as [ | a l1 IH ]; intros w; cbn [forEach app].
  - reflexivity.
  - rewrite !world_bind, IH. reflexivity.
Qed.

(** Steps through a computation that cannot fire a swipe. *)
Ltac quiet_step :=
  first
    [ apply quiet_ret
    | apply quiet_get
    | apply quiet_this_handler
    | apply quiet_renderData
    | apply quiet_update_renderData
    | apply quiet_update_this; intros; reflexivity
    | apply quiet_emit; reflexivity
    | apply quiet_bind; [ | intros ? ]
    | apply quiet_when
    | apply quiet_if
    | apply quiet_forEach; intros ? ].

Ltac quiet_run := cbv zeta; repeat (quiet_step; cbv zeta).

Section QuietMethods.
Context {SB : StrategyBehaviour} (this : Which).

Lemma quiet_getCursorPosition : quiet this getCursorPosition.
Proof. unfold getCursorPosition. quiet_run. Qed.

Lemma quiet_setCursorPosition (x y : float) : quiet this (setCursorPosition x y).
Proof. unfold setCursorPosition. quiet_run. Qed.

Lemma quiet_mapScreenPointToImagePoint (x y : float) :
  quiet this (mapScreenPointToImagePoint x y).
Proof. unfold mapScreenPointToImagePoint. quiet_run. Qed.

Lemma quiet_moveCursor (x y : float) : quiet this (moveCursor this x y).
Proof.
  unfold moveCursor.
  apply quiet_bind; [ apply quiet_setCursorPosition | intros ? ].
  quiet_run.
Qed.

Lemma quiet_moveCursorByOffset (dx dy : float) : quiet this (moveCursorByOffset this dx dy).
Proof.
  unfold moveCursorByOffset.
  apply quiet_bind; [ apply quiet_getCursorPosition | intros ? ].
  apply quiet_bind; [ apply quiet_renderData | intros ? ].
  apply quiet_moveCursor.
Qed.

Lemma quiet_moveCursorToScreenPoint (x y : float) :
  quiet this (moveCursorToScreenPoint this x y).
Proof.
  unfold moveCursorToScreenPoint.
  apply quiet_bind; [ apply quiet_mapScreenPointToImagePoint | intros ? ].
  apply quiet_moveCursor.
Qed.

Lemma quiet_screenPointLiesOutsideImageBoundary (x y : float) :
  quiet this (screenPointLiesOutsideImageBoundary x y).
Proof.
  unfold screenPointLiesOutsideImageBoundary.
  apply quiet_bind; [ apply quiet_mapScreenPointToImagePoint | intros ? ].
  quiet_run.
Qed.

Lemma quiet_onTap (pc : Z) (x y : float) : quiet this (onTap this pc x y).
Proof.
  unfold onTap. cbv zeta.
  apply quiet_if; [ apply quiet_ret | ].
  apply quiet_bind; [ apply quiet_this_handler | intros h ].
  assert (Hforward : quiet this
            (bind (emit (StrategyOnTap (mInputStrategy h) (mouseButtonFromPointerCount pc)))
               (fun _ =>
                  bind (if onTap_consumed (mInputStrategy h)
                             (mouseButtonFromPointerCount pc)
                        then bind getCursorPosition
                               (fun pos =>
                                  emit (StubShowInputFeedback
                                          (ShortPressFeedbackType (mInputStrategy h)) pos))
                        else ret tt)
                    (fun _ => ret true)))).
  { quiet_run. }
  apply quiet_if; [ | exact Hforward ].
  apply quiet_bind; [ apply quiet_screenPointLiesOutsideImageBoundary | intros outside ].
  apply quiet_if; [ apply quiet_ret | ].
  apply quiet_bind; [ apply quiet_moveCursorToScreenPoint | intros _; exact Hforward ].
Qed.

Lemma quiet_onLongPress (pc : Z) (x y : float) : quiet this (onLongPress this pc x y).
Proof.
  unfold onLongPress. cbv zeta.
  apply quiet_if; [ apply quiet_ret | ].
  apply quiet_bind; [ apply quiet_this_handler | intros h ].
  assert (Hforward : quiet this
            (bind (emit (StrategyOnPressAndHold (mInputStrategy h)
                           (mouseButtonFromPointerCount pc)))
               (fun _ =>
                  if onPressAndHold_consumed (mInputStrategy h)
                       (mouseButtonFromPointerCount pc)
                  then bind getCursorPosition
                         (fun pos =>
                            bind (emit (StubShowInputFeedback
                                          (LongPressFeedbackType (mInputStrategy h)) pos))
                              (fun _ => update_this this (with_mIsDragging true)))
                  else ret tt))).
  { quiet_run. }
  apply quiet_if; [ | exact Hforward ].
  apply quiet_bind; [ apply quiet_screenPointLiesOutsideImageBoundary | intros outside ].
  apply quiet_if; [ apply quiet_ret | ].
  apply quiet_bind; [ apply quiet_moveCursorToScreenPoint | intros _; exact Hforward ].
Qed.

Lemma quiet_TouchpadListener_onTouch (v : View) (e : MotionEvent) :
  quiet this (TouchpadListener_onTouch this v e).
Proof.
  unfold TouchpadListener_onTouch. quiet_run; apply quiet_moveCursorByOffset.
Qed.

Lemma completed_set_other (f : Handler -> Handler) (w : World) :
  (forall h, mSwipeCompleted (f h) = mSwipeCompleted h) ->
  completed this (set_handler this (f (handler this w)) w) = completed this w.
Proof. intros Hf. unfold completed. rewrite handler_set_handler. apply Hf. Qed.

(** The three outcomes of [onSwipe]. *)
Lemma onSwipe_cases (w : World) :
  let h := handler this w in
  (F32.gtb (mTotalMotionY h) (mSwipeThreshold h) = true
   /\ trace_of (onSwipe this w) = [StubSwipeDown]
   /\ completed this (world_of (onSwipe this w)) = true)
  \/ (F32.gtb (mTotalMotionY h) (mSwipeThreshold h) = false
      /\ F32.ltb (mTotalMotionY h) (F32.neg (mSwipeThreshold h)) = true
      /\ trace_of (onSwipe this w) = [StubSwipeUp]
      /\ completed this (world_of (onSwipe this w)) = true)
  \/ (F32.gtb (mTotalMotionY h) (mSwipeThreshold h) = false
      /\ F32.ltb (mTotalMotionY h) (F32.neg (mSwipeThreshold h)) = false
      /\ onSwipe this w = (false, w, [])).
Proof.
  cbv zeta. unfold onSwipe.
  rewrite trace_bind, world_bind. autorewrite with run. cbv beta.
  unfold bind at 3. cbn [this_handler bind get ret].
  destruct (F32.gtb _ _) eqn:Hgt.
  - left. split; [ reflexivity | ]. split; [ reflexivity | ].
    unfold completed. step. reflexivity.
  - destruct (F32.ltb _ _) eqn:Hlt.
    + right. left. split; [ reflexivity | ]. split; [ reflexivity | ].
      split; [ reflexivity | ]. unfold completed. step. reflexivity.
    + right. right. repeat split.
Qed.

(** A scroll callback fires at most one swipe, and none once the flag is
    up. *)
Lemma at_most_once_onScroll (e1 e2 : MotionEvent) (dx dy : float) (sw : bool) :
  at_most_once this (onScroll this e1 e2 dx dy sw).
Proof.
  intros w. unfold onScroll. cbv zeta.
  rewrite trace_bind, world_bind. autorewrite with run. cbv beta.
  destruct (negb (Rect_contains _ _ _) && hasTouchpadHandler this).
  { left. apply (quiet_bind this); [ | intros ? ]; quiet_run. }
  destruct ((3 <=? getPointerCount e2) && negb (mSwipeCompleted (handler this w)))
    eqn:Hswipe.
  { apply andb_prop in Hswipe. destruct Hswipe as [_ Hflag].
    apply negb_true_iff in Hflag.
    rewrite trace_bind, world_bind. autorewrite with run. cbv beta.
    set (w1 := set_handler this _ w).
    assert (Hw1 : completed this w1 = false).
    { subst w1. rewrite completed_set_other by reflexivity. exact Hflag. }
    destruct (onSwipe_cases w1) as [ (_ & Ht & Hc) | [ (_ & _ & Ht & Hc) | (_ & _ & Hrun) ] ].
    - right. rewrite Ht, Hc. repeat split. exact Hflag.
    - right. rewrite Ht, Hc. repeat split. exact Hflag.
    - left. rewrite Hrun. cbn [trace_of world_of fst snd]. split; [ reflexivity | ].
      rewrite Hw1. symmetry. exact Hflag. }
  left.
  assert (Hq : forall h : Handler,
             quiet this
               (if (getPointerCount e2 =? 2) && sw
                then bind (when (negb (isIndirectInputMode (mInputStrategy h)))
                             (moveCursorToScreenPoint this (getX e1) (getY e1)))
                       (fun _ =>
                          bind (emit (StrategyOnScroll (mInputStrategy h) dx dy))
                            (fun _ =>
                               bind (update_this this (with_mSuppressCursorMovement true))
                                 (fun _ => ret true)))
                else if negb (getPointerCount e2 =? 1) || mSuppressCursorMovement h
                then ret false
                else bind renderData
                       (fun rd =>
                          let canvasToImage :=
                            match Matrix_invert (transform rd) with
                            | Some inv => inv
                            | None => Matrix_identity
                            end in
                          let delta := Matrix_mapVectors canvasToImage (dx, dy) in
                          bind (when (isIndirectInputMode (mInputStrategy h))
                                  (moveCursorByOffset this (fst delta) (snd delta)))
                            (fun _ =>
                               bind (when (negb (isIndirectInputMode (mInputStrategy h))
                                           && mIsDragging h)
                                       (moveCursorToScreenPoint this (getX e2) (getY e2)))
                                 (fun _ => ret true))))).
  { intros h.
    repeat first
      [ apply quiet_moveCursorToScreenPoint
      | apply quiet_moveCursorByOffset
      | quiet_step; cbv zeta ]. }
  apply (Hq (handler this w) w).
Qed.

(** The crossing itself: three or more pointers, the flag still down,
    and the accumulated motion above the threshold. *)
Lemma onScroll_crossing (e1 e2 : MotionEvent) (dx dy : float) (sw : bool) (w : World) :
  startsInsidePanBounds this w e1 = true ->
  3 <= getPointerCount e2 ->
  completed this w = false ->
  F32.gtb (F32.sub (mTotalMotionY (handler this w)) dy)
          (mSwipeThreshold (handler this w)) = true ->
  trace_of (onScroll this e1 e2 dx dy sw w) = [StubSwipeDown]
  /\ completed this (world_of (onScroll this e1 e2 dx dy sw w)) = true.
Proof.
  intros Hin Hpc Hflag Hgt.
  unfold startsInsidePanBounds in Hin. apply negb_true_iff in Hin.
  unfold completed in Hflag.
  unfold onScroll. cbv zeta.
  rewrite trace_bind, world_bind. autorewrite with run. cbv beta.
  rewrite Hin, Hflag.
  replace (3 <=? getPointerCount e2) with true by (symmetry; apply Z.leb_le; exact Hpc).
  cbn [andb negb].
  rewrite trace_bind, world_bind. autorewrite with run. cbv beta.
  set (w1 := set_handler this _ w).
  destruct (onSwipe_cases w1) as [ (_ & Ht & Hc) | [ (Hno & _) | (Hno & _) ] ].
  - rewrite Ht, Hc. split; reflexivity.
  - subst w1. rewrite handler_set_handler in Hno. cbn in Hno.
    rewrite Hgt in Hno. discriminate.
  - subst w1. rewrite handler_set_handler in Hno. cbn in Hno.
    rewrite Hgt in Hno. discriminate.
Qed.

Lemma at_most_once_gestureListener (cb : GestureCallback) :
  at_most_once this (gestureListener this cb).
Proof.
  destruct cb; cbn [gestureListener]; try (apply quiet_at_most_once, quiet_ret).
  - apply at_most_once_bind; [ apply at_most_once_onScroll | intros ? ].
    apply quiet_at_most_once, quiet_ret.
  - apply quiet_at_most_once.
    apply quiet_bind; [ apply quiet_onTap | intros ?; apply quiet_ret ].
  - apply quiet_at_most_once, quiet_onLongPress.
Qed.

Lemma gesturePipeline_unfold (view : View) (event : MotionEvent) (o : DetectorOracle) :
  gesturePipeline this view event o
  = bind (this_handler this) (fun h =>
    bind (emit (StrategyOnMotionEvent (mInputStrategy h) event)) (fun _ =>
    bind (emit (DetectorOnTouchEvent Scroller)) (fun _ =>
    bind (forEach (gestureListener this) (scrollerCallbacks o)) (fun _ =>
    afterScroller this view event o)))).
Proof. reflexivity. Qed.

Lemma at_most_once_afterScroller (view : View) (event : MotionEvent) (o : DetectorOracle) :
  getActionMasked event <> ACTION_DOWN ->
  at_most_once this (afterScroller this view event o).
Proof.
  intros Hdown. apply Z.eqb_neq in Hdown. unfold afterScroller. rewrite Hdown.
  apply at_most_once_bind; [ apply quiet_at_most_once; quiet_step | intros _ ].
  apply at_most_once_bind;
    [ apply at_most_once_forEach; intros ? _; apply at_most_once_gestureListener
    | intros _ ].
  apply at_most_once_bind; [ apply quiet_at_most_once; quiet_step | intros _ ].
  apply at_most_once_bind;
    [ apply at_most_once_forEach; intros ? _; apply at_most_once_gestureListener
    | intros _ ].
  apply at_most_once_bind; [ apply quiet_at_most_once; quiet_step | intros _ ].
  apply at_most_once_bind;
    [ apply quiet_at_most_once, quiet_TouchpadListener_onTouch | intros _ ].
  apply quiet_at_most_once. quiet_run.
Qed.

Lemma at_most_once_gesturePipeline (view : View) (event : MotionEvent)
    (o : DetectorOracle) :
  getActionMasked event <> ACTION_DOWN ->
  at_most_once this (gesturePipeline this view event o).
Proof.
  intros Hdown. rewrite gesturePipeline_unfold.
  apply at_most_once_bind; [ apply quiet_at_most_once, quiet_this_handler | intros h ].
  apply at_most_once_bind; [ apply quiet_at_most_once; quiet_step | intros _ ].
  apply at_most_once_bind; [ apply quiet_at_most_once; quiet_step | intros _ ].
  apply at_most_once_bind;
    [ apply at_most_once_forEach; intros ? _; apply at_most_once_gestureListener
    | intros _ ].
  apply at_most_once_afterScroller, Hdown.
Qed.

Lemma at_most_once_runSession (evs : list SessionEvent) :
  forallb continues_session evs = true ->
  at_most_once this (runSession this evs).
Proof.
  intros Hevs. unfold runSession. apply at_most_once_forEach.
  intros ev Hin.
  rewrite forallb_forall in Hevs. specialize (Hevs ev Hin).
  unfold continues_session in Hevs. apply negb_true_iff, Z.eqb_neq in Hevs.
  apply at_most_once_bind; [ apply at_most_once_gesturePipeline, Hevs | intros ? ].
  apply quiet_at_most_once, quiet_ret.
Qed.

End QuietMethods.

End HandlerFacts.

Import TouchInputHandler HandlerFacts F32Facts.

Section CoordinateTheorems.





(** C2: for positive sizes, after [handleClientSizeChanged] (the
    screen-size change) and after [handleHostSizeChanged] (the image-size
    change) the scale of the transform is exactly the pair of binary32
    quotients image width / screen width and image height / screen height,
    taken over the sizes then in force. *)
Theorem scale_is_image_over_screen (this : Which) (w : World)
    (screenW screenH imageW imageH : Z) :
  0 < screenW -> 0 < screenH -> 0 < imageW -> 0 < imageH ->
  (imageWidth (mRenderData w) = imageW -> imageHeight (mRenderData w) = imageH ->
   scale (world_of (handleClientSizeChanged this screenW screenH w))
   = (F32.div (F32.of_int imageW) (F32.of_int screenW),
      F32.div (F32.of_int imageH) (F32.of_int screenH)))
  /\ (screenWidth (mRenderData w) = screenW -> screenHeight (mRenderData w) = screenH ->
      scale (world_of (handleHostSizeChanged this imageW imageH w))
      = (F32.div (F32.of_int imageW) (F32.of_int screenW),
         F32.div (F32.of_int imageH) (F32.of_int screenH))).
Proof.
  intros _ _ _ _. split.
  - intros Hiw Hih. unfold scale.
    rewrite handleClientSizeChanged_renderData. cbv zeta. cbn. subst. reflexivity.
  - intros Hsw Hsh. unfold scale.
    destruct (handleHostSizeChanged_renderData this imageW imageH w) as [p Hp].
    cbv zeta in Hp. rewrite Hp. cbn. subst. reflexivity.
Qed.

Lemma scale_is_image_over_screen_witness :
  scale (world_of (handleClientSizeChanged Main 1080 2400 portrait_phone))
  = (F32.div (F32.of_int 1920) (F32.of_int 1080),
     F32.div (F32.of_int 1080) (F32.of_int 2400))
  /\ scale (world_of (handleHostSizeChanged Main 1920 1080 portrait_phone))
     = (F32.div (F32.of_int 1920) (F32.of_int 1080),
        F32.div (F32.of_int 1080) (F32.of_int 2400)).
Proof.
  destruct (scale_is_image_over_screen Main portrait_phone 1080 2400 1920 1080)
    as [H1 H2]; try reflexivity.
  split; [ apply H1; reflexivity | apply H2; reflexivity ].
Defined.

(** C3, as stated, fails: from a valid transform, a screen-size change
    to 0x0 is not skipped; it replaces the scale by (+infinity,
    +infinity). *)
Lemma zero_screen_overwrites_transform :
  let after := world_of (handleClientSizeChanged Main 0 0 portrait_phone) in
  scale portrait_phone = (F32.div (F32.of_int 1920) (F32.of_int 1080),
                          F32.div (F32.of_int 1080) (F32.of_int 2400))
  /\ scale after = (S754_infinity false, S754_infinity false)
  /\ transform (mRenderData after) <> transform (mRenderData portrait_phone).
Proof. cbv zeta. repeat split; vm_compute; congruence. Qed.

(** C3, amended: a zero size is not guarded.  Every size change
    recomputes the transform from the sizes it is given, so the previous
    transform is never kept; with a zero screen width or height the
    binary32 division yields an infinite or NaN factor instead of raising
    an error. *)
Theorem size_change_always_recomputes (this : Which) (w : World) (width height : Z) :
  let rd := mRenderData w in
  scale (world_of (handleClientSizeChanged this width height w))
  = (F32.div (F32.of_int (imageWidth rd)) (F32.of_int width),
     F32.div (F32.of_int (imageHeight rd)) (F32.of_int height))
  /\ scale (world_of (handleHostSizeChanged this width height w))
     = (F32.div (F32.of_int width) (F32.of_int (screenWidth rd)),
        F32.div (F32.of_int height) (F32.of_int (screenHeight rd)))
  /\ F32.is_finite (fst (scale (world_of (handleClientSizeChanged this 0 height w)))) = false
  /\ F32.is_finite (snd (scale (world_of (handleClientSizeChanged this width 0 w)))) = false.
Proof.
  cbv zeta. unfold scale. rewrite !handleClientSizeChanged_renderData. cbv zeta.
  destruct (handleHostSizeChanged_renderData this width height w) as [p Hp].
  cbv zeta in Hp. rewrite Hp.
  cbn [transform MSCALE_X MSCALE_Y fst snd].
  repeat split; apply div_by_zero_not_finite.
Qed.

End CoordinateTheorems.

Section GestureTheorems.
Context {SB : StrategyBehaviour}.

Lemma screenPointLiesOutsideImageBoundary_run (x y : float) (w : World) :
  screenPointLiesOutsideImageBoundary x y w = (outsideImage w (imagePointOf w x y), w, []).
Proof. reflexivity. Qed.

Lemma button_of_tap (pointerCount : Z) :
  pointerCount = 1 \/ pointerCount = 2 \/ pointerCount = 3 ->
  (mouseButtonFromPointerCount pointerCount =? BUTTON_UNDEFINED) = false.
Proof. intros [ -> | [ -> | -> ] ]; reflexivity. Qed.

Lemma button_of_other_count (pointerCount : Z) :
  pointerCount <> 1 -> pointerCount <> 2 -> pointerCount <> 3 ->
  mouseButtonFromPointerCount pointerCount = BUTTON_UNDEFINED.
Proof.
  intros H1 H2 H3. unfold mouseButtonFromPointerCount.
  apply Z.eqb_neq in H1, H2, H3. rewrite H1, H2, H3. reflexivity.
Qed.

(** C9: a tap or a long press turns the pointer count into a button, 1 to
    left, 2 to right, 3 to middle, and hands that button to the input
    strategy, in the indirect mode as it is (the cursor stays where it is)
    and in a direct mode after the boundary test; any other count is turned
    away with no action.  In a direct input mode a tap or hold whose image
    point lies outside the image by more than [EPSILON] is turned away too:
    the cursor is not moved and nothing is forwarded.  Otherwise the cursor
    is first warped to that image point and then the click is handed to the
    input strategy. *)
Theorem tap_button_and_boundary (this : Which) (w : World) :
  let strategy := mInputStrategy (handler this w) in
  mouseButtonFromPointerCount 1 = BUTTON_LEFT
  /\ mouseButtonFromPointerCount 2 = BUTTON_RIGHT
  /\ mouseButtonFromPointerCount 3 = BUTTON_MIDDLE
  /\ (forall pc x y, pc <> 1 -> pc <> 2 -> pc <> 3 ->
      mouseButtonFromPointerCount pc = BUTTON_UNDEFINED
      /\ onTap this pc x y w = (false, w, [])
      /\ onLongPress this pc x y w = (tt, w, []))
  /\ (forall pc x y, pc = 1 \/ pc = 2 \/ pc = 3 ->
      isIndirectInputMode strategy = false ->
      outsideImage w (imagePointOf w x y) = true ->
      onTap this pc x y w = (false, w, [])
      /\ onLongPress this pc x y w = (tt, w, []))
  /\ (forall pc x y, pc = 1 \/ pc = 2 \/ pc = 3 ->
      isIndirectInputMode strategy = false ->
      outsideImage w (imagePointOf w x y) = false ->
      let warped := world_of (moveCursorToScreenPoint this x y w) in
      let button := mouseButtonFromPointerCount pc in
      cursor warped
      = storedPoint (mRenderData w) (fst (imagePointOf w x y)) (snd (imagePointOf w x y))
      /\ onTap this pc x y w
         = (true, warped,
            trace_of (moveCursorToScreenPoint this x y w)
              ++ tapForwarded strategy button (cursor warped))
      /\ cursor (world_of (onLongPress this pc x y w)) = cursor warped
      /\ trace_of (onLongPress this pc x y w)
         = trace_of (moveCursorToScreenPoint this x y w)
           ++ holdForwarded strategy button (cursor warped))
  /\ (forall pc x y, pc = 1 \/ pc = 2 \/ pc = 3 ->
      isIndirectInputMode strategy = true ->
      let button := mouseButtonFromPointerCount pc in
      onTap this pc x y w = (true, w, tapForwarded strategy button (cursor w))
      /\ mRenderData (world_of (onLongPress this pc x y w)) = mRenderData w
      /\ trace_of (onLongPress this pc x y w) = holdForwarded strategy button (cursor w)).
Proof.
  cbv zeta.
  split; [ reflexivity | ]. split; [ reflexivity | ]. split; [ reflexivity | ].
  split; [ | split; [ | split ] ].
  - intros pc x y H1 H2 H3.
    pose proof (button_of_other_count pc H1 H2 H3) as Hb.
    unfold onTap, onLongPress. rewrite Hb. repeat split.
  - intros pc x y Hpc Hdirect Hout.
    pose proof (button_of_tap pc Hpc) as Hb.
    unfold onTap, onLongPress. rewrite Hb.
    split.
    + unfold bind at 1. cbn [this_handler bind get ret].
      rewrite Hdirect. cbn [negb].
      unfold bind at 1. rewrite screenPointLiesOutsideImageBoundary_run, Hout.
      reflexivity.
    + unfold bind at 1. cbn [this_handler bind get ret].
      rewrite Hdirect. cbn [negb].
      unfold bind at 1. rewrite screenPointLiesOutsideImageBoundary_run, Hout.
      reflexivity.
  - intros pc x y Hpc Hdirect Hout.
    pose proof (button_of_tap pc Hpc) as Hb.
    assert (Hwarp : forall r : unit * World * list Effect,
               r = moveCursorToScreenPoint this x y w ->
               handler this (world_of r) = handler this w
               /\ cursor (world_of r)
                  = storedPoint (mRenderData w) (fst (imagePointOf w x y))
                      (snd (imagePointOf w x y))).
    { intros r ->. rewrite moveCursorToScreenPoint_world.
      split; [ apply handler_set_renderData | reflexivity ]. }
    specialize (Hwarp _ eq_refl). destruct Hwarp as [Hh Hc].
    split; [ exact Hc | ].
    unfold onTap, onLongPress, tapForwarded, holdForwarded. rewrite Hb.
    split; [ | split ].
    + rewrite (run_eta (bind _ _ w)). f_equal; [ f_equal | ].
      * step. rewrite Hdirect. cbn [negb]. step.
        rewrite screenPointLiesOutsideImageBoundary_run. cbn [result world_of fst snd].
        rewrite Hout. step. reflexivity.
      * step. rewrite Hdirect. cbn [negb]. step.
        rewrite screenPointLiesOutsideImageBoundary_run. cbn [result world_of fst snd].
        rewrite Hout. step.
        destruct (onTap_consumed _ _); step; reflexivity.
      * step. rewrite Hdirect. cbn [negb]. step.
        rewrite screenPointLiesOutsideImageBoundary_run.
        cbn [result world_of trace_of fst snd].
        rewrite Hout. step. cbn [app].
        destruct (onTap_consumed _ _); step; reflexivity.
    + step. rewrite Hdirect. cbn [negb]. step.
      rewrite screenPointLiesOutsideImageBoundary_run. cbn [result world_of fst snd].
      rewrite Hout. step.
      destruct (onPressAndHold_consumed _ _); step; [ | reflexivity ].
      unfold cursor. step. reflexivity.
    + step. rewrite Hdirect. cbn [negb]. step.
      rewrite screenPointLiesOutsideImageBoundary_run.
      cbn [result world_of trace_of fst snd].
      rewrite Hout. step. cbn [app].
      destruct (onPressAndHold_consumed _ _); step; reflexivity.
  - intros pc x y Hpc Hind.
    pose proof (button_of_tap pc Hpc) as Hb.
    unfold onTap, onLongPress, tapForwarded, holdForwarded. rewrite Hb.
    split; [ | split ].
    + unfold bind at 1. cbn [this_handler bind get ret].
      rewrite Hind. cbn [negb]. run_monad.
      destruct (onTap_consumed _ _); reflexivity.
    + unfold bind at 1. cbn [this_handler bind get ret].
      rewrite Hind. cbn [negb]. run_monad.
      destruct (onPressAndHold_consumed _ _); destruct this; reflexivity.
    + unfold bind at 1. cbn [this_handler bind get ret].
      rewrite Hind. cbn [negb]. run_monad.
      destruct (onPressAndHold_consumed _ _); reflexivity.
Qed.

Lemma swipes_zero (t : list Effect) :
  swipes t = 0%nat -> swipeDowns t = 0%nat /\ swipeUps t = 0%nat.
Proof. unfold swipes. lia. Qed.

(** The event on which the threshold is crossed fires the one swipe-down. *)
Lemma gesturePipeline_crossing (this : Which) (w : World) (view : View)
    (event : MotionEvent) (o : DetectorOracle) (e1 e2 : MotionEvent) (dx dy : float)
    (sw : bool) :
  getActionMasked event <> ACTION_DOWN ->
  scrollerCallbacks o = [OnScroll e1 e2 dx dy sw] ->
  3 <= getPointerCount e2 ->
  startsInsidePanBounds this w e1 = true ->
  completed this w = false ->
  F32.gtb (F32.sub (mTotalMotionY (handler this w)) dy)
          (mSwipeThreshold (handler this w)) = true ->
  swipeDowns (trace_of (gesturePipeline this view event o w)) = 1%nat
  /\ swipeUps (trace_of (gesturePipeline this view event o w)) = 0%nat
  /\ completed this (world_of (gesturePipeline this view event o w)) = true.
Proof.
  intros Hdown Hcb Hpc Hin Hflag Hgt.
  destruct (onScroll_crossing this e1 e2 dx dy sw w Hin Hpc Hflag Hgt) as [Ht Hc].
  rewrite gesturePipeline_unfold, Hcb. cbn [forEach gestureListener].
  step.
  set (w1 := world_of (onScroll this e1 e2 dx dy sw w)) in *.
  destruct (at_most_once_completed this (afterScroller this view event o) w1
              (at_most_once_afterScroller this view event o Hdown) Hc) as [Hs Hc'].
  apply swipes_zero in Hs. destruct Hs as [Hd Hu].
  rewrite Ht, !swipeDowns_app, !swipeUps_app, Hd, Hu.
  repeat split. exact Hc'.
Qed.

(** C4, as stated, fails: a scroll that starts within the edge slop of the
    pan boundary is turned away before the swipe branch of [onScroll] is
    reached.  On a 1920x1080 desktop shown one to one, a three-finger drag
    begun at (500, 5) reports 100 pixels of downward motion twice, far past
    the threshold of 80, in a session with no swipe completed; it fires no
    swipe at all and [mSwipeCompleted] stays false. *)
Lemma edge_swipe_fires_nothing :
  let session := [edge_drag; edge_drag] in
  let run := @runSession consuming_strategy Main session desktop_touch in
  forallb continues_session session = true
  /\ mSwipeThreshold (handler Main desktop_touch) = F32.mul (F32.of_int 40) (F32.of_int 2)
  /\ 3 <= getPointerCount three_finger_move
  /\ mSwipeCompleted (handler Main desktop_touch) = false
  /\ F32.gtb (F32.sub (mTotalMotionY (handler Main desktop_touch)) (F32.of_int (-100)))
             (F32.mul (F32.of_int 40) (F32.of_int 2)) = true
  /\ startsInsidePanBounds Main desktop_touch edge_down = false
  /\ swipeDowns (trace_of run) = 0%nat
  /\ swipeUps (trace_of run) = 0%nat
  /\ mSwipeCompleted (handler Main (world_of run)) = false.
Proof. cbv zeta. repeat split; vm_compute; congruence. Qed.

(** C4, amended: take a gesture session of one handler, that is events that
    reach its gesture pipeline without a new [ACTION_DOWN].  If on one of them the
    scroller reports a scroll with three or more pointers that starts inside
    the pan boundary, no swipe is completed yet, and the accumulated motion
    [mTotalMotionY - distanceY] exceeds the threshold of 40 times the
    display density, then the whole session fires exactly one swipe-down and
    no swipe-up: nothing was fired before, the swipe-down is fired on that
    event and sets [mSwipeCompleted], and whatever motion follows in the
    session fires nothing more. *)
Theorem swipe_down_fires_once (this : Which) (w : World) (density : float)
    (pre post : list SessionEvent) (view : View) (event : MotionEvent)
    (o : DetectorOracle) (e1 e2 : MotionEvent) (dx dy : float) (sw : bool) :
  let before := world_of (runSession this pre w) in
  let crossing := (view, event, o) in
  let session := pre ++ crossing :: post in
  forallb continues_session session = true ->
  mSwipeThreshold (handler this before) = F32.mul (F32.of_int 40) density ->
  scrollerCallbacks o = [OnScroll e1 e2 dx dy sw] ->
  3 <= getPointerCount e2 ->
  startsInsidePanBounds this before e1 = true ->
  mSwipeCompleted (handler this before) = false ->
  F32.gtb (F32.sub (mTotalMotionY (handler this before)) dy)
          (F32.mul (F32.of_int 40) density) = true ->
  swipeDowns (trace_of (runSession this session w)) = 1%nat
  /\ swipeUps (trace_of (runSession this session w)) = 0%nat
  /\ mSwipeCompleted (handler this (world_of (runSession this session w))) = true
  /\ swipes (trace_of (runSession this pre w)) = 0%nat
  /\ swipes (trace_of (runSession this post
                         (world_of (runSession this (pre ++ [crossing]) w)))) = 0%nat.
Proof.
  cbv zeta. intros Hsession Hthr Hcb Hpc Hin Hflag Hgt.
  rewrite forallb_app in Hsession. apply andb_prop in Hsession.
  destruct Hsession as [Hpre Hrest]. cbn [forallb] in Hrest.
  apply andb_prop in Hrest. destruct Hrest as [Hev Hpost].
  unfold continues_session in Hev. cbn [fst snd] in Hev.
  apply negb_true_iff, Z.eqb_neq in Hev.
  rewrite <- Hthr in Hgt.
  set (before := world_of (runSession this pre w)) in *.
  (* before the crossing *)
  destruct (at_most_once_not_completed this (runSession this pre) w
              (at_most_once_runSession this pre Hpre) Hflag) as [Hs0 _].
  (* the crossing *)
  destruct (gesturePipeline_crossing this before view event o e1 e2 dx dy sw
              Hev Hcb Hpc Hin Hflag Hgt) as (Hd1 & Hu1 & Hc1).
  (* after the crossing *)
  assert (Hmid : world_of (runSession this (pre ++ [(view, event, o)]) w)
                 = world_of (gesturePipeline this view event o before)).
  { unfold runSession. rewrite forEach_app_world. cbn [forEach fst snd]. step.
    reflexivity. }
  set (after := world_of (gesturePipeline this view event o before)) in *.
  destruct (at_most_once_completed this (runSession this post) after
              (at_most_once_runSession this post Hpost) Hc1) as [Hs2 Hc2].
  assert (Htrace : trace_of (runSession this (pre ++ (view, event, o) :: post) w)
                   = trace_of (runSession this pre w)
                     ++ trace_of (gesturePipeline this view event o before)
                     ++ trace_of (runSession this post after)).
  { unfold runSession. rewrite forEach_app_trace. cbn [forEach fst snd]. step.
    reflexivity. }
  assert (Hworld : world_of (runSession this (pre ++ (view, event, o) :: post) w)
                   = world_of (runSession this post after)).
  { unfold runSession. rewrite forEach_app_world. cbn [forEach fst snd]. step.
    reflexivity. }
  rewrite Htrace, Hworld, Hmid.
  rewrite !swipeDowns_app, !swipeUps_app.
  apply swipes_zero in Hs0. destruct Hs0 as [Hd0 Hu0].
  pose proof (swipes_zero _ Hs2) as [Hd2 Hu2].
  rewrite Hd0, Hu0, Hd1, Hu1, Hd2, Hu2.
  unfold swipes. rewrite Hd0, Hu0.
  repeat split; try reflexivity; [ exact Hc2 | exact Hs2 ].
Qed.

(** C10: an event whose tool type at the action index is neither mouse
    nor finger, a stylus or an eraser say, is not consumed by
    [handleTouchEvent]: the call answers [false], no listener, detector,
    strategy or injector is touched, and the state is left as it was.  All
    that happens is the debug log line and, for an [ACTION_DOWN] on an
    unfocused view, the focus request. *)
Theorem other_tool_types_are_ignored (w : World) (view : View) (event : MotionEvent)
    (o : DetectorOracle) :
  getToolType event (getActionIndex event) <> TOOL_TYPE_MOUSE ->
  getToolType event (getActionIndex event) <> TOOL_TYPE_FINGER ->
  handleTouchEvent view event o w
  = (false, w,
     LogD :: (if negb (isFocused view) && (getAction event =? ACTION_DOWN)
              then [ViewRequestFocus] else []))
  /\ forallb is_housekeeping (trace_of (handleTouchEvent view event o w)) = true
  /\ handleTouchEventOf Touchpad view event o w = handleTouchEvent view event o w.
Proof.
  intros Hmouse Hfinger.
  apply Z.eqb_neq in Hmouse, Hfinger.
  assert (Hrun : forall nested this,
             handleTouchEventBody nested this view event o w
             = (false, w,
                LogD :: (if negb (isFocused view) && (getAction event =? ACTION_DOWN)
                         then [ViewRequestFocus] else []))).
  { intros nested this. unfold handleTouchEventBody.
    rewrite Hmouse, Hfinger.
    destruct (negb (isFocused view) && (getAction event =? ACTION_DOWN)); reflexivity. }
  unfold handleTouchEvent, handleTouchEventOf. rewrite !Hrun.
  split; [ reflexivity | ]. split; [ | reflexivity ].
  destruct (negb (isFocused view) && (getAction event =? ACTION_DOWN)); reflexivity.
Qed.

End GestureTheorems.

Lemma tap_button_and_boundary_witness :
  isIndirectInputMode (mInputStrategy (handler Main desktop_touch)) = false
  /\ imageWidth (mRenderData desktop_touch) = 1920
  /\ imagePointOf desktop_touch (F32.of_int 1921) (F32.of_int 0)
     = (F32.of_int 1921, F32.of_int 0)
  /\ outsideImage desktop_touch (imagePointOf desktop_touch (F32.of_int 1921) (F32.of_int 0))
     = true
  /\ @onTap consuming_strategy Main 1 (F32.of_int 1921) (F32.of_int 0) desktop_touch
     = (false, desktop_touch, [])
  /\ imagePointOf desktop_touch (F32.of_int 1919) (F32.of_int 0)
     = (F32.of_int 1919, F32.of_int 0)
  /\ outsideImage desktop_touch (imagePointOf desktop_touch (F32.of_int 1919) (F32.of_int 0))
     = false
  /\ result (@onTap consuming_strategy Main 1 (F32.of_int 1919) (F32.of_int 0) desktop_touch)
     = true
  /\ cursor (world_of (@onTap consuming_strategy Main 1 (F32.of_int 1919) (F32.of_int 0)
                         desktop_touch))
     = mkPointF (F32.of_int 1919) (F32.of_int 0)
  /\ isIndirectInputMode (mInputStrategy (handler Main portrait_phone)) = true
  /\ @onTap consuming_strategy Main 2 (F32.of_int 100) (F32.of_int 200) portrait_phone
     = (true, portrait_phone,
        [StrategyOnTap TrackpadInputStrategy BUTTON_RIGHT;
         StubShowInputFeedback (ShortPressFeedbackType TrackpadInputStrategy)
           (cursor portrait_phone)]).
Proof.
  pose proof (@tap_button_and_boundary consuming_strategy Main desktop_touch) as H.
  cbv zeta in H. destruct H as (_ & _ & _ & _ & Hreject & Haccept & _).
  pose proof (@tap_button_and_boundary consuming_strategy Main portrait_phone) as H.
  cbv zeta in H. destruct H as (_ & _ & _ & _ & _ & _ & Hindirect).
  assert (Hdirect : isIndirectInputMode (mInputStrategy (handler Main desktop_touch)) = false)
    by reflexivity.
  assert (Hout : outsideImage desktop_touch
                   (imagePointOf desktop_touch (F32.of_int 1921) (F32.of_int 0)) = true)
    by (vm_compute; reflexivity).
  assert (Hin : outsideImage desktop_touch
                  (imagePointOf desktop_touch (F32.of_int 1919) (F32.of_int 0)) = false)
    by (vm_compute; reflexivity).
  assert (Htrackpad : isIndirectInputMode (mInputStrategy (handler Main portrait_phone))
                      = true) by reflexivity.
  destruct (Hreject 1 (F32.of_int 1921) (F32.of_int 0) (or_introl eq_refl) Hdirect Hout)
    as [Hr _].
  destruct (Haccept 1 (F32.of_int 1919) (F32.of_int 0) (or_introl eq_refl) Hdirect Hin)
    as (Hc & Ha & _).
  destruct (Hindirect 2 (F32.of_int 100) (F32.of_int 200) (or_intror (or_introl eq_refl))
              Htrackpad) as (Hi & _).
  split; [ exact Hdirect | ]. split; [ reflexivity | ].
  split; [ vm_compute; reflexivity | ]. split; [ exact Hout | ].
  split; [ exact Hr | ].
  split; [ vm_compute; reflexivity | ]. split; [ exact Hin | ].
  split; [ rewrite Ha; reflexivity | ].
  split; [ rewrite Ha; cbn [world_of fst snd]; rewrite Hc; vm_compute; reflexivity | ].
  split; [ exact Htrackpad | ].
  rewrite Hi. reflexivity.
Defined.

Lemma other_tool_types_are_ignored_witness :
  getToolType stylus_down (getActionIndex stylus_down) = TOOL_TYPE_STYLUS
  /\ @handleTouchEvent consuming_strategy (mkView false false) stylus_down no_callbacks
       portrait_phone
     = (false, portrait_phone, [LogD; ViewRequestFocus]).
Proof.
  split; [ reflexivity | ].
  refine (proj1 (@other_tool_types_are_ignored consuming_strategy portrait_phone
                   (mkView false false) stylus_down no_callbacks _ _));
    vm_compute; discriminate.
Defined.

Lemma swipe_down_fires_once_witness :
  forallb continues_session [three_finger_drag; three_finger_drag] = true
  /\ mSwipeThreshold (handler Main portrait_phone) = F32.mul (F32.of_int 40) (F32.of_int 2)
  /\ 3 <= getPointerCount three_finger_move
  /\ startsInsidePanBounds Main portrait_phone three_finger_down = true
  /\ mSwipeCompleted (handler Main portrait_phone) = false
  /\ F32.gtb (F32.sub (mTotalMotionY (handler Main portrait_phone)) (F32.of_int (-100)))
             (F32.mul (F32.of_int 40) (F32.of_int 2)) = true
  /\ swipeDowns (trace_of (@runSession consuming_strategy Main
                             [three_finger_drag; three_finger_drag] portrait_phone)) = 1%nat
  /\ swipeUps (trace_of (@runSession consuming_strategy Main
                           [three_finger_drag; three_finger_drag] portrait_phone)) = 0%nat.
Proof.
  assert (H1 : forallb continues_session ([] ++ three_finger_drag :: [three_finger_drag]) = true)
    by reflexivity.
  assert (H2 : mSwipeThreshold (handler Main portrait_phone)
               = F32.mul (F32.of_int 40) (F32.of_int 2)) by reflexivity.
  assert (H3 : 3 <= getPointerCount three_finger_move) by (vm_compute; discriminate).
  assert (H4 : startsInsidePanBounds Main portrait_phone three_finger_down = true)
    by (vm_compute; reflexivity).
  assert (H5 : mSwipeCompleted (handler Main portrait_phone) = false) by reflexivity.
  assert (H6 : F32.gtb (F32.sub (mTotalMotionY (handler Main portrait_phone))
                          (F32.of_int (-100)))
                 (F32.mul (F32.of_int 40) (F32.of_int 2)) = true)
    by (vm_compute; reflexivity).
  destruct (@swipe_down_fires_once consuming_strategy Main portrait_phone (F32.of_int 2)
              [] [three_finger_drag] (mkView true false) three_finger_move
              (snd three_finger_drag) three_finger_down three_finger_move
              F32.zero (F32.of_int (-100)) false H1 H2 eq_refl H3 H4 H5 H6)
    as (Hd & Hu & _).
  repeat split; assumption.
Defined.

(* ================================================================== *)
(** ** Further facts about the touch input handler                     *)
(* ================================================================== *)

Module InvariantFacts.

Section Rules.
Context (I : World -> Prop) (ok : Effect -> bool) {A B : Type}.

Lemma preserves_ret (a : A) : preserves I ok (ret a).
Proof. intros w Hw. split; [ exact Hw | reflexivity ]. Qed.

Lemma preserves_bind (m : M A) (k : A -> M B) :
  preserves I ok m -> (forall a, preserves I ok (k a)) -> preserves I ok (bind m k).
Proof.
  intros Hm Hk w Hw. rewrite world_bind, trace_bind, forallb_app.
  destruct (Hm w Hw) as [H1 H2].
  destruct (Hk (result (m w)) (world_of (m w)) H1) as [H3 H4].
  rewrite H2, H4. split; [ exact H3 | reflexivity ].
Qed.

(** Reading the state lets the rest of the computation rely on [I]. *)
Lemma preserves_get_bind (k : World -> M B) :
  (forall w, I w -> I (world_of (k w w)) /\ forallb ok (trace_of (k w w)) = true) ->
  preserves I ok (bind get k).
Proof.
  intros Hk w Hw. rewrite world_bind, trace_bind.
  rewrite result_get, world_get, trace_get. apply Hk, Hw.
Qed.

Lemma preserves_if (b : bool) (m1 m2 : M A) :
  preserves I ok m1 -> preserves I ok m2 -> preserves I ok (if b then m1 else m2).
Proof. destruct b; auto. Qed.

End Rules.

Section MoreRules.
Context (I : World -> Prop) (ok : Effect -> bool).

Lemma preserves_get : preserves I ok get.
Proof. intros w Hw. split; [ exact Hw | reflexivity ]. Qed.

Lemma preserves_emit (e : Effect) : ok e = true -> preserves I ok (emit e).
Proof. intros He w Hw. split; [ exact Hw | cbn; rewrite He; reflexivity ]. Qed.

Lemma preserves_modify (f : World -> World) :
  (forall w, I w -> I (f w)) -> preserves I ok (modify f).
Proof. intros Hf w Hw. split; [ apply Hf, Hw | reflexivity ]. Qed.

Lemma preserves_when (b : bool) (m : M unit) :
  preserves I ok m -> preserves I ok (when b m).
Proof. intros Hm. unfold when. destruct b; [ exact Hm | apply preserves_ret ]. Qed.

Lemma preserves_forEach {A} (f : A -> M unit) (l : list A) :
  (forall a, preserves I ok (f a)) -> preserves I ok (forEach f l).
Proof.
  intros Hf. induction l as [ | a l IH ]; cbn [forEach].
  - apply preserves_ret.
  - apply preserves_bind; [ apply Hf | intros _; exact IH ].
Qed.

End MoreRules.

Section AnswerRules.
Context {A B : Type}.

Lemma answers_ret (a : A) : answers a (ret a).
Proof. intros w. reflexivity. Qed.

Lemma answers_bind (b : B) (m : M A) (k : A -> M B) :
  (forall a, answers b (k a)) -> answers b (bind m k).
Proof. intros Hk w. rewrite result_bind. apply Hk. Qed.

Lemma answers_if (a : A) (c : bool) (m1 m2 : M A) :
  answers a m1 -> answers a m2 -> answers a (if c then m1 else m2).
Proof. destruct c; auto. Qed.

End AnswerRules.

(** Steps through a computation; [prim] settles what a state update does to
    the property. *)
Ltac preserves_step prim :=
  first
    [ apply preserves_ret
    | apply preserves_get
    | apply preserves_emit; reflexivity
    | apply preserves_modify; prim
    | apply preserves_bind; [ | intros ? ]
    | apply preserves_when
    | apply preserves_if
    | apply preserves_forEach; intros ? ].

Ltac preserves_run prim := cbv zeta; repeat (preserves_step prim; cbv zeta).

Ltac answers_run :=
  cbv zeta;
  repeat first
    [ apply answers_ret
    | apply answers_bind; intros ?
    | apply answers_if ]; cbv zeta.

Lemma injector_set_handler (this : Which) (h : Handler) (w : World) :
  mInjector (set_handler this h w) = mInjector w.
Proof. destruct this; reflexivity. Qed.

Lemma injector_set_renderData (rd : RenderData) (w : World) :
  mInjector (set_renderData rd w) = mInjector w.
Proof. reflexivity. Qed.

End InvariantFacts.

Import InvariantFacts.

Section PointerCapture.
Context {SB : StrategyBehaviour} (v : View) (i0 : InputEventSender).
Context (k0 : Which -> InputStrategy * float * Z).

(** No computation of the handler touches the injector [i0] or the
    configuration [k0] of a handler, and none asks for the pointer capture
    unless [i0] has it switched on and the view lacks it. *)
Let unwanted (w : World) : Prop :=
  mInjector w = i0 /\ forall that, configuration (handler that w) = k0 that.
Let no_capture (e : Effect) : bool :=
  negb (is_pointer_capture e) || (pointerCapture i0 && negb (hasPointerCapture v)).

Ltac capture_prim :=
  let w := fresh "w" in
  let H1 := fresh "H" in
  let H2 := fresh "H" in
  let that := fresh "that" in
  intros w [H1 H2]; cbv beta; split;
  [ rewrite ?injector_set_handler, ?injector_set_renderData; exact H1
  | intros that; specialize (H2 that); rewrite ?handler_set_renderData;
    first [ exact H2
          | match goal with
            | |- context [set_handler ?this _ _] => destruct this, that; exact H2
            end ] ].

Ltac capture_run := preserves_run capture_prim.

Lemma capture_request (c : bool) :
  preserves unwanted no_capture
    (when (pointerCapture i0 && negb (hasPointerCapture v) && c)
       (emit ViewRequestPointerCapture)).
Proof.
  unfold no_capture.
  destruct (pointerCapture i0 && negb (hasPointerCapture v)) eqn:Hwant.
  - apply preserves_when, preserves_emit. reflexivity.
  - apply preserves_ret.
Qed.

Lemma capture_moveCursorByOffset (this : Which) (dx dy : float) :
  preserves unwanted no_capture (moveCursorByOffset this dx dy).
Proof. unfold moveCursorByOffset, moveCursor, setCursorPosition. capture_run. Qed.

Lemma capture_moveCursorToScreenPoint (this : Which) (x y : float) :
  preserves unwanted no_capture (moveCursorToScreenPoint this x y).
Proof.
  unfold moveCursorToScreenPoint, mapScreenPointToImagePoint, moveCursor, setCursorPosition.
  capture_run.
Qed.

Lemma capture_onScroll (this : Which) (e1 e2 : MotionEvent) (dx dy : float) (sw : bool) :
  preserves unwanted no_capture (onScroll this e1 e2 dx dy sw).
Proof.
  unfold onScroll, onSwipe.
  repeat first
    [ apply capture_moveCursorByOffset
    | apply capture_moveCursorToScreenPoint
    | preserves_step capture_prim; cbv zeta ].
Qed.

Lemma capture_onTap (this : Which) (pc : Z) (x y : float) :
  preserves unwanted no_capture (onTap this pc x y).
Proof.
  unfold onTap, screenPointLiesOutsideImageBoundary, mapScreenPointToImagePoint.
  cbv zeta.
  repeat first
    [ apply capture_moveCursorToScreenPoint
    | preserves_step capture_prim; cbv zeta ].
Qed.

Lemma capture_onLongPress (this : Which) (pc : Z) (x y : float) :
  preserves unwanted no_capture (onLongPress this pc x y).
Proof.
  unfold onLongPress, screenPointLiesOutsideImageBoundary, mapScreenPointToImagePoint.
  cbv zeta.
  repeat first
    [ apply capture_moveCursorToScreenPoint
    | preserves_step capture_prim; cbv zeta ].
Qed.

Lemma capture_gestureListener (this : Which) (cb : GestureCallback) :
  preserves unwanted no_capture (gestureListener this cb).
Proof.
  destruct cb; cbn [gestureListener]; try apply preserves_ret.
  - apply preserves_bind; [ apply capture_onScroll | intros ?; apply preserves_ret ].
  - apply preserves_bind; [ apply capture_onTap | intros ?; apply preserves_ret ].
  - apply capture_onLongPress.
Qed.

Lemma capture_TouchpadListener_onTouch (this : Which) (e : MotionEvent) :
  preserves unwanted no_capture (TouchpadListener_onTouch this v e).
Proof.
  unfold TouchpadListener_onTouch. apply preserves_get_bind. intros w Hw.
  rewrite (proj1 Hw).
  refine (preserves_bind unwanted no_capture _ _ _ _ w Hw);
    [ apply capture_request | intros _ ].
  apply preserves_when, capture_moveCursorByOffset.
Qed.

Lemma capture_sendButtonChanges (bs : ButtonState) (e : MotionEvent) :
  preserves unwanted no_capture (sendButtonChanges bs e).
Proof. unfold sendButtonChanges. capture_run. Qed.

Lemma capture_moveCursorToEvent (e : MotionEvent) :
  preserves unwanted no_capture (moveCursorToEvent e).
Proof.
  unfold moveCursorToEvent, mapScreenPointToImagePoint, setCursorPosition. capture_run.
Qed.

Lemma capture_HardwareMouseListener_onTouch (this : Which) (e : MotionEvent) :
  preserves unwanted no_capture (HardwareMouseListener_onTouch this v e).
Proof.
  unfold HardwareMouseListener_onTouch. apply preserves_get_bind. intros w Hw.
  rewrite (proj1 Hw).
  refine (preserves_bind unwanted no_capture _ _ _ _ w Hw);
    [ apply capture_request | intros _ ].
  apply preserves_if.
  - capture_run.
  - repeat first
      [ apply capture_moveCursorToEvent
      | apply capture_sendButtonChanges
      | preserves_step capture_prim; cbv zeta ].
Qed.

Lemma capture_dexScroller (o : DetectorOracle) :
  preserves unwanted no_capture (dexScroller o).
Proof.
  unfold dexScroller.
  apply preserves_bind; [ apply preserves_emit; reflexivity | intros _ ].
  apply preserves_forEach. intros cb.
  destruct cb; cbn [dexListener]; unfold DexListener_onSingleTapConfirmed; capture_run.
Qed.

Lemma capture_DexListener_onTouch (this : Which) (e : MotionEvent) (o : DetectorOracle) :
  preserves unwanted no_capture (DexListener_onTouch this v e o).
Proof.
  unfold DexListener_onTouch, update_dex. cbv zeta.
  apply preserves_bind; [ capture_run | intros h ].
  apply preserves_bind; [ | intros ?; apply preserves_ret ].
  apply preserves_if.
  { repeat first
      [ apply capture_dexScroller | apply capture_sendButtonChanges
      | preserves_step capture_prim; cbv zeta ]. }
  apply preserves_if; [ apply capture_moveCursorToEvent | ].
  apply preserves_if.
  { repeat first [ apply capture_dexScroller | preserves_step capture_prim; cbv zeta ]. }
  apply preserves_if.
  { apply preserves_bind.
    - repeat first [ apply capture_dexScroller | preserves_step capture_prim; cbv zeta ].
    - intros _. apply preserves_get_bind. intros w Hw.
      rewrite (proj1 Hw), <- (andb_true_r (pointerCapture i0 && _)).
      apply capture_request, Hw. }
  repeat first
    [ apply capture_dexScroller | apply capture_moveCursorToEvent
    | preserves_step capture_prim; cbv zeta ].
Qed.

Lemma capture_gesturePipeline (this : Which) (e : MotionEvent) (o : DetectorOracle) :
  preserves unwanted no_capture (gesturePipeline this v e o).
Proof.
  unfold gesturePipeline.
  repeat first
    [ apply capture_TouchpadListener_onTouch
    | apply preserves_forEach; intros ?; apply capture_gestureListener
    | preserves_step capture_prim; cbv zeta ].
Qed.

Lemma capture_handleTouchEventBody (this : Which) (e : MotionEvent) (o : DetectorOracle)
    (nested : option (View -> MotionEvent -> DetectorOracle -> M bool)) :
  (forall f, nested = Some f -> preserves unwanted no_capture (f v e o)) ->
  preserves unwanted no_capture (handleTouchEventBody nested this v e o).
Proof.
  intros Hnested. unfold handleTouchEventBody.
  apply preserves_bind; [ apply preserves_emit; reflexivity | intros _ ].
  apply preserves_bind;
    [ apply preserves_when, preserves_emit; reflexivity | intros _ ].
  apply preserves_if; [ apply capture_HardwareMouseListener_onTouch | ].
  apply preserves_if; [ | apply preserves_ret ].
  apply preserves_if; [ apply capture_DexListener_onTouch | ].
  destruct nested as [ f | ]; [ | apply capture_gesturePipeline ].
  apply preserves_if; [ apply Hnested; reflexivity | apply capture_gesturePipeline ].
Qed.

Lemma capture_handleTouchEventOf (this : Which) (e : MotionEvent) (o : DetectorOracle) :
  preserves unwanted no_capture (handleTouchEventOf this v e o).
Proof.
  destruct this; cbn [handleTouchEventOf].
  - apply capture_handleTouchEventBody. intros f [= <-].
    apply capture_handleTouchEventBody. intros ? [=].
  - apply capture_handleTouchEventBody. intros ? [=].
Qed.

Lemma capture_handleClientSizeChanged (this : Which) (width height : Z) :
  preserves unwanted no_capture (handleClientSizeChanged this width height).
Proof.
  unfold handleClientSizeChanged, handleClientSizeChanged_own, resetTransformation.
  destruct (mTouchpadHandler this); capture_run.
Qed.

Lemma capture_handleHostSizeChanged (this : Which) (width height : Z) :
  preserves unwanted no_capture (handleHostSizeChanged this width height).
Proof.
  assert (Hown : forall this', preserves unwanted no_capture
                                 (handleHostSizeChanged_own this' width height)).
  { intros this'. unfold handleHostSizeChanged_own, resetTransformation.
    repeat first
      [ apply capture_moveCursorToScreenPoint
      | preserves_step capture_prim; cbv zeta ]. }
  unfold handleHostSizeChanged.
  apply preserves_bind; [ apply Hown | intros _ ].
  destruct (mTouchpadHandler this); [ apply Hown | apply preserves_ret ].
Qed.

Lemma capture_handleCapturedEvent (this : Which) (e : MotionEvent) (o : DetectorOracle)
    (nested : option (View -> MotionEvent -> DetectorOracle -> M bool)) :
  (forall f, nested = Some f -> preserves unwanted no_capture (f v e o)) ->
  preserves unwanted no_capture (handleCapturedEvent this nested v e o).
Proof.
  intros Hnested. unfold handleCapturedEvent. cbv zeta.
  apply preserves_if.
  - destruct nested as [ f | ]; [ | apply preserves_ret ].
    apply preserves_bind; [ apply Hnested; reflexivity | intros ?; apply preserves_ret ].
  - repeat first
      [ apply capture_moveCursorByOffset
      | preserves_step capture_prim; cbv zeta ].
Qed.

End PointerCapture.

Lemma forallb_negb_existsb {A} (p q : A -> bool) (l : list A) :
  (forall a, q a = negb (p a)) -> forallb q l = true -> existsb p l = false.
Proof.
  intros Hq. induction l as [ | x l IH ]; cbn; [ reflexivity | ].
  intros H. apply andb_prop in H. destruct H as [Hx Hl].
  rewrite Hq in Hx. apply negb_true_iff in Hx. rewrite Hx. apply IH, Hl.
Qed.

(** X1.  The view is asked for the pointer capture only when the injector has
    pointer capture switched on and the view does not hold it already.  In
    every other state no path of [handleTouchEvent] or of
    [handleCapturedEvent], neither of the handler itself nor of its touchpad
    handler, issues the request; the two size-change handlers never issue
    it.  None of these four entry points changes the injector's switches or
    the strategy, swipe threshold and edge slop of either handler. *)
Theorem pointer_capture_only_when_wanted {SB : StrategyBehaviour} (this : Which)
    (w : World) (v : View) (e : MotionEvent) (o : DetectorOracle) (width height : Z) :
  let touch := handleTouchEventOf this v e o in
  let captured :=
    handleCapturedEvent this
      (match mTouchpadHandler this with
       | Some pad => Some (handleTouchEventOf pad)
       | None => None
       end) v e o in
  let client := handleClientSizeChanged this width height in
  let host := handleHostSizeChanged this width height in
  (pointerCapture (mInjector w) = false \/ hasPointerCapture v = true ->
   neverCaptures touch w /\ neverCaptures captured w)
  /\ neverCaptures client w /\ neverCaptures host w
  /\ keepsSettings touch w /\ keepsSettings captured w
  /\ keepsSettings client w /\ keepsSettings host w.
Proof.
  cbv zeta.
  set (k0 := fun that => configuration (handler that w)).
  assert (Hstart : mInjector w = mInjector w /\ forall that, configuration (handler that w)
                                                        = k0 that)
    by (split; [ reflexivity | intro; reflexivity ]).
  assert (Hquiet : forall (v' : View) (t : list Effect),
             pointerCapture (mInjector w) && negb (hasPointerCapture v') = false ->
             forallb (fun x => negb (is_pointer_capture x)
                               || (pointerCapture (mInjector w)
                                   && negb (hasPointerCapture v'))) t = true ->
             existsb is_pointer_capture t = false).
  { intros v' t Hun. rewrite Hun. apply forallb_negb_existsb.
    intros x. apply orb_false_r. }
  pose proof (capture_handleTouchEventOf v (mInjector w) k0 this e o w Hstart)
    as [Htouch Htouch_t].
  assert (Hcaptured :
            preserves (fun w' => mInjector w' = mInjector w
                                 /\ forall that, configuration (handler that w') = k0 that)
              (fun x => negb (is_pointer_capture x)
                        || (pointerCapture (mInjector w) && negb (hasPointerCapture v)))
              (handleCapturedEvent this
                 (match mTouchpadHandler this with
                  | Some pad => Some (handleTouchEventOf pad)
                  | None => None
                  end) v e o)).
  { apply (capture_handleCapturedEvent v (mInjector w) k0 this e o). intros f Hf.
    destruct this; cbn [mTouchpadHandler] in Hf; [ | discriminate ].
    injection Hf as <-. exact (capture_handleTouchEventOf v (mInjector w) k0 Touchpad e o). }
  destruct (Hcaptured w Hstart) as [Hcap Hcap_t].
  pose proof (capture_handleClientSizeChanged (mkView true true) (mInjector w) k0 this
                width height w Hstart) as [Hclient Hclient_t].
  pose proof (capture_handleHostSizeChanged (mkView true true) (mInjector w) k0 this
                width height w Hstart) as [Hhost Hhost_t].
  unfold neverCaptures, keepsSettings.
  split; [ | split; [ | split; [ | split; [ | split; [ | split ] ] ] ] ].
  - intros Hw.
    assert (Hun : pointerCapture (mInjector w) && negb (hasPointerCapture v) = false).
    { destruct Hw as [ -> | -> ]; [ reflexivity | apply andb_false_r ]. }
    split; [ exact (Hquiet v _ Hun Htouch_t) | exact (Hquiet v _ Hun Hcap_t) ].
  - apply (Hquiet (mkView true true)); [ apply andb_false_r | exact Hclient_t ].
  - apply (Hquiet (mkView true true)); [ apply andb_false_r | exact Hhost_t ].
  - exact Htouch.
  - exact Hcap.
  - exact Hclient.
  - exact Hhost.
Qed.

Lemma pointer_capture_only_when_wanted_witness :
  pointerCapture (mInjector portrait_phone) = false
  /\ existsb is_pointer_capture
       (trace_of (@handleTouchEventOf consuming_strategy Main (mkView true false)
                    three_finger_move (snd three_finger_drag) portrait_phone)) = false
  /\ configuration (handler Main
                      (world_of (handleHostSizeChanged Main 800 600 portrait_phone)))
     = configuration (handler Main portrait_phone).
Proof.
  destruct (@pointer_capture_only_when_wanted consuming_strategy Main portrait_phone
              (mkView true false) three_finger_move (snd three_finger_drag) 800 600)
    as (Hnever & _ & _ & _ & _ & _ & _ & Hkeep).
  split; [ reflexivity | ].
  split; [ exact (proj1 (Hnever (or_introl eq_refl))) | exact (Hkeep Main) ].
Defined.

Section MousePath.
Context {SB : StrategyBehaviour}.

Lemma answers_HardwareMouseListener_onTouch (this : Which) (v : View) (e : MotionEvent) :
  answers true (HardwareMouseListener_onTouch this v e).
Proof. unfold HardwareMouseListener_onTouch. answers_run. Qed.

Lemma answers_DexListener_onTouch (this : Which) (v : View) (e : MotionEvent)
    (o : DetectorOracle) :
  answers true (DexListener_onTouch this v e o).
Proof. unfold DexListener_onTouch. answers_run. Qed.

Lemma answers_gesturePipeline (this : Which) (v : View) (e : MotionEvent)
    (o : DetectorOracle) :
  answers true (gesturePipeline this v e o).
Proof. unfold gesturePipeline. answers_run. Qed.

(** X2.  [handleTouchEvent] consumes an event exactly when the tool at its
    action index is a mouse or a finger, whichever listener the event is
    routed to and whatever the detectors report; this holds for the touchpad
    handler as well. *)
Theorem touch_event_consumed_iff_mouse_or_finger (this : Which) (w : World) (v : View)
    (e : MotionEvent) (o : DetectorOracle) :
  result (handleTouchEventOf this v e o w)
  = (getToolType e (getActionIndex e) =? TOOL_TYPE_MOUSE)
    || (getToolType e (getActionIndex e) =? TOOL_TYPE_FINGER).
Proof.
  set (consumed := (getToolType e (getActionIndex e) =? TOOL_TYPE_MOUSE)
                   || (getToolType e (getActionIndex e) =? TOOL_TYPE_FINGER)).
  assert (Hbody : forall nested this',
             (forall f, nested = Some f -> forall w', result (f v e o w') = consumed) ->
             forall w', result (handleTouchEventBody nested this' v e o w') = consumed).
  { intros nested this' Hnested w'. unfold handleTouchEventBody.
    rewrite !result_bind. subst consumed.
    destruct (getToolType e (getActionIndex e) =? TOOL_TYPE_MOUSE) eqn:Hmouse.
    - apply answers_HardwareMouseListener_onTouch.
    - destruct (getToolType e (getActionIndex e) =? TOOL_TYPE_FINGER) eqn:Hfinger;
        [ | reflexivity ].
      cbn [orb].
      destruct (isDexEvent e); [ apply answers_DexListener_onTouch | ].
      destruct nested as [ f | ]; [ | apply answers_gesturePipeline ].
      destruct (Z.land (getSource e) SOURCE_TOUCHPAD =? SOURCE_TOUCHPAD);
        [ | apply answers_gesturePipeline ].
      apply (Hnested f eq_refl). }
  destruct this; cbn [handleTouchEventOf].
  - apply Hbody. intros f [= <-] w'. apply Hbody. intros ? [=].
  - apply Hbody. intros ? [=].
Qed.

End MousePath.

Section MouseBypass.
Context {SB : StrategyBehaviour}.
Context (gs : Which -> InputStrategy * float * float * Rect * bool * bool * bool)
        (dex : Which -> DexState).

Let untouched (w : World) : Prop :=
  forall that, gestureState (handler that w) = gs that
               /\ mDexListener (handler that w) = dex that.

Lemma bypass_HardwareMouseListener_onTouch (this : Which) (v : View) (e : MotionEvent) :
  preserves untouched is_mouse_path_effect (HardwareMouseListener_onTouch this v e).
Proof.
  unfold HardwareMouseListener_onTouch, moveCursorToEvent, mapScreenPointToImagePoint,
    setCursorPosition, sendButtonChanges.
  preserves_run
    ltac:(let w := fresh "w" in
          let H := fresh "H" in
          let that := fresh "that" in
          intros w H that; cbv beta; specialize (H that);
          first [ exact H | destruct this, that; exact H ]).
Qed.

End MouseBypass.

(** X3.  An event of a hardware mouse bypasses the gesture machinery: whatever
    its action, [handleTouchEvent] calls no detector, no input strategy and
    no render stub for it, only the view and the injector, and it leaves the
    gesture fields and the Dex listener of both handlers as they were (the
    mouse listener's own button state apart). *)
Theorem mouse_events_bypass_gestures {SB : StrategyBehaviour} (w : World) (v : View)
    (e : MotionEvent) (o : DetectorOracle) :
  getToolType e (getActionIndex e) = TOOL_TYPE_MOUSE ->
  let after := world_of (handleTouchEvent v e o w) in
  forallb is_mouse_path_effect (trace_of (handleTouchEvent v e o w)) = true
  /\ (forall that, gestureState (handler that after) = gestureState (handler that w)
                   /\ mDexListener (handler that after) = mDexListener (handler that w)).
Proof.
  intros Hmouse. cbv zeta.
  unfold handleTouchEvent, handleTouchEventOf, handleTouchEventBody.
  rewrite Hmouse, Z.eqb_refl.
  pose proof (bypass_HardwareMouseListener_onTouch
                (fun that => gestureState (handler that w))
                (fun that => mDexListener (handler that w)) Main v e) as Hhm.
  rewrite !world_bind, !trace_bind, !forallb_app.
  rewrite world_emit, trace_emit, trace_when, world_when, world_emit, trace_emit.
  replace (if negb (isFocused v) && (getAction e =? ACTION_DOWN) then w else w) with w
    by (destruct (_ && _); reflexivity).
  destruct (Hhm w) as [Hi Ht]; [ intros that; split; reflexivity | ].
  rewrite Ht. split; [ | exact Hi ].
  destruct (negb (isFocused v) && (getAction e =? ACTION_DOWN)); reflexivity.
Qed.

Lemma mouse_events_bypass_gestures_witness :
  getToolType mouse_click (getActionIndex mouse_click) = TOOL_TYPE_MOUSE
  /\ forallb is_mouse_path_effect
       (trace_of (@handleTouchEvent consuming_strategy (mkView true false) mouse_click
                    no_callbacks portrait_phone)) = true.
Proof.
  split; [ reflexivity | ].
  exact (proj1 (@mouse_events_bypass_gestures consuming_strategy portrait_phone
                  (mkView true false) mouse_click no_callbacks eq_refl)).
Defined.

Section MouseButtons.
Context {SB : StrategyBehaviour}.

Lemma sendButtonChanges_run (bs : ButtonState) (e : MotionEvent) (w : World) :
  sendButtonChanges bs e w
  = (mkButtonState (getButtonState e) (getButtonState e), w,
     buttonEvents (cursor w) (savedBS bs) (getButtonState e)).
Proof.
  unfold sendButtonChanges, buttonEvents, buttonChanged, buttonMasks,
    isMouseButtonChanged, mouseButtonDown.
  cbn [savedBS currentBS filter map fst snd].
  destruct (negb (Z.land (savedBS bs) BUTTON_PRIMARY =? _)),
           (negb (Z.land (savedBS bs) BUTTON_TERTIARY =? _)),
           (negb (Z.land (savedBS bs) BUTTON_SECONDARY =? _)); reflexivity.
Qed.

Lemma moveCursorToEvent_no_button (e : MotionEvent) (w : World) :
  filter is_mouse_button_event (trace_of (moveCursorToEvent e w)) = [].
Proof.
  unfold moveCursorToEvent, mapScreenPointToImagePoint. run_monad.
  destruct (F32.neqb _ _ || F32.neqb _ _); reflexivity.
Qed.

Lemma filter_buttonEvents (p : PointF) (old new : Z) :
  filter is_mouse_button_event (buttonEvents p old new) = buttonEvents p old new.
Proof.
  unfold buttonEvents.
  induction (filter (buttonChanged old new) buttonMasks) as [ | [mask id] l IH ];
    cbn; [ reflexivity | rewrite IH; reflexivity ].
Qed.

(** X4.  The hardware-mouse listener reports button changes by comparing the
    button state of the event with the one it saved: for a non-scroll event
    it sends, in the order left (1), middle (2), right (3), one mouse event
    for each of the three buttons whose bit differs, pressed when the bit is
    now set, at the cursor position just stored, and it then saves the new
    state.  An event that repeats the saved button state therefore sends no
    button event. *)
Theorem mouse_buttons_are_diffed (this : Which) (w : World) (v : View) (e : MotionEvent) :
  getAction e <> ACTION_SCROLL ->
  let after := world_of (HardwareMouseListener_onTouch this v e w) in
  filter is_mouse_button_event (trace_of (HardwareMouseListener_onTouch this v e w))
  = buttonEvents (cursor after) (savedBS (mHMListener (handler this w))) (getButtonState e)
  /\ mHMListener (handler this after)
     = mkButtonState (getButtonState e) (getButtonState e)
  /\ (savedBS (mHMListener (handler this w)) = getButtonState e ->
      filter is_mouse_button_event (trace_of (HardwareMouseListener_onTouch this v e w))
      = []).
Proof.
  intros Hact. apply Z.eqb_neq in Hact. cbv zeta.
  assert (Hrun : filter is_mouse_button_event
                   (trace_of (HardwareMouseListener_onTouch this v e w))
                 = buttonEvents (cursor (world_of (moveCursorToEvent e w)))
                     (savedBS (mHMListener (handler this w))) (getButtonState e)
                 /\ world_of (HardwareMouseListener_onTouch this v e w)
                    = set_handler this
                        (with_mHMListener
                           (mkButtonState (getButtonState e) (getButtonState e))
                           (handler this (world_of (moveCursorToEvent e w))))
                        (world_of (moveCursorToEvent e w))).
  { unfold HardwareMouseListener_onTouch.
    step. rewrite world_when, world_emit, trace_when, trace_emit, Hact.
    replace (if pointerCapture (mInjector w) && negb (hasPointerCapture v)
                && (getAction e =? ACTION_UP) then w else w) with w
      by (destruct (_ && _ && _); reflexivity).
    step. rewrite !sendButtonChanges_run. cbn [result world_of trace_of fst snd].
    step. rewrite !filter_app, moveCursorToEvent_no_button, filter_buttonEvents.
    rewrite moveCursorToEvent_world. cbv zeta. step.
    split; [ | reflexivity ].
    destruct (pointerCapture (mInjector w) && negb (hasPointerCapture v)
              && (getAction e =? ACTION_UP)); reflexivity. }
  destruct Hrun as [Ht Hw]. rewrite Ht, Hw.
  split; [ | split ].
  - unfold cursor. step. reflexivity.
  - step. reflexivity.
  - intros Hsame. rewrite Hsame. unfold buttonEvents.
    replace (filter (buttonChanged (getButtonState e) (getButtonState e)) buttonMasks)
      with (@nil (Z * Z)); [ reflexivity | ].
    unfold buttonMasks, buttonChanged. cbn [filter fst]. rewrite !Z.eqb_refl. reflexivity.
Qed.

End MouseButtons.

Section Configuration.
Context {SB : StrategyBehaviour}.

(** Every call other than [setInputMode] leaves the configuration of both
    handlers alone; [setInputMode] replaces the strategy of the main handler
    only. *)
Lemma call_configuration (c : Call) (w : World) :
  let after := world_of (call c w) in
  configuration (touchpadHandler after) = configuration (touchpadHandler w)
  /\ mSwipeThreshold (mainHandler after) = mSwipeThreshold (mainHandler w)
  /\ mEdgeSlopInPx (mainHandler after) = mEdgeSlopInPx (mainHandler w)
  /\ mInputStrategy (mainHandler after)
     = selectedStrategy (mInputStrategy (mainHandler w)) [c].
Proof.
  cbv zeta.
  assert (Hkeep : forall (m : M unit) (v : View),
             preserves (fun w' => mInjector w' = mInjector w
                                  /\ forall that, configuration (handler that w')
                                                  = configuration (handler that w))
               (fun e => negb (is_pointer_capture e)
                         || (pointerCapture (mInjector w) && negb (hasPointerCapture v)))
               m ->
             forall that, configuration (handler that (world_of (m w)))
                          = configuration (handler that w)).
  { intros m v Hm. apply (Hm w). split; [ reflexivity | intros; reflexivity ]. }
  assert (Hconf : (forall that, configuration (handler that (world_of (call c w)))
                                = configuration (handler that w)) ->
                  selectedStrategy (mInputStrategy (mainHandler w)) [c]
                  = mInputStrategy (mainHandler w) ->
                  configuration (touchpadHandler (world_of (call c w)))
                  = configuration (touchpadHandler w)
                  /\ mSwipeThreshold (mainHandler (world_of (call c w)))
                     = mSwipeThreshold (mainHandler w)
                  /\ mEdgeSlopInPx (mainHandler (world_of (call c w)))
                     = mEdgeSlopInPx (mainHandler w)
                  /\ mInputStrategy (mainHandler (world_of (call c w)))
                     = selectedStrategy (mInputStrategy (mainHandler w)) [c]).
  { intros H Hs. rewrite Hs. pose proof (H Main) as Hm. pose proof (H Touchpad) as Ht.
    unfold configuration in Hm. cbn [handler] in Hm, Ht.
    injection Hm as H1 H2 H3. auto. }
  destruct c as [ v e o | v e o | width height | width height | mode | b | b ];
    cbn [call].
  - apply Hconf; [ | reflexivity ]. apply (Hkeep _ v).
    apply preserves_bind; [ | intros ?; apply preserves_ret ].
    apply (capture_handleTouchEventOf v (mInjector w)
             (fun that => configuration (handler that w)) Main e o).
  - apply Hconf; [ | reflexivity ]. apply (Hkeep _ v).
    apply preserves_bind; [ | intros ?; apply preserves_ret ].
    apply capture_handleCapturedEvent. intros f [= <-].
    apply (capture_handleTouchEventOf v (mInjector w)
             (fun that => configuration (handler that w)) Touchpad e o).
  - apply Hconf; [ | reflexivity ]. apply (Hkeep _ (mkView true true)).
    apply capture_handleClientSizeChanged.
  - apply Hconf; [ | reflexivity ]. apply (Hkeep _ (mkView true true)).
    apply capture_handleHostSizeChanged.
  - repeat split.
  - repeat split.
  - repeat split.
Qed.

(** X5.  From construction on, whatever the application calls: the touchpad
    handler stays in trackpad (indirect) mode, so [setInputMode] never
    reaches it; both handlers keep the swipe threshold of 40 times the
    display density and the edge slop they were built with; and the main
    handler's strategy is the one of the last [setInputMode], trackpad before
    the first. *)
Theorem configuration_is_stable (density : float) (edgeSlop : Z) (cs : list Call) :
  let w := world_of (forEach call cs (new_TouchInputHandler density edgeSlop)) in
  configuration (touchpadHandler w)
  = (TrackpadInputStrategy, F32.mul (F32.of_int 40) density, edgeSlop)
  /\ configuration (mainHandler w)
     = (selectedStrategy TrackpadInputStrategy cs,
        F32.mul (F32.of_int 40) density, edgeSlop).
Proof.
  cbv zeta.
  assert (Hgen : forall cs' w0 s,
             configuration (touchpadHandler w0)
             = (TrackpadInputStrategy, F32.mul (F32.of_int 40) density, edgeSlop) ->
             configuration (mainHandler w0)
             = (s, F32.mul (F32.of_int 40) density, edgeSlop) ->
             configuration (touchpadHandler (world_of (forEach call cs' w0)))
             = (TrackpadInputStrategy, F32.mul (F32.of_int 40) density, edgeSlop)
             /\ configuration (mainHandler (world_of (forEach call cs' w0)))
                = (selectedStrategy s cs', F32.mul (F32.of_int 40) density, edgeSlop)).
  { induction cs' as [ | c cs' IH ]; intros w0 s Ht Hm; cbn [forEach].
    - split; assumption.
    - rewrite world_bind.
      destruct (call_configuration c w0) as (H1 & H2 & H3 & H4). cbv zeta in *.
      unfold configuration in Hm. injection Hm as Hs Hthr Hslop.
      replace (selectedStrategy s (c :: cs'))
        with (selectedStrategy (selectedStrategy s [c]) cs')
        by (destruct c; reflexivity).
      apply IH.
      + rewrite H1. exact Ht.
      + unfold configuration. rewrite H2, H3, H4, Hs, Hthr, Hslop. reflexivity. }
  apply Hgen; reflexivity.
Qed.

End Configuration.

Section Sessions.
Context {SB : StrategyBehaviour}.

(** X6.  [ACTION_DOWN] opens a new session and [ACTION_POINTER_DOWN] restarts the
    swipe accumulator, after every detector callback of the event has run:
    once the gesture pipeline has handled an [ACTION_DOWN], cursor
    suppression, swipe completion and dragging are all false, whatever the
    callbacks did; once it has handled an [ACTION_POINTER_DOWN], the
    accumulated motion is zero. *)
Theorem pointer_down_resets_session (this : Which) (w : World) (v : View)
    (e : MotionEvent) (o : DetectorOracle) :
  let h := handler this (world_of (gesturePipeline this v e o w)) in
  (getActionMasked e = ACTION_DOWN ->
   mSuppressCursorMovement h = false /\ mSwipeCompleted h = false /\ mIsDragging h = false)
  /\ (getActionMasked e = ACTION_POINTER_DOWN -> mTotalMotionY h = F32.of_int 0).
Proof.
  cbv zeta. rewrite gesturePipeline_unfold. unfold afterScroller.
  split; intros Hact; rewrite Hact; cbn [Z.eqb ACTION_DOWN ACTION_POINTER_DOWN Pos.eqb];
    step; repeat split.
Qed.

(** In a session, the scroll on which the flag goes up decides everything:
    the swipes of the whole session are those fired by that one callback. *)
Lemma session_fires_at_crossing (this : Which) (w : World)
    (pre post : list SessionEvent) (view : View) (event : MotionEvent)
    (o : DetectorOracle) (e1 e2 : MotionEvent) (dx dy : float) (sw : bool) :
  let before := world_of (runSession this pre w) in
  let session := pre ++ (view, event, o) :: post in
  forallb continues_session session = true ->
  scrollerCallbacks o = [OnScroll e1 e2 dx dy sw] ->
  completed this before = false ->
  completed this (world_of (onScroll this e1 e2 dx dy sw before)) = true ->
  swipeDowns (trace_of (runSession this session w))
  = swipeDowns (trace_of (onScroll this e1 e2 dx dy sw before))
  /\ swipeUps (trace_of (runSession this session w))
     = swipeUps (trace_of (onScroll this e1 e2 dx dy sw before))
  /\ completed this (world_of (runSession this session w)) = true.
Proof.
  cbv zeta. intros Hsession Hcb Hflag Hc.
  rewrite forallb_app in Hsession. apply andb_prop in Hsession.
  destruct Hsession as [Hpre Hrest]. cbn [forallb] in Hrest.
  apply andb_prop in Hrest. destruct Hrest as [Hev Hpost].
  unfold continues_session in Hev. cbn [fst snd] in Hev.
  apply negb_true_iff, Z.eqb_neq in Hev.
  set (before := world_of (runSession this pre w)) in *.
  destruct (at_most_once_not_completed this (runSession this pre) w
              (at_most_once_runSession this pre Hpre) Hflag) as [Hs0 _].
  apply swipes_zero in Hs0. destruct Hs0 as [Hd0 Hu0].
  set (w1 := world_of (onScroll this e1 e2 dx dy sw before)) in *.
  destruct (at_most_once_completed this (afterScroller this view event o) w1
              (at_most_once_afterScroller this view event o Hev) Hc) as [Hs1 Hc1].
  apply swipes_zero in Hs1. destruct Hs1 as [Hd1 Hu1].
  set (w2 := world_of (afterScroller this view event o w1)) in *.
  destruct (at_most_once_completed this (runSession this post) w2
              (at_most_once_runSession this post Hpost) Hc1) as [Hs2 Hc2].
  apply swipes_zero in Hs2. destruct Hs2 as [Hd2 Hu2].
  assert (Htrace : trace_of (runSession this (pre ++ (view, event, o) :: post) w)
                   = trace_of (runSession this pre w)
                     ++ ([StrategyOnMotionEvent (mInputStrategy (handler this before)) event]
                         ++ [DetectorOnTouchEvent Scroller]
                         ++ trace_of (onScroll this e1 e2 dx dy sw before)
                         ++ trace_of (afterScroller this view event o w1))
                     ++ trace_of (runSession this post w2)).
  { unfold runSession. rewrite forEach_app_trace. cbn [forEach fst snd].
    rewrite gesturePipeline_unfold, Hcb. cbn [forEach gestureListener]. step.
    reflexivity. }
  assert (Hworld : world_of (runSession this (pre ++ (view, event, o) :: post) w)
                   = world_of (runSession this post w2)).
  { unfold runSession. rewrite forEach_app_world. cbn [forEach fst snd].
    rewrite gesturePipeline_unfold, Hcb. cbn [forEach gestureListener]. step.
    reflexivity. }
  rewrite Htrace, Hworld, !swipeDowns_app, !swipeUps_app.
  rewrite Hd0, Hu0, Hd1, Hu1, Hd2, Hu2.
  repeat split; [ cbn; lia | cbn; lia | exact Hc2 ].
Qed.

Lemma onScroll_crossing_up (this : Which) (e1 e2 : MotionEvent) (dx dy : float) (sw : bool)
    (w : World) :
  startsInsidePanBounds this w e1 = true ->
  3 <= getPointerCount e2 ->
  completed this w = false ->
  F32.gtb (F32.sub (mTotalMotionY (handler this w)) dy)
          (mSwipeThreshold (handler this w)) = false ->
  F32.ltb (F32.sub (mTotalMotionY (handler this w)) dy)
          (F32.neg (mSwipeThreshold (handler this w))) = true ->
  trace_of (onScroll this e1 e2 dx dy sw w) = [StubSwipeUp]
  /\ completed this (world_of (onScroll this e1 e2 dx dy sw w)) = true.
Proof.
  intros Hin Hpc Hflag Hgt Hlt.
  unfold startsInsidePanBounds in Hin. apply negb_true_iff in Hin.
  unfold completed in Hflag.
  unfold onScroll. cbv zeta.
  rewrite trace_bind, world_bind. autorewrite with run. cbv beta.
  rewrite Hin, Hflag.
  replace (3 <=? getPointerCount e2) with true by (symmetry; apply Z.leb_le; exact Hpc).
  cbn [andb negb].
  rewrite trace_bind, world_bind. autorewrite with run. cbv beta.
  set (w1 := set_handler this _ w).
  destruct (onSwipe_cases this w1)
    as [ (Hno & _) | [ (_ & _ & Ht & Hc) | (_ & Hno & _) ] ].
  - subst w1. rewrite handler_set_handler in Hno. cbn in Hno.
    rewrite Hgt in Hno. discriminate.
  - rewrite Ht, Hc. split; reflexivity.
  - subst w1. rewrite handler_set_handler in Hno. cbn in Hno.
    rewrite Hlt in Hno. discriminate.
Qed.

(** X7.  The mirror image of the swipe-down: when, in a session, a scroll with
    three or more pointers that starts inside the pan boundary brings the
    accumulated motion below minus the threshold while no swipe is completed
    (and not above the threshold, which would win), the session fires
    exactly one swipe-up and no swipe-down, and the flag stays up to its
    end. *)
Theorem swipe_up_fires_once (this : Which) (w : World)
    (pre post : list SessionEvent) (view : View) (event : MotionEvent)
    (o : DetectorOracle) (e1 e2 : MotionEvent) (dx dy : float) (sw : bool) :
  let before := world_of (runSession this pre w) in
  let session := pre ++ (view, event, o) :: post in
  let total := F32.sub (mTotalMotionY (handler this before)) dy in
  forallb continues_session session = true ->
  scrollerCallbacks o = [OnScroll e1 e2 dx dy sw] ->
  3 <= getPointerCount e2 ->
  startsInsidePanBounds this before e1 = true ->
  mSwipeCompleted (handler this before) = false ->
  F32.gtb total (mSwipeThreshold (handler this before)) = false ->
  F32.ltb total (F32.neg (mSwipeThreshold (handler this before))) = true ->
  swipeUps (trace_of (runSession this session w)) = 1%nat
  /\ swipeDowns (trace_of (runSession this session w)) = 0%nat
  /\ mSwipeCompleted (handler this (world_of (runSession this session w))) = true.
Proof.
  cbv zeta. intros Hsession Hcb Hpc Hin Hflag Hgt Hlt.
  destruct (onScroll_crossing_up this e1 e2 dx dy sw _ Hin Hpc Hflag Hgt Hlt) as [Ht Hc].
  destruct (session_fires_at_crossing this w pre post view event o e1 e2 dx dy sw
              Hsession Hcb Hflag Hc) as (Hd & Hu & Hend).
  rewrite Hd, Hu, Ht. repeat split. exact Hend.
Qed.

(** X8.  A session never fires two swipes: whatever events and detector
    callbacks follow each other without a new [ACTION_DOWN], at most one
    swipe action is fired in all, none at all if a swipe was already
    completed when the events began, and a swipe that is fired leaves
    [mSwipeCompleted] set. *)
Theorem session_fires_at_most_one_swipe (this : Which) (w : World)
    (session : list SessionEvent) :
  forallb continues_session session = true ->
  let t := trace_of (runSession this session w) in
  (swipeDowns t + swipeUps t <= 1)%nat
  /\ (mSwipeCompleted (handler this w) = true -> (swipeDowns t + swipeUps t = 0)%nat)
  /\ ((swipeDowns t + swipeUps t = 1)%nat ->
      mSwipeCompleted (handler this (world_of (runSession this session w))) = true).
Proof.
  intros Hsession. cbv zeta.
  pose proof (at_most_once_runSession this session Hsession w) as H.
  unfold swipes, completed in H.
  destruct H as [ [H1 H2] | (H0 & H1 & H2) ].
  - rewrite H1. split; [ lia | ]. split; [ reflexivity | discriminate ].
  - rewrite H1. split; [ lia | ]. split; [ | intros _; exact H2 ].
    intros Hc. rewrite Hc in H0. discriminate.
Qed.

End Sessions.

Section Suppression.
Context {SB : StrategyBehaviour} (this : Which).

Let suppressed (w : World) : Prop := mSuppressCursorMovement (handler this w) = true.
Let any (e : Effect) : bool := true.

Ltac suppressed_prim :=
  let w := fresh "w" in
  let H := fresh "H" in
  intros w H; cbv beta; unfold suppressed in *;
  rewrite ?handler_set_renderData, ?handler_set_handler;
  first [ exact H | reflexivity ].

Ltac suppressed_run := preserves_run suppressed_prim.

Lemma suppressed_moveCursorByOffset (dx dy : float) :
  preserves suppressed any (moveCursorByOffset this dx dy).
Proof. unfold moveCursorByOffset, moveCursor, setCursorPosition. suppressed_run. Qed.

Lemma suppressed_moveCursorToScreenPoint (x y : float) :
  preserves suppressed any (moveCursorToScreenPoint this x y).
Proof.
  unfold moveCursorToScreenPoint, mapScreenPointToImagePoint, moveCursor, setCursorPosition.
  suppressed_run.
Qed.

Lemma suppressed_gestureListener (cb : GestureCallback) :
  preserves suppressed any (gestureListener this cb).
Proof.
  destruct cb; cbn [gestureListener]; try apply preserves_ret.
  - apply preserves_bind; [ | intros ?; apply preserves_ret ].
    unfold onScroll, onSwipe.
    repeat first
      [ apply suppressed_moveCursorByOffset
      | apply suppressed_moveCursorToScreenPoint
      | preserves_step suppressed_prim; cbv zeta ].
  - apply preserves_bind; [ | intros ?; apply preserves_ret ].
    unfold onTap, screenPointLiesOutsideImageBoundary, mapScreenPointToImagePoint.
    cbv zeta.
    repeat first
      [ apply suppressed_moveCursorToScreenPoint
      | preserves_step suppressed_prim; cbv zeta ].
  - unfold onLongPress, screenPointLiesOutsideImageBoundary, mapScreenPointToImagePoint.
    cbv zeta.
    repeat first
      [ apply suppressed_moveCursorToScreenPoint
      | preserves_step suppressed_prim; cbv zeta ].
Qed.

Lemma suppressed_gesturePipeline (v : View) (e : MotionEvent) (o : DetectorOracle) :
  getActionMasked e <> ACTION_DOWN ->
  preserves suppressed any (gesturePipeline this v e o).
Proof.
  intros Hdown. apply Z.eqb_neq in Hdown.
  unfold gesturePipeline, TouchpadListener_onTouch. rewrite Hdown.
  repeat first
    [ apply suppressed_moveCursorByOffset
    | apply preserves_forEach; intros ?; apply suppressed_gestureListener
    | preserves_step suppressed_prim; cbv zeta ].
Qed.

Lemma suppressed_runSession (session : list SessionEvent) :
  forallb continues_session session = true ->
  preserves suppressed any (runSession this session).
Proof.
  intros Hsession. unfold runSession.
  induction session as [ | ev rest IH ]; cbn [forEach]; [ apply preserves_ret | ].
  cbn [forallb] in Hsession. apply andb_prop in Hsession. destruct Hsession as [Hev Hrest].
  unfold continues_session in Hev. apply negb_true_iff, Z.eqb_neq in Hev.
  apply preserves_bind; [ | intros _; apply IH, Hrest ].
  apply preserves_bind; [ apply suppressed_gesturePipeline, Hev | intros ? ].
  apply preserves_ret.
Qed.

(** X9.  Cursor suppression lasts for the rest of the session and silences
    one-finger pans: once [mSuppressCursorMovement] is set, no event or
    callback short of a new [ACTION_DOWN] clears it, and while it is set a
    scroll callback with one pointer answers false, calls nobody and leaves
    the cursor where it is. *)
Theorem suppression_lasts_for_the_session (w : World) :
  mSuppressCursorMovement (handler this w) = true ->
  (forall session,
      forallb continues_session session = true ->
      mSuppressCursorMovement (handler this (world_of (runSession this session w))) = true)
  /\ (forall e1 e2 dx dy sw,
      getPointerCount e2 = 1 ->
      result (onScroll this e1 e2 dx dy sw w) = false
      /\ trace_of (onScroll this e1 e2 dx dy sw w) = []
      /\ mRenderData (world_of (onScroll this e1 e2 dx dy sw w)) = mRenderData w).
Proof.
  intros Hsup. split.
  - intros session Hsession.
    apply (suppressed_runSession session Hsession w Hsup).
  - intros e1 e2 dx dy sw Hpc. unfold onScroll. cbv zeta. rewrite Hpc.
    step. rewrite Hsup. cbn [Z.leb Z.compare Z.eqb Pos.compare Pos.compare_cont
                              Pos.eqb andb orb negb].
    destruct (negb (Rect_contains _ _ _) && hasTouchpadHandler this);
      step; repeat split.
Qed.

End Suppression.

Lemma wrap32_small (z : Z) : -2147483648 <= z < 2147483648 -> wrap32 z = z.
Proof. intros Hz. unfold wrap32. rewrite Z.mod_small; lia. Qed.

Section Scrolling.
Context {SB : StrategyBehaviour}.

Lemma handleHostSizeChanged_own_panBounds (this that : Which) (width height : Z)
    (w : World) :
  mPanGestureBounds (handler that (world_of (handleHostSizeChanged_own this width height w)))
  = if match this, that with Main, Main | Touchpad, Touchpad => true | _, _ => false end
    then mkRect (mEdgeSlopInPx (handler this w)) (mEdgeSlopInPx (handler this w))
           (wrap32 (width - mEdgeSlopInPx (handler this w)))
           (wrap32 (height - mEdgeSlopInPx (handler this w)))
    else mPanGestureBounds (handler that w).
Proof.
  unfold handleHostSizeChanged_own. step.
  rewrite resetTransformation_world, moveCursorToScreenPoint_world. cbv zeta. step.
  destruct this, that; reflexivity.
Qed.

(** X10.  A gesture that starts at the edge is turned away.  After a host size
    change to [width] x [height], the main handler accepts a scroll exactly
    when its first event lies at least the edge slop away from each side of
    that rectangle; for any other origin [onScroll] answers false, calls
    nobody and only sets the cursor suppression.  The touchpad handler,
    which has no touchpad handler of its own, never turns a scroll away. *)
Theorem edge_scrolls_are_turned_away (w : World) (width height : Z) (e1 : MotionEvent) :
  let slop := mEdgeSlopInPx (mainHandler w) in
  let sized := world_of (handleHostSizeChanged Main width height w) in
  let x := F32.to_int (getX e1) in
  let y := F32.to_int (getY e1) in
  -2147483648 <= width - slop < 2147483648 ->
  -2147483648 <= height - slop < 2147483648 ->
  startsInsidePanBounds Main sized e1
  = (slop <=? x) && (x <? width - slop) && (slop <=? y) && (y <? height - slop)
  /\ (forall w' e2 dx dy sw,
      startsInsidePanBounds Main w' e1 = false ->
      onScroll Main e1 e2 dx dy sw w'
      = (false,
         set_handler Main (with_mSuppressCursorMovement true (mainHandler w')) w', []))
  /\ (forall w', startsInsidePanBounds Touchpad w' e1 = true).
Proof.
  cbv zeta. intros Hw Hh. split; [ | split ].
  - unfold startsInsidePanBounds, handleHostSizeChanged. cbn [hasTouchpadHandler mTouchpadHandler].
    rewrite world_bind, andb_true_r, negb_involutive.
    rewrite (handleHostSizeChanged_own_panBounds Touchpad Main).
    rewrite (handleHostSizeChanged_own_panBounds Main Main). cbn [handler].
    rewrite !wrap32_small by assumption.
    unfold Rect_contains. cbn [left top right bottom].
    set (slop := mEdgeSlopInPx (mainHandler w)).
    destruct (slop <=? F32.to_int (getX e1)) eqn:H1;
      destruct (F32.to_int (getX e1) <? width - slop) eqn:H2;
      destruct (slop <=? F32.to_int (getY e1)) eqn:H3;
      destruct (F32.to_int (getY e1) <? height - slop) eqn:H4;
      rewrite ?andb_false_r, ?andb_true_r; try reflexivity.
    apply Z.leb_le in H1, H3. apply Z.ltb_lt in H2, H4.
    replace (slop <? width - slop) with true by (symmetry; apply Z.ltb_lt; lia).
    replace (slop <? height - slop) with true by (symmetry; apply Z.ltb_lt; lia).
    reflexivity.
  - intros w' e2 dx dy sw Hout. unfold startsInsidePanBounds in Hout.
    apply negb_false_iff in Hout.
    unfold onScroll. cbv zeta. unfold bind at 1. cbn [this_handler bind get ret].
    rewrite Hout. reflexivity.
  - intros w'. unfold startsInsidePanBounds. cbn [hasTouchpadHandler mTouchpadHandler].
    rewrite andb_false_r. reflexivity.
Qed.

(** X11.  What a one-finger pan does, when it starts inside the pan boundary and
    the cursor is not suppressed.  In the indirect (trackpad) mode it moves
    the cursor by the scroll distance mapped into image space, as
    [moveCursorByOffset] does.  In a direct mode it calls nobody and changes
    nothing unless a long press has started a drag, and then it warps the
    cursor to the image point under the finger, which [setCursorPosition]
    stores within the image. *)
Theorem one_finger_pan (this : Which) (w : World) (e1 e2 : MotionEvent) (dx dy : float)
    (sw : bool) :
  let h := handler this w in
  let delta := imagePointOf w dx dy in
  startsInsidePanBounds this w e1 = true ->
  getPointerCount e2 = 1 ->
  mSuppressCursorMovement h = false ->
  result (onScroll this e1 e2 dx dy sw w) = true
  /\ (isIndirectInputMode (mInputStrategy h) = true ->
      world_of (onScroll this e1 e2 dx dy sw w)
      = world_of (moveCursorByOffset this (fst delta) (snd delta) w)
      /\ trace_of (onScroll this e1 e2 dx dy sw w)
         = trace_of (moveCursorByOffset this (fst delta) (snd delta) w))
  /\ (isIndirectInputMode (mInputStrategy h) = false -> mIsDragging h = false ->
      onScroll this e1 e2 dx dy sw w = (true, w, []))
  /\ (isIndirectInputMode (mInputStrategy h) = false -> mIsDragging h = true ->
      cursor (world_of (onScroll this e1 e2 dx dy sw w))
      = storedPoint (mRenderData w) (fst (imagePointOf w (getX e2) (getY e2)))
                    (snd (imagePointOf w (getX e2) (getY e2)))).
Proof.
  cbv zeta. intros Hin Hpc Hsup.
  unfold startsInsidePanBounds in Hin. apply negb_true_iff in Hin.
  assert (Hrun : onScroll this e1 e2 dx dy sw w
                 = bind (when (isIndirectInputMode (mInputStrategy (handler this w)))
                           (moveCursorByOffset this (fst (imagePointOf w dx dy))
                              (snd (imagePointOf w dx dy))))
                     (fun _ =>
                        bind (when (negb (isIndirectInputMode
                                            (mInputStrategy (handler this w)))
                                    && mIsDragging (handler this w))
                                (moveCursorToScreenPoint this (getX e2) (getY e2)))
                          (fun _ => ret true)) w).
  { unfold onScroll. cbv zeta. unfold bind at 1. cbn [this_handler bind get ret].
    rewrite Hin, Hpc, Hsup.
    cbn [Z.leb Z.compare Z.eqb Pos.compare Pos.compare_cont Pos.eqb andb orb negb].
    unfold bind at 1. cbn [renderData bind get ret].
    unfold imagePointOf, Matrix_mapVectors.
    destruct (bind _ _ w) as [[b w2] t2]. reflexivity. }
  rewrite Hrun. split; [ | split; [ | split ] ].
  - step. reflexivity.
  - intros Hind. rewrite Hind. cbn [negb andb when]. step. split; reflexivity.
  - intros Hind Hdrag. rewrite Hind, Hdrag. reflexivity.
  - intros Hind Hdrag. rewrite Hind, Hdrag. cbn [negb andb when]. step.
    rewrite moveCursorToScreenPoint_world. reflexivity.
Qed.

End Scrolling.

Module MoreF32Facts.
Import F32 F32Facts.

(** Rounding does not look at the sign. *)
Lemma neg_binary_round_aux (s : bool) (mx ex : Z) (lx : location) :
  neg (binary_round_aux prec emax s mx ex lx)
  = binary_round_aux prec emax (negb s) mx ex lx.
Proof.
  unfold binary_round_aux.
  destruct (shr_fexp prec emax mx ex lx) as [mrs' e'].
  destruct (shr_fexp prec emax _ e' loc_Exact) as [mrs'' e''].
  destruct (shr_m mrs'') as [ | m | m ]; [ reflexivity | | reflexivity ].
  destruct (Z.leb _ _); reflexivity.
Qed.

Lemma mul_neg_l (a b : float) : mul (neg a) b = neg (mul a b).
Proof.
  unfold mul, neg.
  destruct a as [ sa | sa | | sa ma ea ], b as [ sb | sb | | sb mb eb ];
    cbn [SFmul SFopp]; try reflexivity;
    try (destruct sa, sb; reflexivity).
  fold (neg (binary_round_aux prec emax (xorb sa sb) (Z.pos (ma * mb)) (ea + eb) loc_Exact)).
  rewrite neg_binary_round_aux. destruct sa, sb; reflexivity.
Qed.

Lemma neg_involutive (a : float) : neg (neg a) = a.
Proof. destruct a as [ s | s | | s m e ]; cbn; rewrite ?negb_involutive; reflexivity. Qed.

(** The two sign changes of a relative move cancel exactly. *)
Lemma neg_mul_neg (a b : float) : neg (mul (neg a) b) = mul a b.
Proof. rewrite mul_neg_l. apply neg_involutive. Qed.

End MoreF32Facts.

Import MoreF32Facts.

Section CursorMoves.
Context {SB : StrategyBehaviour}.

Lemma moveCursorByOffset_cursor (this : Which) (dx dy : float) (w : World) :
  cursor (world_of (moveCursorByOffset this dx dy w))
  = storedPoint (mRenderData w)
      (clampTo (screenWidth (mRenderData w)) (F32.add (px (cursor w)) (F32.neg dx)))
      (clampTo (screenHeight (mRenderData w)) (F32.add (py (cursor w)) (F32.neg dy))).
Proof. rewrite moveCursorByOffset_world. reflexivity. Qed.

(** X12.  Relative pointer motion moves the cursor by twice the motion, in the
    same direction, and clamps it to the view before [setCursorPosition]
    stores it within the image: the two negations in the callers and in
    [moveCursorByOffset] cancel without rounding.  This is
    what a move event of a captured pointer does with its position (unless
    both coordinates are zero, which is ignored), and what the touchpad
    listener does with the relative axes of a one-pointer move from a
    touchpad source. *)
Theorem relative_motion_is_doubled (this : Which) (w : World) (v : View) (e : MotionEvent)
    (o : DetectorOracle)
    (nested : option (View -> MotionEvent -> DetectorOracle -> M bool)) :
  let sw := screenWidth (mRenderData w) in
  let sh := screenHeight (mRenderData w) in
  (Z.land (getSource e) SOURCE_TOUCHPAD <> SOURCE_TOUCHPAD ->
   getAction e = ACTION_MOVE ->
   (F32.eqb (getX e) (F32.of_int 0) && F32.eqb (getY e) (F32.of_int 0) = false ->
    cursor (world_of (handleCapturedEvent this nested v e o w))
    = storedPoint (mRenderData w)
        (clampTo sw (F32.add (px (cursor w)) (F32.mul (getX e) (F32.of_int 2))))
        (clampTo sh (F32.add (py (cursor w)) (F32.mul (getY e) (F32.of_int 2)))))
   /\ (F32.eqb (getX e) (F32.of_int 0) && F32.eqb (getY e) (F32.of_int 0) = true ->
       handleCapturedEvent this nested v e o w = (true, w, [])))
  /\ (Z.land (getSource e) SOURCE_TOUCHPAD = SOURCE_TOUCHPAD ->
      getActionMasked e = ACTION_MOVE -> getPointerCount e = 1 ->
      cursor (world_of (TouchpadListener_onTouch this v e w))
      = storedPoint (mRenderData w)
          (clampTo sw (F32.add (px (cursor w)) (F32.mul (F32.of_int 2) (AXIS_RELATIVE_X e))))
          (clampTo sh (F32.add (py (cursor w)) (F32.mul (F32.of_int 2) (AXIS_RELATIVE_Y e))))).
Proof.
  cbv zeta. split.
  - intros Hsrc Hact. apply Z.eqb_neq in Hsrc.
    unfold handleCapturedEvent. cbv zeta. rewrite Hsrc, Hact. cbn [Z.eqb ACTION_MOVE Pos.eqb].
    split; intros Hzero; rewrite Hzero; [ | reflexivity ].
    step. rewrite moveCursorByOffset_cursor, !neg_mul_neg. reflexivity.
  - intros Hsrc Hact Hpc.
    unfold TouchpadListener_onTouch. step.
    rewrite Hsrc, Hact, Hpc, !Z.eqb_refl. cbn [andb]. rewrite !world_when, world_emit.
    replace (if pointerCapture (mInjector w) && negb (hasPointerCapture v)
                && (getAction e =? ACTION_UP) then w else w) with w
      by (destruct (_ && _ && _); reflexivity).
    rewrite moveCursorByOffset_cursor.
    change (F32.of_int (-2)) with (F32.neg (F32.of_int 2)).
    rewrite !neg_mul_neg. reflexivity.
Qed.

End CursorMoves.

Section TwoFingers.
Context {SB : StrategyBehaviour}.

(** X14.  What a two-finger scroll does, when it starts inside the pan boundary.
    If the swipe detector takes the gesture for a swipe, the scroll distance
    goes to the input strategy once and the cursor is suppressed for the rest
    of the session; in the indirect mode nothing else happens, in a direct
    mode the cursor is first warped to the image point of the first event
    (stored within the image).  If the detector does not (a pinch), the
    callback answers false and does nothing at all. *)
Theorem two_finger_scroll (this : Which) (w : World) (e1 e2 : MotionEvent) (dx dy : float)
    (sw : bool) :
  let h := handler this w in
  let s := mInputStrategy h in
  startsInsidePanBounds this w e1 = true ->
  getPointerCount e2 = 2 ->
  (sw = false -> onScroll this e1 e2 dx dy sw w = (false, w, []))
  /\ (sw = true -> isIndirectInputMode s = true ->
      onScroll this e1 e2 dx dy sw w
      = (true, set_handler this (with_mSuppressCursorMovement true h) w,
         [StrategyOnScroll s dx dy]))
  /\ (sw = true -> isIndirectInputMode s = false ->
      result (onScroll this e1 e2 dx dy sw w) = true
      /\ trace_of (onScroll this e1 e2 dx dy sw w)
         = trace_of (moveCursorToScreenPoint this (getX e1) (getY e1) w)
           ++ [StrategyOnScroll s dx dy]
      /\ cursor (world_of (onScroll this e1 e2 dx dy sw w))
         = storedPoint (mRenderData w) (fst (imagePointOf w (getX e1) (getY e1)))
                       (snd (imagePointOf w (getX e1) (getY e1)))
      /\ mSuppressCursorMovement (handler this (world_of (onScroll this e1 e2 dx dy sw w)))
         = true).
Proof.
  cbv zeta. intros Hin Hpc.
  unfold startsInsidePanBounds in Hin. apply negb_true_iff in Hin.
  split; [ | split ].
  - intros ->. unfold onScroll. cbv zeta. unfold bind at 1. cbn [this_handler bind get ret].
    rewrite Hin, Hpc. reflexivity.
  - intros -> Hind. unfold onScroll. cbv zeta. unfold bind at 1.
    cbn [this_handler bind get ret]. rewrite Hin, Hpc, Hind. reflexivity.
  - intros -> Hind.
    assert (Hrun : onScroll this e1 e2 dx dy true w
                   = bind (moveCursorToScreenPoint this (getX e1) (getY e1))
                       (fun _ =>
                          bind (emit (StrategyOnScroll (mInputStrategy (handler this w))
                                        dx dy))
                            (fun _ =>
                               bind (update_this this (with_mSuppressCursorMovement true))
                                 (fun _ => ret true))) w).
    { unfold onScroll. cbv zeta. unfold bind at 1. cbn [this_handler bind get ret].
      rewrite Hin, Hpc, Hind.
      cbn [Z.leb Z.compare Z.eqb Pos.compare Pos.compare_cont Pos.eqb andb negb when].
      destruct (bind _ _ w) as [[b w2] t2]. reflexivity. }
    rewrite Hrun. repeat split.
    + step. reflexivity.
    + step. reflexivity.
    + unfold cursor. step. rewrite moveCursorToScreenPoint_world. reflexivity.
    + step. reflexivity.
Qed.

End TwoFingers.

(** ** The native interface as a whole *)

Section NativeInterface.

Lemma follows_app (t1 t2 : list Action) : forall open,
  follows open (t1 ++ t2) <-> follows open t1 /\ follows (open_after open t1) t2.
Proof.
  induction t1 as [|a t1 IH]; intro open; cbn [app follows open_after].
  - tauto.
  - destruct a; rewrite IH; tauto.
Qed.

Lemma open_after_app (t1 t2 : list Action) : forall open,
  open_after open (t1 ++ t2) = open_after (open_after open t1) t2.
Proof.
  induction t1 as [|a t1 IH]; intro open; cbn [app open_after]; [reflexivity|].
  destruct a; apply IH.
Qed.

Lemma leaves_app open t1 open1 t2 open2 :
  leaves open t1 open1 -> leaves open1 t2 open2 -> leaves open (t1 ++ t2) open2.
Proof.
  intros [H1 E1] [H2 E2]. split.
  - apply follows_app. rewrite E1. auto.
  - rewrite open_after_app, E1. exact E2.
Qed.

Lemma leaves_parse_error open e : leaves open (parse_error e) open.
Proof. destruct e; split; cbn; auto. Qed.

Lemma leaves_request open c r e :
  open = Some c -> leaves open (XcbRequest c r :: parse_error e) open.
Proof. intros ->. destruct e; split; cbn; auto. Qed.

Lemma leaves_flat_map {A} (f : A -> list Action) open (l : list A) :
  (forall a, leaves open (f a) open) -> leaves open (flat_map f l) open.
Proof.
  intro H. induction l as [|a l IH]; cbn [flat_map].
  - split; reflexivity.
  - eapply leaves_app; [apply H | exact IH].
Qed.

Lemma leaves_handleXEvent g c ev : leaves (Some c) (handleXEvent g c ev) (Some c).
Proof.
  unfold handleXEvent.
  destruct (response_type ev =? 0); [split; cbn; auto|].
  destruct (response_type ev =? _).
  { destruct (clipboard_sync_enabled g); split; cbn; auto. }
  destruct (Z.land _ _ =? _); [|split; cbn; auto].
  cbv zeta.
  destruct (error (property_size ev)), (from_reply (property_size ev) 0 =? 0),
    (error (property_value ev)), (reply (property_value ev));
    split; cbn; auto.
Qed.

Lemma leaves_connect answers fd g :
  conn g = err_ctx g ->
  leaves (conn g) (snd (connect answers fd g)) (conn (fst (connect answers fd g)))
  /\ conn (fst (connect answers fd g)) = err_ctx (fst (connect answers fd g)).
Proof.
  intro Hinv. split; [|reflexivity].
  unfold connect. cbn [fst snd conn has_error]. rewrite <- Hinv.
  set (c := mkConnection fd (connection_error answers)).
  eapply leaves_app with (open1 := conn g).
  { destruct (_ =? 0); split; cbn; auto. }
  eapply leaves_app with (open1 := conn g).
  { destruct (conn g); split; cbn; auto. }
  eapply leaves_app with (open1 := None).
  { destruct (conn g); split; cbn; auto. }
  eapply leaves_app with (open1 := Some c).
  { split; cbn; auto. }
  repeat (eapply leaves_app with (open1 := Some c); [apply leaves_request; reflexivity|]).
  split; cbn; auto.
Qed.

Lemma leaves_native table call g :
  conn g = err_ctx g ->
  leaves (conn g) (snd (native table call g)) (conn (fst (native table call g)))
  /\ conn (fst (native table call g)) = err_ctx (fst (native table call g)).
Proof.
  intro Hinv. destruct call; cbn [native].
  - apply leaves_connect, Hinv.
  - cbn [fst snd]. split; [|exact Hinv].
    unfold handleXEvents. destruct (conn g) as [c|]; [|split; reflexivity].
    apply leaves_flat_map. intro ev. apply leaves_handleXEvent.
  - unfold leaves. cbn. auto.
  - unfold sendWindowChange. destruct (conn g) eqn:E; cbn [fst snd]; rewrite ?E;
      (split; [split; cbn; auto | congruence]).
  - unfold sendMouseEvent. destruct (conn g) eqn:E; cbn [fst snd]; rewrite ?E;
      (split; [split; cbn; auto | congruence]).
  - unfold sendTouchEvent. destruct (conn g) eqn:E; [destruct (0 <=? action)|];
      cbn [fst snd]; rewrite ?E; (split; [split; cbn; auto | congruence]).
  - unfold sendKeyEvent. destruct (conn g) eqn:E; cbn [fst snd]; rewrite ?E;
      (split; [split; cbn; auto | congruence]).
  - unfold sendUnicodeEvent. destruct (conn g) eqn:E; cbn [fst snd]; rewrite ?E;
      (split; [split; cbn; auto | congruence]).
Qed.

Lemma leaves_natives table calls : forall g,
  conn g = err_ctx g ->
  leaves (conn g) (snd (natives table calls g)) (conn (fst (natives table calls g)))
  /\ conn (fst (natives table calls g)) = err_ctx (fst (natives table calls g)).
Proof.
  induction calls as [|call calls IH]; intros g Hinv; cbn [natives].
  - unfold leaves. cbn. auto.
  - destruct (leaves_native table call g Hinv) as [H1 Hinv1].
    destruct (native table call g) as [g1 t1]. cbn [fst snd] in *.
    destruct (IH g1 Hinv1) as [H2 Hinv2].
    destruct (natives table calls g1) as [g2 t2]. cbn [fst snd] in *.
    split; [eapply leaves_app; eauto | exact Hinv2].
Qed.

(** X15.  However the native calls are interleaved, starting from the
    initial values of the static variables, they keep to the discipline of
    libxcb: every request and flush goes to the connection that is open at
    that moment, a connection is disconnected only while it is open (so
    never twice, and nothing is sent on it afterwards), the error context
    always belongs to the open connection, and the connection left open is
    the one in [conn]. *)
Theorem native_calls_keep_to_the_open_connection
    (table : Z -> Z) (calls : list NativeCall) :
  let '(g, t) := natives table calls initial in
  follows None t /\ open_after None t = conn g /\ err_ctx g = conn g.
Proof.
  destruct (leaves_natives table calls initial eq_refl) as [[H1 H2] H3].
  destruct (natives table calls initial) as [g t]. cbn [fst snd] in *.
  change (conn initial) with (@None xcb_connection) in *. auto.
Qed.

End NativeInterface.

(** ** The clipboard path *)

Section Clipboard.

Lemma texts_of_app (t1 t2 : list Action) :
  texts_of (t1 ++ t2) = texts_of t1 ++ texts_of t2.
Proof. unfold texts_of. apply flat_map_app. Qed.

Lemma texts_of_parse_error (e : option xcb_generic_error) : texts_of (parse_error e) = [].
Proof. destruct e; reflexivity. Qed.

(** The text one event delivers. *)
Lemma texts_of_handleXEvent (g : Globals) (c : xcb_connection) (ev : PolledEvent) :
  texts_of (handleXEvent g c ev) =
    if negb (response_type ev =? 0)
       && negb (response_type ev =? xfixes_first_event g + XCB_XFIXES_SELECTION_NOTIFY)
       && (Z.land (response_type ev) (Z.lnot 128) =? XCB_SELECTION_NOTIFY)
       && negb (from_reply (property_size ev) 0 =? 0)
    then match reply (property_value ev) with
         | Some bytes => [c_string bytes]
         | None => []
         end
    else [].
Proof.
  unfold handleXEvent.
  destruct (response_type ev =? 0); [reflexivity|].
  destruct (response_type ev =? _); [destruct (clipboard_sync_enabled g); reflexivity|].
  destruct (Z.land _ _ =? _); [|reflexivity].
  cbv zeta. cbn [negb andb].
  change (texts_of (?a :: ?l)) with (texts_of ([a] ++ l)).
  rewrite !texts_of_app, texts_of_parse_error.
  destruct (from_reply (property_size ev) 0 =? 0); [reflexivity|].
  cbn [negb]. change (texts_of (?a :: ?l)) with (texts_of ([a] ++ l)).
  rewrite !texts_of_app, texts_of_parse_error.
  destruct (reply (property_value ev)); reflexivity.
Qed.

Lemma c_string_no_zero (bytes : string) : forall pre post,
  c_string bytes <> (pre ++ String Ascii.zero post)%string.
Proof.
  induction bytes as [ | c bytes IH ]; intros pre post; cbn [c_string].
  - destruct pre; discriminate.
  - destruct (Ascii.eqb c Ascii.zero) eqn:E; [ destruct pre; discriminate | ].
    destruct pre as [ | c' pre ]; cbn [append].
    + intros [= -> _]. rewrite Ascii.eqb_refl in E. discriminate.
    + intros [= _ H]. exact (IH pre post H).
Qed.

(** X16.  A text reaches the Android clipboard only from the value the server
    returned for the property of a selection notification whose property is
    not empty, and only while a connection is installed.  The text is that
    value read as a C string: it ends before the first zero byte of the
    value and holds none.  Each polled event delivers at most one text. *)
Theorem clipboard_text_comes_from_a_selection
    (pending : list PolledEvent) (g : Globals) (text : string) :
  In text (texts_of (handleXEvents pending g)) ->
  conn g <> None
  /\ (List.length (texts_of (handleXEvents pending g)) <= List.length pending)%nat
  /\ (forall pre post, text <> (pre ++ String Ascii.zero post)%string)
  /\ exists ev bytes,
       In ev pending
       /\ reply (property_value ev) = Some bytes
       /\ text = c_string bytes
       /\ from_reply (property_size ev) 0 <> 0
       /\ Z.land (response_type ev) (Z.lnot 128) = XCB_SELECTION_NOTIFY.
Proof.
  unfold handleXEvents. destruct (conn g) as [c|]; [|intros []].
  intro Hin. split; [discriminate|]. split.
  { clear Hin. induction pending as [|ev rest IH]; cbn [flat_map]; [apply le_n|].
    rewrite texts_of_app, length_app, texts_of_handleXEvent. cbn [List.length].
    destruct (_ && _); [destruct (reply (property_value ev))|]; cbn [List.length]; lia. }
  assert (Hev : exists ev bytes,
             In ev pending
             /\ reply (property_value ev) = Some bytes
             /\ text = c_string bytes
             /\ from_reply (property_size ev) 0 <> 0
             /\ Z.land (response_type ev) (Z.lnot 128) = XCB_SELECTION_NOTIFY).
  { induction pending as [|ev rest IH]; cbn [flat_map] in Hin; [destruct Hin|].
    rewrite texts_of_app in Hin. apply in_app_or in Hin. destruct Hin as [Hin|Hin].
    + rewrite texts_of_handleXEvent in Hin.
      destruct (_ && _) eqn:E in Hin; [|destruct Hin].
      destruct (reply (property_value ev)) as [bytes|] eqn:Er; [|destruct Hin].
      destruct Hin as [<-|[]].
      apply andb_prop in E. destruct E as [E Esize].
      apply andb_prop in E. destruct E as [_ Enotify].
      exists ev, bytes. repeat split.
      * left. reflexivity.
      * exact Er.
      * apply negb_true_iff, Z.eqb_neq in Esize. exact Esize.
      * apply Z.eqb_eq. exact Enotify.
    + destruct (IH Hin) as (ev' & bytes & H1 & H2).
      exists ev', bytes. split; [right; exact H1 | exact H2]. }
  split; [ | exact Hev ].
  destruct Hev as (ev & bytes & _ & _ & -> & _).
  apply c_string_no_zero.
Qed.

(** X17.  The clipboard switch governs the conversion requests only: whatever
    its position, the same texts are delivered from the same events. *)
Theorem clipboard_delivery_ignores_the_switch
    (pending : list PolledEvent) (g : Globals) (enabled : bool) :
  texts_of (handleXEvents pending (setClipboardSyncEnabled enabled g))
  = texts_of (handleXEvents pending g).
Proof.
  unfold handleXEvents. cbn [setClipboardSyncEnabled conn].
  destruct (conn g) as [c|]; [|reflexivity].
  induction pending as [|ev rest IH]; cbn [flat_map]; [reflexivity|].
  rewrite !texts_of_app, IH, !texts_of_handleXEvent. reflexivity.
Qed.

(** X18.  When the query for XFIXES gave no first event (the variable stays
    or becomes 0), an event numbered 0 is taken as an error first, so no
    event is ever read as a change of the clipboard owner: no conversion is
    requested, also with synchronisation switched on. *)
Theorem without_xfixes_nothing_is_converted
    (answers : ConnectAnswers) (fd : Z) (g : Globals) (enabled : bool)
    (pending : list PolledEvent) :
  from_reply (xfixes_extension answers) (xfixes_first_event g) = 0 ->
  conversions_of
    (handleXEvents pending (setClipboardSyncEnabled enabled (fst (connect answers fd g))))
  = [].
Proof.
  intro Hfirst.
  rewrite (conversions_of_handleXEvents _ (mkConnection fd (connection_error answers)))
    by reflexivity.
  destruct (clipboard_sync_enabled _); [|reflexivity].
  replace (filter _ pending) with (@nil PolledEvent); [reflexivity|].
  symmetry. induction pending as [|ev rest IH]; cbn [filter]; [reflexivity|].
  rewrite IH. unfold is_owner_change. cbn [setClipboardSyncEnabled connect fst xfixes_first_event].
  rewrite Hfirst. unfold XCB_XFIXES_SELECTION_NOTIFY. rewrite Z.add_0_r.
  destruct (response_type ev =? 0); reflexivity.
Qed.

(** X19.  From connecting to converting: after [connect], an owner change
    (the event numbered as the server's XFIXES answer said) with
    synchronisation on asks the new connection to convert the selection
    named by the CLIPBOARD atom into the property named by the
    TERMUX_X11_CLIP atom of the window whose id was generated during
    [connect], and flushes. *)
Theorem owner_change_after_connect
    (answers : ConnectAnswers) (fd : Z) (g : Globals) (ev : PolledEvent)
    (first clipboard property : Z) :
  reply (xfixes_extension answers) = Some first ->
  reply (clipboard_atom answers) = Some clipboard ->
  reply (termux_clip_atom answers) = Some property ->
  response_type ev = first ->
  first <> 0 ->
  handleXEvents [ev] (setClipboardSyncEnabled true (fst (connect answers fd g)))
  = [Log (ResponseIs first); Log ClipboardContentChanged;
     XcbRequest (mkConnection fd (connection_error answers))
       (ConvertSelection (generated_id answers) clipboard XCB_ATOM_STRING property
          XCB_CURRENT_TIME);
     XcbFlush (mkConnection fd (connection_error answers))].
Proof.
  intros Hfirst Hclip Hprop Hev Hnz.
  unfold handleXEvents, handleXEvent, connect, setClipboardSyncEnabled, from_reply.
  cbn [fst conn xfixes_first_event clipboard_sync_enabled win atom_clipboard prop_sel flat_map].
  rewrite Hfirst, Hclip, Hprop, Hev.
  destruct (first =? 0) eqn:E0; [apply Z.eqb_eq in E0; contradiction|].
  unfold XCB_XFIXES_SELECTION_NOTIFY. rewrite Z.add_0_r, Z.eqb_refl. reflexivity.
Qed.

End Clipboard.

Lemma clipboard_text_comes_from_a_selection_witness :
  texts_of (handleXEvents [selection_reply_with_zero] connected) = ["he"%string]
  /\ exists ev bytes,
       In ev [selection_reply_with_zero]
       /\ reply (property_value ev) = Some bytes /\ "he"%string = c_string bytes.
Proof.
  assert (H : In "he"%string (texts_of (handleXEvents [selection_reply_with_zero] connected)))
    by (left; reflexivity).
  split; [reflexivity|].
  destruct (clipboard_text_comes_from_a_selection [selection_reply_with_zero] connected
              "he" H) as (_ & _ & _ & ev & bytes & H1 & H2 & H3 & _).
  exists ev, bytes. repeat split; assumption.
Defined.

Lemma without_xfixes_nothing_is_converted_witness :
  conversions_of
    (handleXEvents [owner_change_event]
       (setClipboardSyncEnabled true (fst (connect failing_transport 9 initial))))
  = [].
Proof.
  apply (without_xfixes_nothing_is_converted failing_transport 9 initial true
           [owner_change_event]).
  reflexivity.
Defined.

Lemma owner_change_after_connect_witness :
  conversions_of
    (handleXEvents [owner_change_event]
       (setClipboardSyncEnabled true (fst (connect xfixes_server 9 initial))))
  = [ConvertSelection 2097152 280 XCB_ATOM_STRING 300 XCB_CURRENT_TIME].
Proof.
  rewrite (owner_change_after_connect xfixes_server 9 initial owner_change_event 87 280 300);
    [reflexivity | reflexivity | reflexivity | reflexivity | reflexivity | lia].
Defined.

(** ** Touch batches, the process name and the start of the server *)

Section TouchBatches.

(** X20.  Touch points are collected and sent together: with a connection
    installed, a run of touch-point calls followed by the flush marker (a
    call with a negative action) reaches the connection as one request per
    point, in call order, and a single flush at the very end. *)
Theorem touch_batch_is_flushed_once
    (g : Globals) (c : xcb_connection) (points : list (Z * Z * Z * Z))
    (marker : Z * Z * Z * Z) :
  conn g = Some c ->
  Forall (fun p => 0 <= fst (fst (fst p))) points ->
  fst (fst (fst marker)) < 0 ->
  sendTouchEvents (points ++ [marker]) g
  = map (fun p : Z * Z * Z * Z =>
           let '(action, id, x, y) := p in XcbRequest c (Tx11TouchEvent action id x y))
        points
    ++ [XcbFlush c].
Proof.
  intros Hc Hpoints Hmarker. unfold sendTouchEvents. rewrite flat_map_app. f_equal.
  - induction Hpoints as [|[[[action id] x] y] rest Hp _ IH]; cbn [flat_map map];
      [reflexivity|].
    rewrite IH. unfold sendTouchEvent. rewrite Hc. cbn [fst] in Hp.
    apply Z.leb_le in Hp. rewrite Hp. reflexivity.
  - destruct marker as [[[action id] x] y]. cbn [fst] in Hmarker. cbn [flat_map].
    unfold sendTouchEvent. rewrite Hc.
    destruct (0 <=? action) eqn:E; [apply Z.leb_le in E; lia | reflexivity].
Qed.

End TouchBatches.

Lemma touch_batch_is_flushed_once_witness :
  sendTouchEvents [(0, 0, 10, 20); (2, 1, 30, 40); (-1, 0, 0, 0)] connected
  = [XcbRequest a_connection (Tx11TouchEvent 0 0 10 20);
     XcbRequest a_connection (Tx11TouchEvent 2 1 30 40);
     XcbFlush a_connection].
Proof.
  apply (touch_batch_is_flushed_once connected a_connection
           [(0, 0, 10, 20); (2, 1, 30, 40)] (-1, 0, 0, 0)).
  - reflexivity.
  - repeat constructor; cbn; lia.
  - cbn. lia.
Defined.

Section ProcessName.

Lemma before_colon_prefix (s : string) :
  s = before_colon s \/ exists rest, s = (before_colon s ++ String ":" rest)%string.
Proof.
  induction s as [|a s IH]; cbn [before_colon]; [left; reflexivity|].
  destruct (Ascii.eqb a ":") eqn:E.
  - apply Ascii.eqb_eq in E. subst a. right. exists s. reflexivity.
  - destruct IH as [IH|[rest IH]].
    + left. f_equal. exact IH.
    + right. exists rest. cbn [append]. f_equal. exact IH.
Qed.

(** X21.  The library constructor forwards standard error to the log
    exactly in the processes of the application itself: those named
    [com.termux.x11] or [com.termux.x11:] followed by anything (the name of
    a service process), and in no other. *)
Theorem init_recognises_the_application (name : string) :
  init name = true
  <-> name = "com.termux.x11"%string
      \/ exists rest, name = ("com.termux.x11:" ++ rest)%string.
Proof.
  unfold init, progname. cbn [fst]. split.
  - intro H. apply String.eqb_eq in H.
    destruct (before_colon_prefix name) as [E|[rest E]]; rewrite <- H in E.
    + left. exact E.
    + right. exists rest. exact E.
  - intros [->|[rest ->]]; reflexivity.
Qed.

End ProcessName.

Section ServerStart.

Context (sys : System) (old_font old_xkb : option string) (args : list string)
  (env : Environment).

Lemma provide_same (name first second : string) (e : Environment) :
  provide sys name first second e name = resolved sys first second (e name).
Proof.
  unfold provide, resolved, setenv. destruct (e name) eqn:E; [exact E|].
  destruct (access sys first); [rewrite String.eqb_refl; reflexivity|].
  destruct (access sys second); [rewrite String.eqb_refl; reflexivity | exact E].
Qed.

Lemma provide_other (name first second other : string) (e : Environment) :
  other <> name -> provide sys name first second e other = e other.
Proof.
  intro H. apply String.eqb_neq in H. unfold provide, setenv.
  destruct (e name); [reflexivity|].
  destruct (access sys first); [rewrite H; reflexivity|].
  destruct (access sys second); [rewrite H; reflexivity | reflexivity].
Qed.

Lemma resolved_known (first second : string) (value : option string) :
  resolved sys first second value <> None
  <-> value <> None \/ access sys first = true \/ access sys second = true.
Proof.
  unfold resolved. destruct value; [split; [left|]; discriminate|].
  destruct (access sys first); [split; [right; left; reflexivity | discriminate]|].
  destruct (access sys second); [split; [right; right; reflexivity | discriminate]|].
  split; [congruence | intros [H|[H|H]]; congruence].
Qed.

Lemma resolved_exists (first second : string) (value : option string) :
  (exists directory,
     resolved sys first second value = Some directory /\ access sys directory = true)
  <-> match value with
      | Some directory => access sys directory = true
      | None => access sys first = true \/ access sys second = true
      end.
Proof.
  unfold resolved. destruct value as [d|].
  - split; [intros (d' & E & H); congruence | intro H; exists d; auto].
  - destruct (access sys first) eqn:E1.
    { split; [auto | intros _; exists first; auto]. }
    destruct (access sys second) eqn:E2.
    { split; [auto | intros _; exists second; auto]. }
    split; [intros (d & E & _); discriminate | intros [H|H]; discriminate].
Qed.

(** The three results of [start] in terms of the two resolved variables. *)
Lemma start_run :
  let tmp := resolved sys "/tmp" "/data/data/com.termux/files/usr/tmp"
               (env "TMPDIR"%string) in
  let xkb := resolved sys "/usr/share/X11/xkb"
               "/data/data/com.termux/files/usr/share/X11/xkb"
               (env "XKB_CONFIG_ROOT"%string) in
  let '(ok, state, log) := start sys old_font old_xkb args env in
  started_env state "TMPDIR"%string = tmp
  /\ match tmp, xkb with
     | None, _ =>
         ok = false /\ XkbBaseDirectory state = old_xkb
         /\ exists message, log = [StartLogError message]
     | Some _, None =>
         ok = false /\ XkbBaseDirectory state = old_xkb
         /\ exists message, log = [StartLogError message]
     | Some _, Some directory =>
         ok = access sys directory
         /\ XkbBaseDirectory state = Some directory
         /\ started_env state "XKB_CONFIG_ROOT"%string = Some directory
         /\ log = if access sys directory
                  then [StartServerThread ("Xlorie"%string :: args)]
                  else [StartLogUnaccessible directory]
     end.
Proof.
  cbv zeta. unfold start. rewrite provide_same.
  destruct (resolved sys "/tmp" _ (env "TMPDIR"%string)) as [tmp|] eqn:Et.
  - rewrite provide_same, provide_other by discriminate.
    destruct (resolved sys "/usr/share/X11/xkb" _ (env "XKB_CONFIG_ROOT"%string))
      as [xkb|] eqn:Ex.
    + assert (H1 : provide sys "XKB_CONFIG_ROOT" "/usr/share/X11/xkb"
                     "/data/data/com.termux/files/usr/share/X11/xkb"
                     (provide sys "TMPDIR" "/tmp" "/data/data/com.termux/files/usr/tmp" env)
                     "TMPDIR"%string = Some tmp).
      { rewrite provide_other by discriminate. rewrite provide_same. exact Et. }
      assert (H2 : provide sys "XKB_CONFIG_ROOT" "/usr/share/X11/xkb"
                     "/data/data/com.termux/files/usr/share/X11/xkb"
                     (provide sys "TMPDIR" "/tmp" "/data/data/com.termux/files/usr/tmp" env)
                     "XKB_CONFIG_ROOT"%string = Some xkb).
      { rewrite provide_same. rewrite provide_other by discriminate. exact Ex. }
      destruct (access sys xkb) eqn:Ea; cbn [started_env XkbBaseDirectory];
        unfold setenv; cbn [String.eqb Ascii.eqb Bool.eqb andb]; auto.
    + cbn [started_env XkbBaseDirectory].
      rewrite provide_other, provide_same by discriminate. rewrite Et. eauto.
  - cbn [started_env XkbBaseDirectory]. rewrite provide_same, Et. eauto.
Qed.

Let outcome := start sys old_font old_xkb args env.
Let ok := fst (fst outcome).
Let state := snd (fst outcome).
Let log := snd outcome.

(** X22.  The server is started exactly when [start] answers true, once,
    as [Xlorie] followed by the arguments given; this happens exactly when
    a temporary directory is known (the variable is set, or one of the two
    usual directories exists) and the directory of the keyboard data exists
    (the one the variable names, or else the first usual one that exists).
    Otherwise one error is logged and no server runs.  After a success the
    keyboard directory of the server is the value of the variable and
    exists. *)
Theorem start_runs_the_server_iff_directories_exist :
  (ok = true <->
     (env "TMPDIR"%string <> None \/ access sys "/tmp" = true
      \/ access sys "/data/data/com.termux/files/usr/tmp" = true)
     /\ match env "XKB_CONFIG_ROOT"%string with
        | Some directory => access sys directory = true
        | None => access sys "/usr/share/X11/xkb" = true
                  \/ access sys "/data/data/com.termux/files/usr/share/X11/xkb" = true
        end)
  /\ (ok = true -> log = [StartServerThread ("Xlorie"%string :: args)])
  /\ (ok = false ->
        exists line, log = [line] /\ forall argv, line <> StartServerThread argv)
  /\ (ok = true ->
        exists directory,
          XkbBaseDirectory state = Some directory
          /\ started_env state "XKB_CONFIG_ROOT"%string = Some directory
          /\ access sys directory = true
          /\ started_env state "TMPDIR"%string <> None).
Proof.
  pose proof start_run as H. cbv zeta in H.
  rewrite <- resolved_known, <- resolved_exists.
  subst ok state log outcome.
  destruct (start sys old_font old_xkb args env) as [[ok state] log]. cbn [fst snd].
  destruct H as [Htmp H].
  destruct (resolved sys "/tmp" _ _) as [tmp|];
    [destruct (resolved sys "/usr/share/X11/xkb" _ _) as [xkb|]|].
  - destruct H as (-> & Hx & He & ->). repeat split.
    + discriminate.
    + exists xkb. auto.
    + intros [_ (d & E & Ha)]. congruence.
    + intros ->. reflexivity.
    + intros ->. eexists. split; [reflexivity | discriminate].
    + intro Ha. exists xkb. rewrite Htmp. repeat split; auto. discriminate.
  - destruct H as (-> & _ & message & ->). repeat split; try discriminate.
    + intros [_ (d & E & _)]. discriminate.
    + intros _. eexists. split; [reflexivity | discriminate].
  - destruct H as (-> & _ & message & ->). repeat split; try discriminate.
    + intros [E _]. congruence.
    + intros _. eexists. split; [reflexivity | discriminate].
Qed.

(** X23.  [start] fills gaps in the environment and does not overrule the
    caller: a variable that is set keeps its value (only
    [LIBGL_DRIVERS_PATH] is rewritten, to the directory of the library,
    once both directories are known), no variable other than the three is
    touched, and an unset [TMPDIR] becomes [/tmp] whenever that directory
    exists, the directory under the Termux prefix being the second
    choice. *)
Theorem start_fills_gaps_in_the_environment (name value : string) :
  env name = Some value ->
  (name <> "LIBGL_DRIVERS_PATH"%string -> started_env state name = Some value)
  /\ (forall other,
        other <> "TMPDIR"%string -> other <> "XKB_CONFIG_ROOT"%string ->
        other <> "LIBGL_DRIVERS_PATH"%string ->
        started_env state other = env other)
  /\ (env "TMPDIR"%string = None -> access sys "/tmp" = true ->
      started_env state "TMPDIR"%string = Some "/tmp"%string).
Proof.
  intro Hset.
  assert (Hprovide : forall n first second (e : Environment),
            e name = Some value -> provide sys n first second e name = Some value).
  { intros n first second e He. destruct (String.eqb name n) eqn:E.
    - apply String.eqb_eq in E. subst n. rewrite provide_same, He. reflexivity.
    - apply String.eqb_neq in E. rewrite provide_other by exact E. exact He. }
  split; [|split].
  - intro Hlib. apply String.eqb_neq in Hlib.
    subst ok state log outcome. unfold start.
    repeat match goal with
           | |- context [match ?x with _ => _ end] => destruct x
           end; cbn [fst snd started_env]; unfold setenv; rewrite ?Hlib; auto.
  - intros other H1 H2 H3. apply String.eqb_neq in H3.
    subst ok state log outcome. unfold start.
    repeat match goal with
           | |- context [match ?x with _ => _ end] => destruct x
           end; cbn [fst snd started_env]; unfold setenv; rewrite ?H3;
      rewrite ?provide_other by assumption; reflexivity.
  - intros Htmp Haccess. pose proof start_run as H. cbv zeta in H.
    subst ok state log outcome.
    destruct (start sys old_font old_xkb args env) as [[ok state] log]. cbn [fst snd].
    destruct H as [-> _]. unfold resolved. rewrite Htmp, Haccess. reflexivity.
Qed.

End ServerStart.

Lemma start_runs_the_server_iff_directories_exist_witness :
  fst (fst (start a_container None None ["-ac"%string] an_environment)) = true
  /\ snd (start a_container None None ["-ac"%string] an_environment)
     = [StartServerThread ["Xlorie"%string; "-ac"%string]].
Proof.
  pose proof (start_runs_the_server_iff_directories_exist a_container None None
                ["-ac"%string] an_environment) as (Hok & Hlog & _).
  assert (H : fst (fst (start a_container None None ["-ac"%string] an_environment)) = true).
  { apply Hok. split; [right; left; reflexivity | left; reflexivity]. }
  split; [exact H | exact (Hlog H)].
Defined.

Lemma start_fills_gaps_in_the_environment_witness :
  an_environment "HOME"%string = Some "/home"%string
  /\ started_env (snd (fst (start a_container None None [] an_environment))) "HOME"%string
     = Some "/home"%string
  /\ started_env (snd (fst (start a_container None None [] an_environment))) "TMPDIR"%string
     = Some "/tmp"%string.
Proof.
  destruct (start_fills_gaps_in_the_environment a_container None None [] an_environment
              "HOME" "/home" eq_refl) as (H1 & _ & H3).
  split; [reflexivity|]. split.
  - apply H1. discriminate.
  - apply H3; reflexivity.
Defined.

(** ** The gesture statements at concrete inputs *)

Lemma mouse_buttons_are_diffed_witness :
  getAction mouse_click <> ACTION_SCROLL
  /\ List.length
       (filter is_mouse_button_event
          (trace_of (HardwareMouseListener_onTouch Main (mkView true false) mouse_click
                       portrait_phone))) = 1%nat.
Proof.
  assert (H : getAction mouse_click <> ACTION_SCROLL) by (vm_compute; discriminate).
  split; [ exact H | ].
  rewrite (proj1 (mouse_buttons_are_diffed Main portrait_phone (mkView true false)
                    mouse_click H)).
  vm_compute. reflexivity.
Defined.

Lemma swipe_up_fires_once_witness :
  forallb continues_session [three_finger_drag_up; three_finger_drag_up] = true
  /\ swipeUps (trace_of (@runSession consuming_strategy Main
                           [three_finger_drag_up; three_finger_drag_up] portrait_phone))
     = 1%nat
  /\ swipeDowns (trace_of (@runSession consuming_strategy Main
                             [three_finger_drag_up; three_finger_drag_up] portrait_phone))
     = 0%nat.
Proof.
  assert (H1 : forallb continues_session
                 ([] ++ three_finger_drag_up :: [three_finger_drag_up]) = true)
    by reflexivity.
  assert (H3 : 3 <= getPointerCount three_finger_move) by (vm_compute; discriminate).
  assert (H4 : startsInsidePanBounds Main portrait_phone three_finger_down = true)
    by (vm_compute; reflexivity).
  assert (H5 : mSwipeCompleted (handler Main portrait_phone) = false) by reflexivity.
  assert (H6 : F32.gtb (F32.sub (mTotalMotionY (handler Main portrait_phone))
                          (F32.of_int 100))
                 (mSwipeThreshold (handler Main portrait_phone)) = false)
    by (vm_compute; reflexivity).
  assert (H7 : F32.ltb (F32.sub (mTotalMotionY (handler Main portrait_phone))
                          (F32.of_int 100))
                 (F32.neg (mSwipeThreshold (handler Main portrait_phone))) = true)
    by (vm_compute; reflexivity).
  destruct (@swipe_up_fires_once consuming_strategy Main portrait_phone
              [] [three_finger_drag_up] (mkView true false) three_finger_move
              (snd three_finger_drag_up) three_finger_down three_finger_move
              F32.zero (F32.of_int 100) false H1 eq_refl H3 H4 H5 H6 H7)
    as (Hu & Hd & _).
  repeat split; assumption.
Defined.

Lemma session_fires_at_most_one_swipe_witness :
  forallb continues_session [three_finger_drag; three_finger_drag_up] = true
  /\ (swipeDowns (trace_of (@runSession consuming_strategy Main
                              [three_finger_drag; three_finger_drag_up] portrait_phone))
      + swipeUps (trace_of (@runSession consuming_strategy Main
                              [three_finger_drag; three_finger_drag_up] portrait_phone))
      <= 1)%nat.
Proof.
  assert (H : forallb continues_session [three_finger_drag; three_finger_drag_up] = true)
    by reflexivity.
  split; [ exact H | ].
  exact (proj1 (@session_fires_at_most_one_swipe consuming_strategy Main portrait_phone
                  [three_finger_drag; three_finger_drag_up] H)).
Defined.

Lemma suppression_lasts_for_the_session_witness :
  mSuppressCursorMovement (handler Main suppressed_phone) = true
  /\ mSuppressCursorMovement
       (handler Main (world_of (@runSession consuming_strategy Main [three_finger_drag]
                                  suppressed_phone))) = true
  /\ result (onScroll Main three_finger_down one_finger_move
               (F32.of_int 10) (F32.of_int 20) false suppressed_phone) = false.
Proof.
  assert (H : mSuppressCursorMovement (handler Main suppressed_phone) = true)
    by reflexivity.
  destruct (@suppression_lasts_for_the_session consuming_strategy Main suppressed_phone H)
    as [Hsession Hscroll].
  split; [ exact H | ]. split.
  - apply Hsession. reflexivity.
  - apply Hscroll. reflexivity.
Defined.

Lemma edge_scrolls_are_turned_away_witness :
  mEdgeSlopInPx (mainHandler portrait_phone) = 16
  /\ startsInsidePanBounds Main
       (world_of (handleHostSizeChanged Main 1920 1080 portrait_phone)) three_finger_down
     = true.
Proof.
  assert (E : mEdgeSlopInPx (mainHandler portrait_phone) = 16) by reflexivity.
  split; [ exact E | ].
  rewrite (proj1 (edge_scrolls_are_turned_away portrait_phone 1920 1080 three_finger_down
                    ltac:(rewrite E; lia) ltac:(rewrite E; lia))).
  vm_compute. reflexivity.
Defined.

Lemma one_finger_pan_witness :
  startsInsidePanBounds Main portrait_phone three_finger_down = true
  /\ getPointerCount one_finger_move = 1
  /\ result (onScroll Main three_finger_down one_finger_move
               (F32.of_int 10) (F32.of_int 20) false portrait_phone) = true.
Proof.
  assert (H1 : startsInsidePanBounds Main portrait_phone three_finger_down = true)
    by (vm_compute; reflexivity).
  split; [ exact H1 | ]. split; [ reflexivity | ].
  exact (proj1 (one_finger_pan Main portrait_phone three_finger_down
                  one_finger_move (F32.of_int 10) (F32.of_int 20) false H1 eq_refl
                  eq_refl)).
Defined.

Lemma two_finger_scroll_witness :
  startsInsidePanBounds Main portrait_phone three_finger_down = true
  /\ getPointerCount two_finger_move = 2
  /\ trace_of (onScroll Main three_finger_down two_finger_move
                 (F32.of_int 10) (F32.of_int 20) true portrait_phone)
     = [StrategyOnScroll TrackpadInputStrategy (F32.of_int 10) (F32.of_int 20)].
Proof.
  assert (H1 : startsInsidePanBounds Main portrait_phone three_finger_down = true)
    by (vm_compute; reflexivity).
  split; [ exact H1 | ]. split; [ reflexivity | ].
  destruct (two_finger_scroll Main portrait_phone three_finger_down
              two_finger_move (F32.of_int 10) (F32.of_int 20) true H1 eq_refl)
    as (_ & Hindirect & _).
  rewrite (Hindirect eq_refl eq_refl). reflexivity.
Defined.

(** ** Dragging with a Dex pointer *)

Section DexDrag.
Context (this : Which) (v : View).

Lemma dex_flags (e : MotionEvent) :
  is_dex_drag e = true ->
  (Z.land (getFlags e) FLAG_DEX_SCROLL =? FLAG_DEX_SCROLL) = false
  /\ (Z.land (getFlags e) FLAG_DEX_DRAG =? FLAG_DEX_DRAG) = true.
Proof.
  unfold is_dex_drag. intro H. apply andb_prop in H. destruct H as [H1 H2].
  apply negb_true_iff in H1. auto.
Qed.

Lemma dex_drag_down (e : MotionEvent) (o : DetectorOracle) (w : World) :
  getActionMasked e = ACTION_DOWN -> is_dex_drag e = true ->
  DexListener_onTouch this v e o w
  = (true,
     set_handler this
       (with_mDexListener
          (mkDexState (dexButtons (mDexListener (handler this w))) true
             (dexIsScrolling (mDexListener (handler this w))))
          (handler this w)) w,
     [InjectorSendMouseEvent (cursor w) 1 true false]).
Proof.
  intros Hact Hdrag. destruct (dex_flags e Hdrag) as [Hs Hd].
  unfold DexListener_onTouch. cbv zeta. unfold bind at 1. cbn [this_handler bind get ret].
  rewrite Hact, Hs, Hd. cbn [Z.eqb ACTION_DOWN ACTION_BUTTON_PRESS ACTION_BUTTON_RELEASE
                               ACTION_HOVER_MOVE orb].
  unfold update_dex. run_monad. destruct this; reflexivity.
Qed.

Lemma dex_drag_move (e : MotionEvent) (o : DetectorOracle) (w : World) :
  getActionMasked e = ACTION_MOVE -> is_dex_drag e = true ->
  dexIsDragging (mDexListener (handler this w)) = true ->
  DexListener_onTouch this v e o w
  = (true, world_of (moveCursorToEvent e w), trace_of (moveCursorToEvent e w)).
Proof.
  intros Hact Hdrag Hdragging. destruct (dex_flags e Hdrag) as [Hs Hd].
  unfold DexListener_onTouch. cbv zeta. unfold bind at 1. cbn [this_handler bind get ret].
  rewrite Hact, Hs, Hd, Hdragging.
  cbn [Z.eqb ACTION_MOVE ACTION_DOWN ACTION_UP ACTION_BUTTON_PRESS ACTION_BUTTON_RELEASE
         ACTION_HOVER_MOVE orb andb Pos.eqb].
  rewrite andb_false_r. unfold bind, ret, world_of, trace_of.
  destruct (moveCursorToEvent e w) as [[u w2] t2]. cbn [fst snd app].
  rewrite app_nil_r. reflexivity.
Qed.

Lemma dex_drag_up (e : MotionEvent) (o : DetectorOracle) (w : World) :
  getActionMasked e = ACTION_UP -> is_dex_drag e = true ->
  DexListener_onTouch this v e o w
  = (true,
     set_handler this
       (with_mDexListener
          (mkDexState (dexButtons (mDexListener (handler this w))) false
             (dexIsScrolling (mDexListener (handler this w))))
          (handler this w)) w,
     InjectorSendMouseEvent (cursor w) 1 false false
       :: (if pointerCapture (mInjector w) && negb (hasPointerCapture v)
           then [ViewRequestPointerCapture] else [])).
Proof.
  intros Hact Hdrag. destruct (dex_flags e Hdrag) as [Hs Hd].
  unfold DexListener_onTouch. cbv zeta. unfold bind at 1. cbn [this_handler bind get ret].
  rewrite Hact, Hs, Hd.
  cbn [Z.eqb ACTION_MOVE ACTION_DOWN ACTION_UP ACTION_BUTTON_PRESS ACTION_BUTTON_RELEASE
         ACTION_HOVER_MOVE orb andb Pos.eqb].
  unfold update_dex. run_monad.
  destruct this; cbn [mInjector set_handler];
    destruct (pointerCapture (mInjector w) && negb (hasPointerCapture v)); reflexivity.
Qed.

Lemma last_cons_default {A} (l : list A) : forall (x d d' : A),
  last (x :: l) d = last (x :: l) d'.
Proof.
  induction l as [ | y l IH ]; intros x d d'; [ reflexivity | ].
  change (last (y :: l) d = last (y :: l) d'). apply IH.
Qed.

(** The moves of a drag: no button event, the drag goes on, and the cursor
    follows the pointer. *)
Lemma dex_drag_moves (moves : list (MotionEvent * DetectorOracle)) : forall w,
  Forall (fun m => getActionMasked (fst m) = ACTION_MOVE /\ is_dex_drag (fst m) = true)
    moves ->
  dexIsDragging (mDexListener (handler this w)) = true ->
  filter is_mouse_button_event (trace_of (dexSession this v moves w)) = []
  /\ dexIsDragging (mDexListener (handler this (world_of (dexSession this v moves w)))) = true
  /\ cursor (world_of (dexSession this v moves w))
     = last (map (fun m => pointerImagePoint w (fst m)) moves) (cursor w)
  /\ mInjector (world_of (dexSession this v moves w)) = mInjector w
  /\ transform (mRenderData (world_of (dexSession this v moves w)))
     = transform (mRenderData w).
Proof.
  induction moves as [ | [e o] rest IH ]; intros w Hmoves Hdragging.
  - repeat split. exact Hdragging.
  - inversion Hmoves as [ | m l [Hact Hdrag] Hrest ]; subst. cbn [fst] in Hact, Hdrag.
    unfold dexSession. cbn [forEach fst snd]. fold (dexSession this v rest).
    rewrite world_bind, trace_bind, world_bind, trace_bind.
    rewrite (dex_drag_move e o w Hact Hdrag Hdragging).
    cbn [world_of trace_of result fst snd]. rewrite world_ret, trace_ret, app_nil_r.
    rewrite filter_app, moveCursorToEvent_no_button. cbn [app].
    pose proof (moveCursorToEvent_world e w) as Hw. cbv zeta in Hw.
    fold (world_of (moveCursorToEvent e w)).
    set (w1 := world_of (moveCursorToEvent e w)) in *.
    assert (Hd1 : dexIsDragging (mDexListener (handler this w1)) = true).
    { rewrite Hw. destruct this; exact Hdragging. }
    destruct (IH w1 Hrest Hd1) as (Ht & Hdr & Hc & Hi & Htr).
    assert (Hpoint : forall e', pointerImagePoint w1 e' = pointerImagePoint w e').
    { intro e'. rewrite Hw. reflexivity. }
    repeat split.
    + exact Ht.
    + exact Hdr.
    + rewrite Hc. cbn [map fst].
      rewrite (map_ext _ (fun m => pointerImagePoint w (fst m)))
        by (intro; apply Hpoint).
      destruct rest as [ | m rest' ].
      * cbn [map last]. rewrite Hw. reflexivity.
      * cbn [map]. rewrite (last_cons_default _ _ (cursor w1) (cursor w)). reflexivity.
    + rewrite Hi, Hw. reflexivity.
    + rewrite Htr, Hw. reflexivity.
Qed.

(** X24.  A drag with a Dex pointer holds the left button for exactly its
    duration.  For a press, any number of moves and a release, all flagged
    as a drag, the listener sends one button event at the start (left
    button down, at the cursor position of that moment) and one at the end
    (left button up, at the final cursor position) and none in between; the
    cursor follows the pointer, ending at the image point of the last move
    (stored within the image); and the listener is no longer dragging
    afterwards. *)
Theorem dex_drag_holds_the_left_button
    (w : World) (down up : MotionEvent) (o_down o_up : DetectorOracle)
    (moves : list (MotionEvent * DetectorOracle)) :
  getActionMasked down = ACTION_DOWN -> is_dex_drag down = true ->
  Forall (fun m => getActionMasked (fst m) = ACTION_MOVE /\ is_dex_drag (fst m) = true)
    moves ->
  getActionMasked up = ACTION_UP -> is_dex_drag up = true ->
  let run := dexSession this v ((down, o_down) :: moves ++ [(up, o_up)]) w in
  filter is_mouse_button_event (trace_of run)
  = [InjectorSendMouseEvent (cursor w) 1 true false;
     InjectorSendMouseEvent (cursor (world_of run)) 1 false false]
  /\ cursor (world_of run)
     = last (map (fun m => pointerImagePoint w (fst m)) moves) (cursor w)
  /\ dexIsDragging (mDexListener (handler this (world_of run))) = false.
Proof.
  intros Hdown Hddown Hmoves Hup Hdup. cbv zeta.
  unfold dexSession. cbn [forEach fst snd]. fold (dexSession this v).
  rewrite world_bind, trace_bind, world_bind, trace_bind.
  rewrite (dex_drag_down down o_down w Hdown Hddown).
  cbn [world_of trace_of result fst snd]. rewrite world_ret, trace_ret.
  set (w0 := set_handler this _ w).
  assert (Hd0 : dexIsDragging (mDexListener (handler this w0)) = true)
    by (subst w0; destruct this; reflexivity).
  destruct (dex_drag_moves moves w0 Hmoves Hd0) as (Ht & Hdr & Hc & Hi & Htr).
  unfold dexSession in *.
  rewrite forEach_app_trace, forEach_app_world.
  set (w1 := world_of (forEach _ moves w0)) in *.
  cbn [forEach fst snd].
  rewrite !world_bind, !trace_bind, (dex_drag_up up o_up w1 Hup Hdup).
  cbn [world_of trace_of result fst snd]. rewrite !world_ret, !trace_ret.
  assert (Hc1 : cursor w1 = last (map (fun m => pointerImagePoint w (fst m)) moves) (cursor w)).
  { rewrite Hc. subst w0. destruct this; reflexivity. }
  repeat split.
  - rewrite !filter_app, Ht. cbn [app filter is_mouse_button_event].
    destruct (pointerCapture (mInjector w1) && negb (hasPointerCapture v));
      destruct this; reflexivity.
  - rewrite <- Hc1. destruct this; reflexivity.
  - destruct this; reflexivity.
Qed.

End DexDrag.

Lemma dex_drag_holds_the_left_button_witness :
  List.length
    (filter is_mouse_button_event
       (trace_of (dexSession Main (mkView true false)
                    [(dex_event ACTION_DOWN 100 100, no_callbacks);
                     (dex_event ACTION_MOVE 150 120, no_callbacks);
                     (dex_event ACTION_UP 150 120, no_callbacks)] portrait_phone)))
  = 2%nat.
Proof.
  assert (Hmoves : Forall (fun m : MotionEvent * DetectorOracle =>
                             getActionMasked (fst m) = ACTION_MOVE
                             /\ is_dex_drag (fst m) = true)
                     [(dex_event ACTION_MOVE 150 120, no_callbacks)]).
  { constructor; [ split; reflexivity | constructor ]. }
  pose proof (proj1 (dex_drag_holds_the_left_button Main (mkView true false) portrait_phone
                       (dex_event ACTION_DOWN 100 100) (dex_event ACTION_UP 150 120)
                       no_callbacks no_callbacks
                       [(dex_event ACTION_MOVE 150 120, no_callbacks)]
                       eq_refl eq_refl Hmoves eq_refl eq_refl)) as H.
  cbn [app] in H. rewrite H. reflexivity.
Defined.
